(** * drm-framebuffer: acquisition and release of a DRM dumb framebuffer

    A shallow embedding of [framebuffer.c]: the connector-type name table,
    the mode selection, [release_framebuffer] and [get_framebuffer].

    - The kernel and libdrm are an abstract interface over a hidden state;
      every call the program makes is recorded, with its arguments and its
      answer, in a trace, in the order the calls are made.
    - The structure [*fb] of the caller is part of the state the program
      runs in: both functions read and write it in place.
    - C integers are [Z]; no operation of the program can overflow (the mode
      sizes are widened from 16 to 32 bits, everything else is copied or
      compared).  The counts of the libdrm arrays are the lengths of the
      lists that model them, and reading element 0 of an empty array is a
      [Fault].
    - A pointer to an object of libdrm is the object.  Where it matters
      whether the object is still alive, the lifetimes of the objects go
      beside the handle: [release_framebuffer_from].
    - The diagnostic [printf]s are left out: they touch nothing the
      properties below speak about. *)

From Stdlib Require Import ZArith List String Ascii Bool Lia DecimalString.
From Stdlib Require NArith DecimalFacts DecimalPos DecimalN.
Import ListNotations.
Open Scope Z_scope.

(** ** Constants of the system headers *)

(** [errno.h] *)
Definition EINVAL : Z := 22.

(** [sys/mman.h] *)
Definition PROT_READ : Z := 1.
Definition PROT_WRITE : Z := 2.
Definition MAP_SHARED : Z := 1.
Definition MAP_FAILED : Z := -1.

(** [fcntl.h] *)
Definition O_RDWR : Z := 2.

(** [drm_mode.h]: the preferred-mode bit of [drmModeModeInfo.type]. *)
Definition DRM_MODE_TYPE_PREFERRED : Z := Z.shiftl 1 3.

(** [drm_fourcc.h]: [fourcc_code(a,b,c,d) = a | b << 8 | c << 16 | d << 24]. *)
Definition fourcc_code (a b c d : ascii) : Z :=
  Z.lor (Z.of_N (N_of_ascii a))
    (Z.lor (Z.shiftl (Z.of_N (N_of_ascii b)) 8)
       (Z.lor (Z.shiftl (Z.of_N (N_of_ascii c)) 16)
          (Z.shiftl (Z.of_N (N_of_ascii d)) 24))).

(** [A:B:G:R 8:8:8:8], little endian. *)
Definition DRM_FORMAT_ABGR8888 : Z := fourcc_code "A" "B" "2" "4".

(** [drm_mode.h]: connector types. *)
Definition DRM_MODE_CONNECTOR_Unknown : Z := 0.
Definition DRM_MODE_CONNECTOR_VGA : Z := 1.
Definition DRM_MODE_CONNECTOR_DVII : Z := 2.
Definition DRM_MODE_CONNECTOR_DVID : Z := 3.
Definition DRM_MODE_CONNECTOR_DVIA : Z := 4.
Definition DRM_MODE_CONNECTOR_Composite : Z := 5.
Definition DRM_MODE_CONNECTOR_SVIDEO : Z := 6.
Definition DRM_MODE_CONNECTOR_LVDS : Z := 7.
Definition DRM_MODE_CONNECTOR_Component : Z := 8.
Definition DRM_MODE_CONNECTOR_9PinDIN : Z := 9.
Definition DRM_MODE_CONNECTOR_DisplayPort : Z := 10.
Definition DRM_MODE_CONNECTOR_HDMIA : Z := 11.
Definition DRM_MODE_CONNECTOR_HDMIB : Z := 12.
Definition DRM_MODE_CONNECTOR_TV : Z := 13.
Definition DRM_MODE_CONNECTOR_eDP : Z := 14.
Definition DRM_MODE_CONNECTOR_VIRTUAL : Z := 15.
Definition DRM_MODE_CONNECTOR_DSI : Z := 16.
Definition DRM_MODE_CONNECTOR_DPI : Z := 17.

(** ** Data *)

(** [struct type_name]. *)
Record type_name := { tn_type : Z; tn_name : string }.

(** [drmModeModeInfo], the fields the program reads. *)
Record drmModeModeInfo := {
  hdisplay : Z;
  vdisplay : Z;
  mode_type : Z
}.

(** [drmModeConnector].  [modes] and [encoders] are the arrays with their
    counts: [count_modes] is the length of [modes]. *)
Record drmModeConnector := {
  connector_id : Z;
  encoder_id : Z;
  connector_type : Z;
  connector_type_id : Z;
  modes : list drmModeModeInfo;
  encoders : list Z
}.

Definition count_modes (c : drmModeConnector) : Z :=
  Z.of_nat (List.length (modes c)).

(** [drmModeRes]: [count_connectors] is the length of [connectors]. *)
Record drmModeRes := {
  connectors : list Z;
  crtcs : list Z
}.

(** [drmModeEncoder]. *)
Record drmModeEncoder := {
  enc_encoder_id : Z;
  enc_crtc_id : Z
}.

(** [drmModeCrtc]: the controller, the buffer bound to it and the mode it
    runs ([mode] in C). *)
Record drmModeCrtc := {
  crtc_id : Z;
  crtc_buffer_id : Z;
  crtc_mode : drmModeModeInfo
}.

(** [drmModeFB], what [drmModeGetFB] hands back. *)
Record drmModeFB := {
  fb_id : Z;
  fb_handle : Z
}.

(** [struct drm_mode_create_dumb]. *)
Record drm_mode_create_dumb := {
  height : Z;
  width : Z;
  bpp : Z;
  flags : Z;
  handle : Z;
  pitch : Z;
  size : Z
}.

(** Modelled from the spec: [struct framebuffer], declared in [framebuffer.h],
    which is not among the sources.  The handle owns the device descriptor,
    the matched connector, the selected mode, the dumb buffer, the id of the
    registered buffer, the captured controller state and the mapped region;
    the fields are those [framebuffer.c] reads and writes, under the names
    it uses ([fb->fd] is [fb_fd], and so on).  A pointer to a libdrm object
    is the object, or [None] for the null pointer; [fb_resolution] points
    into the mode array of a connector. *)
Record framebuffer := {
  fb_fd : Z;
  fb_crtc : option drmModeCrtc;
  fb_connector : option drmModeConnector;
  fb_resolution : option drmModeModeInfo;
  fb_buffer_id : Z;
  fb_dumb_framebuffer : drm_mode_create_dumb;
  fb_data : Z
}.

(** A [uint32_t x[4]] local. *)
Record array4 := { a0 : Z; a1 : Z; a2 : Z; a3 : Z }.

Definition set_a0 (v : Z) (a : array4) : array4 :=
  {| a0 := v; a1 := a1 a; a2 := a2 a; a3 := a3 a |}.

(** The three arrays [handles], [pitches], [offsets] are declared without an
    initialiser: what they hold on entry is whatever the stack holds. *)
Record locals := {
  handles : array4;
  pitches : array4;
  offsets : array4
}.

(** ** The connector-type name table *)

Definition connector_type_names : list type_name :=
  [ {| tn_type := DRM_MODE_CONNECTOR_Unknown; tn_name := "unknown" |};
    {| tn_type := DRM_MODE_CONNECTOR_VGA; tn_name := "VGA" |};
    {| tn_type := DRM_MODE_CONNECTOR_DVII; tn_name := "DVI-I" |};
    {| tn_type := DRM_MODE_CONNECTOR_DVID; tn_name := "DVI-D" |};
    {| tn_type := DRM_MODE_CONNECTOR_DVIA; tn_name := "DVI-A" |};
    {| tn_type := DRM_MODE_CONNECTOR_Composite; tn_name := "composite" |};
    {| tn_type := DRM_MODE_CONNECTOR_SVIDEO; tn_name := "s-video" |};
    {| tn_type := DRM_MODE_CONNECTOR_LVDS; tn_name := "LVDS" |};
    {| tn_type := DRM_MODE_CONNECTOR_Component; tn_name := "component" |};
    {| tn_type := DRM_MODE_CONNECTOR_9PinDIN; tn_name := "9-pin DIN" |};
    {| tn_type := DRM_MODE_CONNECTOR_DisplayPort; tn_name := "DP" |};
    {| tn_type := DRM_MODE_CONNECTOR_HDMIA; tn_name := "HDMI-A" |};
    {| tn_type := DRM_MODE_CONNECTOR_HDMIB; tn_name := "HDMI-B" |};
    {| tn_type := DRM_MODE_CONNECTOR_TV; tn_name := "TV" |};
    {| tn_type := DRM_MODE_CONNECTOR_eDP; tn_name := "eDP" |};
    {| tn_type := DRM_MODE_CONNECTOR_VIRTUAL; tn_name := "Virtual" |};
    {| tn_type := DRM_MODE_CONNECTOR_DSI; tn_name := "DSI" |};
    {| tn_type := DRM_MODE_CONNECTOR_DPI; tn_name := "DPI" |} ]%string.

(** Modelled from the spec: the macro [ARRAY_SIZE] of [framebuffer.h], which
    is not among the sources.  The table covers the identifiers [0..N-1],
    [N] the number of its entries: [sizeof(a) / sizeof(a[0])]. *)
Definition ARRAY_SIZE {A : Type} (a : list A) : Z := Z.of_nat (List.length a).

Definition no_type_name : type_name :=
  {| tn_type := 0; tn_name := EmptyString |}.

(** [type] is an [unsigned int]: a [Z] in [0, 2^32). *)
Definition connector_type_name (type : Z) : string :=
  if (type <? ARRAY_SIZE connector_type_names) && (type >=? 0)
  then tn_name (nth (Z.to_nat type) connector_type_names no_type_name)
  else "INVALID"%string.

(** The names the specification cites of the fixed vocabulary of type
    names. *)
Definition spec_vocabulary : list string :=
  ["VGA"; "HDMI-A"; "eDP"; "DisplayPort"]%string.

(** ** Mode selection *)

(** The loop of [get_framebuffer] over [connector->modes]: [i] is the index
    of the head of [ms], [resolution] the pointer so far ([None] is null,
    [Some k] is [&connector->modes[k]]). *)
Fixpoint scan_preferred (ms : list drmModeModeInfo) (i : nat)
  (resolution : option nat) : option nat :=
  match ms with
  | [] => resolution
  | res :: rest =>
      scan_preferred rest (S i)
        (if Z.land (mode_type res) DRM_MODE_TYPE_PREFERRED =? 0
         then resolution else Some i)
  end.

(** The index of the mode [get_framebuffer] points [resolution] at, for a
    connector that has passed the [count_modes <= 0] test. *)
Definition select_resolution (connector : drmModeConnector)
  (selected_resolution : Z) : nat :=
  let resolution :=
    if (selected_resolution >=? 0)
       && (selected_resolution <? count_modes connector)
    then Some (Z.to_nat selected_resolution)
    else scan_preferred (modes connector) 0 None in
  match resolution with
  | Some k => k
  | None => 0%nat
  end.

Definition no_mode : drmModeModeInfo :=
  {| hdisplay := 0; vdisplay := 0; mode_type := 0 |}.

(** [connector->modes[k]]. *)
Definition mode_at (connector : drmModeConnector) (k : nat) : drmModeModeInfo :=
  nth k (modes connector) no_mode.

(** ** Connector names *)

(** [snprintf(name, size, "%s-%u", s, u)]: at most [size - 1] characters are
    kept. *)
Fixpoint take_string (n : nat) (s : string) : string :=
  match n, s with
  | O, _ => EmptyString
  | S _, EmptyString => EmptyString
  | S n', String c s' => String c (take_string n' s')
  end.

Definition snprintf_name (size : nat) (s : string) (u : Z) : string :=
  take_string (pred size)
    (s ++ "-" ++ NilZero.string_of_uint (N.to_uint (Z.to_N u)))%string.

(** [strncmp(s1, s2, n) == 0]. *)
Fixpoint strncmp_eq (s1 s2 : string) (n : nat) : bool :=
  match n with
  | O => true
  | S n' =>
      match s1, s2 with
      | EmptyString, EmptyString => true
      | String c1 r1, String c2 r2 =>
          if Ascii.eqb c1 c2 then strncmp_eq r1 r2 n' else false
      | _, _ => false
      end
  end.

Definition connector_matches (connector : drmModeConnector)
  (connector_name : string) : bool :=
  let name := snprintf_name 32 (connector_type_name (connector_type connector))
                (connector_type_id connector) in
  strncmp_eq name connector_name 32.

(** ** The kernel and libdrm *)

(** One entry of the trace per call: the arguments, and the answer where the
    call has one the program looks at.
    - [EvDestroyDumb fd arg] is [ioctl(fd, DRM_IOCTL_MODE_DESTROY_DUMB, arg)]
      with the creation structure [arg] itself, by value, where the request
      takes the address of its argument;
    - [EvDestroyDumbOf fd handle] is the request as [drm_mode.h] defines it,
      [ioctl(fd, DRM_IOCTL_MODE_DESTROY_DUMB, &dreq)] with [dreq.handle] the
      handle of the buffer to destroy, and [EvRmFB fd buf] is
      [drmModeRmFB(fd, buf)], the call of libdrm that takes a registered
      buffer off the device.  [framebuffer.c] makes neither call: they are
      here for what its specification asks of a release. *)
Inductive event :=
| EvOpen (path : string) (oflag : Z) (ret : Z)
| EvClose (fd : Z)
| EvMmap (addr length prot mflags fd offset : Z) (ret : Z)
| EvCreateDumb (fd : Z) (arg : drm_mode_create_dumb) (ret : Z)
    (out : drm_mode_create_dumb)
| EvDestroyDumb (fd : Z) (arg : drm_mode_create_dumb)
| EvDestroyDumbOf (fd : Z) (dreq_handle : Z)
| EvMapDumb (fd : Z) (mreq_handle : Z) (ret : Z) (mreq_offset : Z)
| EvGetResources (fd : Z) (ret : option drmModeRes)
| EvGetConnectorCurrent (fd id : Z) (ret : option drmModeConnector)
| EvFreeConnector (ptr : drmModeConnector)
| EvAddFB2 (fd w h pixel_format : Z) (bo_handles bo_pitches bo_offsets : array4)
    (buf_flags : Z) (ret : Z) (buf_id : option Z)
| EvGetFB (fd buf : Z) (ret : option drmModeFB)
| EvFreeFB (ptr : option drmModeFB)
| EvRmFB (fd buf : Z)
| EvGetEncoder (fd id : Z) (ret : option drmModeEncoder)
| EvFreeEncoder (ptr : drmModeEncoder)
| EvGetCrtc (fd id : Z) (ret : option drmModeCrtc)
| EvFreeCrtc (ptr : drmModeCrtc)
| EvSetCrtc (fd crtc buf x y : Z) (conns : option Z) (count : Z)
    (mode : option drmModeModeInfo)
| EvSetMaster (fd : Z)
| EvDropMaster (fd : Z).

(** The answers of the system, over a hidden state [W].  A call whose result
    the program ignores only moves the hidden state.
    - [sys_mmap] answers the pointer and the value [errno] has afterwards;
      POSIX error numbers are positive;
    - the two-way ioctls answer the status and the argument structure as the
      kernel leaves it;
    - [k_AddFB2] answers the status and what it stores through [buf_id], if
      it stores anything. *)
Record kernel (W : Type) := {
  sys_open : string -> Z -> W -> Z * W;
  sys_close : Z -> W -> W;
  sys_mmap : Z -> Z -> Z -> Z -> Z -> Z -> W -> (Z * positive) * W;
  k_create_dumb : Z -> drm_mode_create_dumb -> W ->
                  (Z * drm_mode_create_dumb) * W;
  k_destroy_dumb : Z -> drm_mode_create_dumb -> W -> W;
  k_map_dumb : Z -> Z -> W -> (Z * Z) * W;
  k_GetResources : Z -> W -> option drmModeRes * W;
  k_GetConnectorCurrent : Z -> Z -> W -> option drmModeConnector * W;
  k_FreeConnector : drmModeConnector -> W -> W;
  k_AddFB2 : Z -> Z -> Z -> Z -> array4 -> array4 -> array4 -> Z -> W ->
             (Z * option Z) * W;
  k_GetFB : Z -> Z -> W -> option drmModeFB * W;
  k_FreeFB : option drmModeFB -> W -> W;
  k_GetEncoder : Z -> Z -> W -> option drmModeEncoder * W;
  k_FreeEncoder : drmModeEncoder -> W -> W;
  k_GetCrtc : Z -> Z -> W -> option drmModeCrtc * W;
  k_FreeCrtc : drmModeCrtc -> W -> W;
  k_SetCrtc : Z -> Z -> Z -> Z -> Z -> option Z -> Z ->
              option drmModeModeInfo -> W -> W;
  k_SetMaster : Z -> W -> W;
  k_DropMaster : Z -> W -> W
}.

Arguments sys_open {W}.
Arguments sys_close {W}.
Arguments sys_mmap {W}.
Arguments k_create_dumb {W}.
Arguments k_destroy_dumb {W}.
Arguments k_map_dumb {W}.
Arguments k_GetResources {W}.
Arguments k_GetConnectorCurrent {W}.
Arguments k_FreeConnector {W}.
Arguments k_AddFB2 {W}.
Arguments k_GetFB {W}.
Arguments k_FreeFB {W}.
Arguments k_GetEncoder {W}.
Arguments k_FreeEncoder {W}.
Arguments k_GetCrtc {W}.
Arguments k_FreeCrtc {W}.
Arguments k_SetCrtc {W}.
Arguments k_SetMaster {W}.
Arguments k_DropMaster {W}.

(** ** The monad of the program *)

(** The state a call of the program runs in: the hidden state of the system,
    the trace so far, and the structure [*fb] of the caller. *)
Record state (W : Type) := {
  world : W;
  trace : list event;
  fb : framebuffer
}.

Arguments world {W}.
Arguments trace {W}.
Arguments fb {W}.

(** [Fault]: the program has read past the end of an array, or has used an
    object that has been freed. *)
Inductive result (A : Type) :=
| Ok (a : A)
| Fault.

Arguments Ok {A}.
Arguments Fault {A}.

Definition M (W A : Type) : Type := state W -> result A * state W.

Definition ret {W A : Type} (a : A) : M W A := fun s => (Ok a, s).

Definition bind {W A B : Type} (m : M W A) (f : A -> M W B) : M W B :=
  fun s =>
    match m s with
    | (Ok a, s') => f a s'
    | (Fault, s') => (Fault, s')
    end.

Definition fault {W A : Type} : M W A := fun s => (Fault, s).

Declare Scope prog_scope.
Delimit Scope prog_scope with prog.
Notation "x <- m ;; k" := (bind m (fun x => k))
  (at level 61, m at next level, right associativity) : prog_scope.
Notation "m ;; k" := (bind m (fun _ => k))
  (at level 61, right associativity) : prog_scope.
Open Scope prog_scope.

(** A call with an answer, and a call without. *)
Definition invoke {W A : Type} (k : W -> A * W) (ev : A -> event) : M W A :=
  fun s =>
    let (a, w) := k (world s) in
    (Ok a, {| world := w; trace := trace s ++ [ev a]; fb := fb s |}).

Definition invoke_ {W : Type} (k : W -> W) (ev : event) : M W unit :=
  fun s =>
    (Ok tt, {| world := k (world s); trace := trace s ++ [ev]; fb := fb s |}).

(** Reading and writing [*fb]. *)
Definition get_fb {W : Type} : M W framebuffer := fun s => (Ok (fb s), s).

Definition modify_fb {W : Type} (f : framebuffer -> framebuffer) : M W unit :=
  fun s => (Ok tt, {| world := world s; trace := trace s; fb := f (fb s) |}).

Definition set_fd (v : Z) (h : framebuffer) : framebuffer :=
  {| fb_fd := v; fb_crtc := fb_crtc h; fb_connector := fb_connector h;
     fb_resolution := fb_resolution h; fb_buffer_id := fb_buffer_id h;
     fb_dumb_framebuffer := fb_dumb_framebuffer h; fb_data := fb_data h |}.

Definition set_crtc (v : option drmModeCrtc) (h : framebuffer) : framebuffer :=
  {| fb_fd := fb_fd h; fb_crtc := v; fb_connector := fb_connector h;
     fb_resolution := fb_resolution h; fb_buffer_id := fb_buffer_id h;
     fb_dumb_framebuffer := fb_dumb_framebuffer h; fb_data := fb_data h |}.

Definition set_connector (v : option drmModeConnector) (h : framebuffer)
  : framebuffer :=
  {| fb_fd := fb_fd h; fb_crtc := fb_crtc h; fb_connector := v;
     fb_resolution := fb_resolution h; fb_buffer_id := fb_buffer_id h;
     fb_dumb_framebuffer := fb_dumb_framebuffer h; fb_data := fb_data h |}.

Definition set_resolution (v : option drmModeModeInfo) (h : framebuffer)
  : framebuffer :=
  {| fb_fd := fb_fd h; fb_crtc := fb_crtc h; fb_connector := fb_connector h;
     fb_resolution := v; fb_buffer_id := fb_buffer_id h;
     fb_dumb_framebuffer := fb_dumb_framebuffer h; fb_data := fb_data h |}.

Definition set_buffer_id (v : Z) (h : framebuffer) : framebuffer :=
  {| fb_fd := fb_fd h; fb_crtc := fb_crtc h; fb_connector := fb_connector h;
     fb_resolution := fb_resolution h; fb_buffer_id := v;
     fb_dumb_framebuffer := fb_dumb_framebuffer h; fb_data := fb_data h |}.

Definition set_dumb_framebuffer (v : drm_mode_create_dumb) (h : framebuffer)
  : framebuffer :=
  {| fb_fd := fb_fd h; fb_crtc := fb_crtc h; fb_connector := fb_connector h;
     fb_resolution := fb_resolution h; fb_buffer_id := fb_buffer_id h;
     fb_dumb_framebuffer := v; fb_data := fb_data h |}.

Definition set_data (v : Z) (h : framebuffer) : framebuffer :=
  {| fb_fd := fb_fd h; fb_crtc := fb_crtc h; fb_connector := fb_connector h;
     fb_resolution := fb_resolution h; fb_buffer_id := fb_buffer_id h;
     fb_dumb_framebuffer := fb_dumb_framebuffer h; fb_data := v |}.

(** [fb->dumb_framebuffer.height = h; .width = w; .bpp = b]. *)
Definition set_geometry (h w b : Z) (d : drm_mode_create_dumb)
  : drm_mode_create_dumb :=
  {| height := h; width := w; bpp := b; flags := flags d;
     handle := handle d; pitch := pitch d; size := size d |}.

(** [wp m Q s]: the run of [m] from [s] ends, by a value or by a fault,
    in a state that satisfies [Q]. *)
Definition wp {W A : Type} (m : M W A) (Q : result A -> state W -> Prop)
  (s : state W) : Prop :=
  Q (fst (m s)) (snd (m s)).

Arguments wp : simpl never.

(** ** The program *)

Section Program.

Context {W : Type} (K : kernel W).

Definition open (path : string) (oflag : Z) : M W Z :=
  invoke (sys_open K path oflag) (EvOpen path oflag).

Definition close (fd : Z) : M W unit :=
  invoke_ (sys_close K fd) (EvClose fd).

Definition mmap (addr length prot mflags fd offset : Z) : M W (Z * positive) :=
  invoke (sys_mmap K addr length prot mflags fd offset)
    (fun a => EvMmap addr length prot mflags fd offset (fst a)).

Definition ioctl_CREATE_DUMB (fd : Z) (arg : drm_mode_create_dumb)
  : M W (Z * drm_mode_create_dumb) :=
  invoke (k_create_dumb K fd arg)
    (fun a => EvCreateDumb fd arg (fst a) (snd a)).

Definition ioctl_DESTROY_DUMB (fd : Z) (arg : drm_mode_create_dumb)
  : M W unit :=
  invoke_ (k_destroy_dumb K fd arg) (EvDestroyDumb fd arg).

Definition drmIoctl_MAP_DUMB (fd mreq_handle : Z) : M W (Z * Z) :=
  invoke (k_map_dumb K fd mreq_handle)
    (fun a => EvMapDumb fd mreq_handle (fst a) (snd a)).

Definition drmModeGetResources (fd : Z) : M W (option drmModeRes) :=
  invoke (k_GetResources K fd) (EvGetResources fd).

Definition drmModeGetConnectorCurrent (fd id : Z)
  : M W (option drmModeConnector) :=
  invoke (k_GetConnectorCurrent K fd id) (EvGetConnectorCurrent fd id).

Definition drmModeFreeConnector (ptr : drmModeConnector) : M W unit :=
  invoke_ (k_FreeConnector K ptr) (EvFreeConnector ptr).

Definition drmModeAddFB2 (fd w h pixel_format : Z)
  (bo_handles bo_pitches bo_offsets : array4) (buf_flags : Z)
  : M W (Z * option Z) :=
  invoke
    (k_AddFB2 K fd w h pixel_format bo_handles bo_pitches bo_offsets buf_flags)
    (fun a => EvAddFB2 fd w h pixel_format bo_handles bo_pitches bo_offsets
                buf_flags (fst a) (snd a)).

Definition drmModeGetFB (fd buf : Z) : M W (option drmModeFB) :=
  invoke (k_GetFB K fd buf) (EvGetFB fd buf).

Definition drmModeFreeFB (ptr : option drmModeFB) : M W unit :=
  invoke_ (k_FreeFB K ptr) (EvFreeFB ptr).

Definition drmModeGetEncoder (fd id : Z) : M W (option drmModeEncoder) :=
  invoke (k_GetEncoder K fd id) (EvGetEncoder fd id).

Definition drmModeFreeEncoder (ptr : drmModeEncoder) : M W unit :=
  invoke_ (k_FreeEncoder K ptr) (EvFreeEncoder ptr).

Definition drmModeGetCrtc (fd id : Z) : M W (option drmModeCrtc) :=
  invoke (k_GetCrtc K fd id) (EvGetCrtc fd id).

Definition drmModeFreeCrtc (ptr : drmModeCrtc) : M W unit :=
  invoke_ (k_FreeCrtc K ptr) (EvFreeCrtc ptr).

Definition drmModeSetCrtc (fd crtc buf x y : Z) (conns : option Z) (count : Z)
  (mode : option drmModeModeInfo) : M W unit :=
  invoke_ (k_SetCrtc K fd crtc buf x y conns count mode)
    (EvSetCrtc fd crtc buf x y conns count mode).

Definition drmSetMaster (fd : Z) : M W unit :=
  invoke_ (k_SetMaster K fd) (EvSetMaster fd).

Definition drmDropMaster (fd : Z) : M W unit :=
  invoke_ (k_DropMaster K fd) (EvDropMaster fd).

(** [a[0]] of an array of [List.length a] elements. *)
Definition first_of (a : list Z) : M W Z :=
  match a with
  | x :: _ => ret x
  | [] => fault
  end.

(** *** [release_framebuffer] *)

(** [&fb->connector->connector_id]: the address of the first field of the
    connector, null when [fb->connector] is. *)
Definition connector_id_ptr (h : framebuffer) : option Z :=
  option_map connector_id (fb_connector h).

Definition release_framebuffer : M W unit :=
  h <- get_fb ;;
  if fb_fd h =? 0 then ret tt
  else
    drmSetMaster (fb_fd h) ;;
    h <- get_fb ;;
    match fb_crtc h with
    | Some crtc =>
        drmModeSetCrtc (fb_fd h) (crtc_id crtc) (crtc_buffer_id crtc) 0 0
          (connector_id_ptr h) 1 (fb_resolution h) ;;
        drmModeFreeCrtc crtc
    | None => ret tt
    end ;;
    h <- get_fb ;;
    (if fb_buffer_id h =? 0 then ret tt
     else
       ptr <- drmModeGetFB (fb_fd h) (fb_buffer_id h) ;;
       drmModeFreeFB ptr) ;;
    h <- get_fb ;;
    match fb_connector h with
    | Some connector =>
        drmModeFreeConnector connector ;;
        modify_fb (set_resolution None)
    | None => ret tt
    end ;;
    h <- get_fb ;;
    (if handle (fb_dumb_framebuffer h) =? 0 then ret tt
     else ioctl_DESTROY_DUMB (fb_fd h) (fb_dumb_framebuffer h)) ;;
    h <- get_fb ;;
    close (fb_fd h).

(** *** [release_framebuffer] on pointers that may dangle *)

(** [fb->crtc] and [fb->connector] point to objects libdrm has allocated.
    [drmModeFreeCrtc] and [drmModeFreeConnector] end the life of the object
    and [release_framebuffer] leaves the pointer in the handle.  A
    [lifetime] says which of the two objects the handle points to have
    been freed. *)
Record lifetime := {
  crtc_freed : bool;
  connector_freed : bool
}.


Definition free_crtc (l : lifetime) : lifetime :=
  {| crtc_freed := true; connector_freed := connector_freed l |}.

Definition free_connector (l : lifetime) : lifetime :=
  {| crtc_freed := crtc_freed l; connector_freed := true |}.

(** [release_framebuffer] when the objects behind [fb->crtc] and
    [fb->connector] have the lifetimes [l]: the same statements, the
    lifetimes the call leaves being the answer.  Reading a field of a freed
    object ([fb->crtc->crtc_id], the identifier [drmModeSetCrtc] reads at
    [&fb->connector->connector_id]) and freeing it again are undefined: a
    [Fault]. *)
Definition release_framebuffer_from (l : lifetime) : M W lifetime :=
  h <- get_fb ;;
  if fb_fd h =? 0 then ret l
  else
    drmSetMaster (fb_fd h) ;;
    h <- get_fb ;;
    l <- match fb_crtc h with
         | Some crtc =>
             if crtc_freed l then fault
             else
               match fb_connector h with
               | Some _ => if connector_freed l then fault else ret tt
               | None => ret tt
               end ;;
               drmModeSetCrtc (fb_fd h) (crtc_id crtc) (crtc_buffer_id crtc)
                 0 0 (connector_id_ptr h) 1 (fb_resolution h) ;;
               drmModeFreeCrtc crtc ;;
               ret (free_crtc l)
         | None => ret l
         end ;;
    h <- get_fb ;;
    (if fb_buffer_id h =? 0 then ret tt
     else
       ptr <- drmModeGetFB (fb_fd h) (fb_buffer_id h) ;;
       drmModeFreeFB ptr) ;;
    h <- get_fb ;;
    l <- match fb_connector h with
         | Some connector =>
             if connector_freed l then fault
             else
               drmModeFreeConnector connector ;;
               modify_fb (set_resolution None) ;;
               ret (free_connector l)
         | None => ret l
         end ;;
    h <- get_fb ;;
    (if handle (fb_dumb_framebuffer h) =? 0 then ret tt
     else ioctl_DESTROY_DUMB (fb_fd h) (fb_dumb_framebuffer h)) ;;
    h <- get_fb ;;
    close (fb_fd h) ;;
    ret l.

(** *** [get_framebuffer] *)

(** The search loop over [res->connectors], [ids] being the identifiers
    still to visit: the value of [connector] when the loop is left. *)
Fixpoint find_connector (fd : Z) (connector_name : string) (ids : list Z)
  : M W (option drmModeConnector) :=
  match ids with
  | [] => ret None
  | id :: rest =>
      connector <- drmModeGetConnectorCurrent fd id ;;
      match connector with
      | None => find_connector fd connector_name rest
      | Some c =>
          if connector_matches c connector_name then ret (Some c)
          else
            drmModeFreeConnector c ;;
            find_connector fd connector_name rest
      end
  end.

(** How control leaves the body of [get_framebuffer]: by a [return], or at
    the label [cleanup] with the values of [err] and [encoder] (falling
    through from the last statement is [Cleanup] with [err = 0]). *)
Inductive exit :=
| Return (err : Z)
| Cleanup (err : Z) (encoder : option drmModeEncoder).

(** From [fb->dumb_framebuffer.height = ...] to the label [cleanup]. *)
Definition acquire_buffer (fd : Z) (res : drmModeRes)
  (connector : drmModeConnector) (resolution : drmModeModeInfo)
  (stack : locals) : M W exit :=
  modify_fb (fun h =>
    set_dumb_framebuffer
      (set_geometry (vdisplay resolution) (hdisplay resolution) 32
         (fb_dumb_framebuffer h)) h) ;;
  h <- get_fb ;;
  r <- ioctl_CREATE_DUMB fd (fb_dumb_framebuffer h) ;;
  modify_fb (set_dumb_framebuffer (snd r)) ;;
  let err := fst r in
  if negb (err =? 0) then ret (Cleanup err None)
  else
    h <- get_fb ;;
    let handles := set_a0 (handle (fb_dumb_framebuffer h)) (handles stack) in
    let pitches := set_a0 (pitch (fb_dumb_framebuffer h)) (pitches stack) in
    let offsets := set_a0 0 (offsets stack) in
    r <- drmModeAddFB2 fd (hdisplay resolution) (vdisplay resolution)
           DRM_FORMAT_ABGR8888 handles pitches offsets 0 ;;
    match snd r with
    | Some id => modify_fb (set_buffer_id id)
    | None => ret tt
    end ;;
    let err := fst r in
    if negb (err =? 0) then ret (Cleanup err None)
    else
      id <- (if negb (encoder_id connector =? 0) then ret (encoder_id connector)
             else first_of (encoders connector)) ;;
      encoder <- drmModeGetEncoder fd id ;;
      match encoder with
      | None => ret (Cleanup (- EINVAL) None)
      | Some enc =>
          id <- (if negb (enc_crtc_id enc =? 0) then ret (enc_crtc_id enc)
                 else first_of (crtcs res)) ;;
          crtc <- drmModeGetCrtc fd id ;;
          modify_fb (set_crtc crtc) ;;
          match crtc with
          | None => ret (Cleanup (- EINVAL) encoder)
          | Some _ =>
              h <- get_fb ;;
              r <- drmIoctl_MAP_DUMB fd (handle (fb_dumb_framebuffer h)) ;;
              let err := fst r in
              let mreq_offset := snd r in
              if negb (err =? 0) then ret (Cleanup err encoder)
              else
                h <- get_fb ;;
                r <- mmap 0 (size (fb_dumb_framebuffer h))
                       (Z.lor PROT_READ PROT_WRITE) MAP_SHARED fd mreq_offset ;;
                modify_fb (set_data (fst r)) ;;
                h <- get_fb ;;
                if fb_data h =? MAP_FAILED
                then ret (Cleanup (Z.pos (snd r)) encoder)
                else
                  drmDropMaster fd ;;
                  modify_fb (set_fd fd) ;;
                  modify_fb (set_connector (Some connector)) ;;
                  modify_fb (set_resolution (Some resolution)) ;;
                  ret (Cleanup err encoder)
          end
      end.

(** From the entry of [get_framebuffer] to a [return] or to the label
    [cleanup]. *)
Definition acquire (dri_device connector_name : string)
  (selected_resolution : Z) (stack : locals) : M W exit :=
  fd <- open dri_device O_RDWR ;;
  if fd <? 0 then ret (Return (- EINVAL))
  else
    res <- drmModeGetResources fd ;;
    match res with
    | None => ret (Return (- EINVAL))
    | Some res =>
        connector <- find_connector fd connector_name (connectors res) ;;
        match connector with
        | None => ret (Return (- EINVAL))
        | Some connector =>
            if count_modes connector <=? 0 then ret (Return (- EINVAL))
            else
              let resolution :=
                mode_at connector
                  (select_resolution connector selected_resolution) in
              acquire_buffer fd res connector resolution stack
        end
    end.

(** The statements after the label [cleanup], up to the call of
    [release_framebuffer]. *)
Definition free_encoder (encoder : option drmModeEncoder) : M W unit :=
  match encoder with
  | Some enc => drmModeFreeEncoder enc
  | None => ret tt
  end.

(** What follows the body. *)
Definition leave (e : exit) : M W Z :=
  match e with
  | Return err => ret err
  | Cleanup err encoder =>
      free_encoder encoder ;;
      (if negb (err =? 0) then release_framebuffer else ret tt) ;;
      ret err
  end.

Definition get_framebuffer (dri_device connector_name : string)
  (selected_resolution : Z) (stack : locals) : M W Z :=
  e <- acquire dri_device connector_name selected_resolution stack ;;
  leave e.

End Program.

(** ** Reading a trace *)

Definition is_SetCrtc (e : event) : bool :=
  match e with EvSetCrtc _ _ _ _ _ _ _ _ => true | _ => false end.

Definition is_SetMaster (e : event) : bool :=
  match e with EvSetMaster _ => true | _ => false end.

Definition is_CreateDumb (e : event) : bool :=
  match e with EvCreateDumb _ _ _ _ => true | _ => false end.

Definition is_AddFB2 (e : event) : bool :=
  match e with EvAddFB2 _ _ _ _ _ _ _ _ _ _ => true | _ => false end.

Definition is_Close (e : event) : bool :=
  match e with EvClose _ => true | _ => false end.

Definition is_FreeCrtc (e : event) : bool :=
  match e with EvFreeCrtc _ => true | _ => false end.

Definition is_DestroyDumb (e : event) : bool :=
  match e with EvDestroyDumb _ _ => true | _ => false end.

(** The calls of the connector search. *)
Definition is_connector_call (e : event) : bool :=
  match e with
  | EvGetConnectorCurrent _ _ _ | EvFreeConnector _ => true
  | _ => false
  end.

(** The calls a release can make. *)
Definition is_release_call (e : event) : bool :=
  match e with
  | EvSetMaster _ | EvSetCrtc _ _ _ _ _ _ _ _ | EvFreeCrtc _ | EvGetFB _ _ _
  | EvFreeFB _ | EvFreeConnector _ | EvDestroyDumb _ _ | EvClose _ => true
  | _ => false
  end.

(** How many entries of a trace satisfy [p]. *)
Definition count (p : event -> bool) (t : list event) : nat :=
  List.length (filter p t).

(** What a run has added to the trace of the state it started in. *)
Definition added {W : Type} (s s' : state W) : list event :=
  skipn (List.length (trace s)) (trace s').

(** The preferred marker of a mode, as the scan tests it. *)
Definition preferred (m : drmModeModeInfo) : bool :=
  negb (Z.land (mode_type m) DRM_MODE_TYPE_PREFERRED =? 0).

(** ** The steps of a release, as traces *)

(** (a) reacquire mastership. *)
Definition step_master (h : framebuffer) : list event :=
  [EvSetMaster (fb_fd h)].

(** (b) put the captured controller state back and free it. *)
Definition step_crtc (h : framebuffer) : list event :=
  match fb_crtc h with
  | Some crtc =>
      [EvSetCrtc (fb_fd h) (crtc_id crtc) (crtc_buffer_id crtc) 0 0
         (connector_id_ptr h) 1 (fb_resolution h);
       EvFreeCrtc crtc]
  | None => []
  end.

(** (c) the registered buffer; [ptr] is what [drmModeGetFB] answers. *)
Definition step_buffer (h : framebuffer) (ptr : option drmModeFB)
  : list event :=
  if fb_buffer_id h =? 0 then []
  else [EvGetFB (fb_fd h) (fb_buffer_id h) ptr; EvFreeFB ptr].

(** (d) the connector. *)
Definition step_connector (h : framebuffer) : list event :=
  match fb_connector h with
  | Some connector => [EvFreeConnector connector]
  | None => []
  end.

(** (e) the dumb buffer. *)
Definition step_dumb (h : framebuffer) : list event :=
  if handle (fb_dumb_framebuffer h) =? 0 then []
  else [EvDestroyDumb (fb_fd h) (fb_dumb_framebuffer h)].

(** (f) the descriptor. *)
Definition step_close (h : framebuffer) : list event :=
  [EvClose (fb_fd h)].

(** The six steps in order. *)
Definition release_steps (h : framebuffer) (ptr : option drmModeFB)
  : list event :=
  step_master h ++ step_crtc h ++ step_buffer h ptr ++ step_connector h ++
  step_dumb h ++ step_close h.

(** Step (b) as the specification words it: the controller goes back to the
    buffer and the mode it had when its state was captured. *)
Definition spec_step_crtc (h : framebuffer) : list event :=
  match fb_crtc h with
  | Some crtc =>
      [EvSetCrtc (fb_fd h) (crtc_id crtc) (crtc_buffer_id crtc) 0 0
         (connector_id_ptr h) 1 (Some (crtc_mode crtc));
       EvFreeCrtc crtc]
  | None => []
  end.

(** Step (c) as the specification words it: a registered buffer is
    unregistered, which in libdrm is [drmModeRmFB]. *)
Definition spec_step_buffer (h : framebuffer) : list event :=
  if fb_buffer_id h =? 0 then []
  else [EvRmFB (fb_fd h) (fb_buffer_id h)].

(** Step (e) as the specification words it: a dumb buffer is destroyed,
    which is the request [DRM_IOCTL_MODE_DESTROY_DUMB] on its handle. *)
Definition spec_step_dumb (h : framebuffer) : list event :=
  if handle (fb_dumb_framebuffer h) =? 0 then []
  else [EvDestroyDumbOf (fb_fd h) (handle (fb_dumb_framebuffer h))].

(** The release as the specification words it: each step guarded by its own
    resource alone, (a) and (f) by the descriptor. *)
Definition spec_release_steps (h : framebuffer) : list event :=
  (if fb_fd h =? 0 then [] else step_master h) ++
  spec_step_crtc h ++ spec_step_buffer h ++ step_connector h ++
  spec_step_dumb h ++
  (if fb_fd h =? 0 then [] else step_close h).



(** [*fb] after a release. *)
Definition released (h : framebuffer) : framebuffer :=
  if fb_fd h =? 0 then h
  else match fb_connector h with
       | Some _ => set_resolution None h
       | None => h
       end.



(** The three fields a successful acquisition assigns last keep, over a run
    from [s] to [s'], what the caller passed in. *)
Definition keeps_caller_fields {W : Type} (s s' : state W) : Prop :=
  fb_fd (fb s') = fb_fd (fb s) /\
  fb_connector (fb s') = fb_connector (fb s) /\
  fb_resolution (fb s') = fb_resolution (fb s).

(** ** A machine to run the program on *)

(** A display card that answers every call the same way each time. *)
Record board := {
  b_open : Z;
  b_resources : option drmModeRes;
  b_connector : Z -> option drmModeConnector;
  b_create_dumb : Z;
  b_addfb2 : Z * option Z;
  b_encoder : option drmModeEncoder;
  b_crtc : option drmModeCrtc;
  b_map_dumb : Z * Z;
  b_mmap : Z * positive;
  b_getfb : option drmModeFB
}.

(** The dumb buffer the card hands out: handle 1, four bytes a pixel. *)
Definition dumb_of (status : Z) (arg : drm_mode_create_dumb)
  : drm_mode_create_dumb :=
  if status =? 0 then
    {| height := height arg; width := width arg; bpp := bpp arg;
       flags := flags arg; handle := 1; pitch := 4 * width arg;
       size := 4 * width arg * height arg |}
  else arg.

Definition machine (b : board) : kernel unit := {|
  sys_open := fun _ _ w => (b_open b, w);
  sys_close := fun _ w => w;
  sys_mmap := fun _ _ _ _ _ _ w => (b_mmap b, w);
  k_create_dumb := fun _ arg w =>
    ((b_create_dumb b, dumb_of (b_create_dumb b) arg), w);
  k_destroy_dumb := fun _ _ w => w;
  k_map_dumb := fun _ _ w => (b_map_dumb b, w);
  k_GetResources := fun _ w => (b_resources b, w);
  k_GetConnectorCurrent := fun _ id w => (b_connector b id, w);
  k_FreeConnector := fun _ w => w;
  k_AddFB2 := fun _ _ _ _ _ _ _ _ w => (b_addfb2 b, w);
  k_GetFB := fun _ _ w => (b_getfb b, w);
  k_FreeFB := fun _ w => w;
  k_GetEncoder := fun _ _ w => (b_encoder b, w);
  k_FreeEncoder := fun _ w => w;
  k_GetCrtc := fun _ _ w => (b_crtc b, w);
  k_FreeCrtc := fun _ w => w;
  k_SetCrtc := fun _ _ _ _ _ _ _ _ w => w;
  k_SetMaster := fun _ w => w;
  k_DropMaster := fun _ w => w
|}.

Definition mode_of (w h t : Z) : drmModeModeInfo :=
  {| hdisplay := w; vdisplay := h; mode_type := t |}.

(** Five modes, the second and the fourth marked preferred
    ([type = DRM_MODE_TYPE_PREFERRED | DRM_MODE_TYPE_DRIVER]). *)
Definition five_modes : list drmModeModeInfo :=
  [mode_of 640 480 64; mode_of 1920 1080 72; mode_of 1280 720 64;
   mode_of 1024 768 72; mode_of 800 600 64].

(** Three modes, none preferred. *)
Definition plain_modes : list drmModeModeInfo :=
  [mode_of 640 480 64; mode_of 800 600 64; mode_of 1024 768 64].

(** HDMI-A-1. *)
Definition hdmi : drmModeConnector :=
  {| connector_id := 31; encoder_id := 51;
     connector_type := DRM_MODE_CONNECTOR_HDMIA; connector_type_id := 1;
     modes := five_modes; encoders := [51] |}.

(** VGA-1, which reports no mode. *)
Definition vga : drmModeConnector :=
  {| connector_id := 32; encoder_id := 0;
     connector_type := DRM_MODE_CONNECTOR_VGA; connector_type_id := 1;
     modes := []; encoders := [52] |}.

(** DP-2, none of whose modes is preferred. *)
Definition dp : drmModeConnector :=
  {| connector_id := 33; encoder_id := 53;
     connector_type := DRM_MODE_CONNECTOR_DisplayPort; connector_type_id := 2;
     modes := plain_modes; encoders := [53] |}.

Definition card_resources : drmModeRes :=
  {| connectors := [32; 31; 33]; crtcs := [41] |}.

Definition card_encoder : drmModeEncoder :=
  {| enc_encoder_id := 51; enc_crtc_id := 41 |}.

(** The controller shows buffer 70 in 1920x1080 before the program runs. *)
Definition card_crtc : drmModeCrtc :=
  {| crtc_id := 41; crtc_buffer_id := 70; crtc_mode := mode_of 1920 1080 72 |}.

Definition card_fb : drmModeFB := {| fb_id := 77; fb_handle := 1 |}.

(** A card on which every step succeeds. *)
Definition card0 : board :=
  {| b_open := 3;
     b_resources := Some card_resources;
     b_connector := fun id =>
       if id =? 31 then Some hdmi
       else if id =? 32 then Some vga
       else if id =? 33 then Some dp
       else None;
     b_create_dumb := 0;
     b_addfb2 := (0, Some 77);
     b_encoder := Some card_encoder;
     b_crtc := Some card_crtc;
     b_map_dumb := (0, 4096);
     b_mmap := (1048576, 1%positive);
     b_getfb := Some card_fb |}.

(** The same card when [drmModeGetResources] fails. *)
Definition card_no_resources : board :=
  {| b_open := b_open card0; b_resources := None;
     b_connector := b_connector card0; b_create_dumb := b_create_dumb card0;
     b_addfb2 := b_addfb2 card0; b_encoder := b_encoder card0;
     b_crtc := b_crtc card0; b_map_dumb := b_map_dumb card0;
     b_mmap := b_mmap card0; b_getfb := b_getfb card0 |}.

(** The same card when creating the dumb buffer fails. *)
Definition card_no_dumb : board :=
  {| b_open := b_open card0; b_resources := b_resources card0;
     b_connector := b_connector card0; b_create_dumb := -1;
     b_addfb2 := b_addfb2 card0; b_encoder := b_encoder card0;
     b_crtc := b_crtc card0; b_map_dumb := b_map_dumb card0;
     b_mmap := b_mmap card0; b_getfb := b_getfb card0 |}.

(** The same card when the mapping fails with [ENOMEM]. *)
Definition card_no_mmap : board :=
  {| b_open := b_open card0; b_resources := b_resources card0;
     b_connector := b_connector card0; b_create_dumb := b_create_dumb card0;
     b_addfb2 := b_addfb2 card0; b_encoder := b_encoder card0;
     b_crtc := b_crtc card0; b_map_dumb := b_map_dumb card0;
     b_mmap := (MAP_FAILED, 12%positive); b_getfb := b_getfb card0 |}.

Definition zero_dumb : drm_mode_create_dumb :=
  {| height := 0; width := 0; bpp := 0; flags := 0; handle := 0; pitch := 0;
     size := 0 |}.

(** A zeroed [struct framebuffer]. *)
Definition zero_fb : framebuffer :=
  {| fb_fd := 0; fb_crtc := None; fb_connector := None; fb_resolution := None;
     fb_buffer_id := 0; fb_dumb_framebuffer := zero_dumb; fb_data := 0 |}.

Definition start (h : framebuffer) : state unit :=
  {| world := tt; trace := []; fb := h |}.

Definition zero_array : array4 := {| a0 := 0; a1 := 0; a2 := 0; a3 := 0 |}.

(** A stack that happens to hold zeroes where the arrays are. *)
Definition clean_stack : locals :=
  {| handles := zero_array; pitches := zero_array; offsets := zero_array |}.

(** A stack that holds what an earlier call left there. *)
Definition dirty_stack : locals :=
  {| handles := {| a0 := 7; a1 := 3735928559; a2 := 0; a3 := 1 |};
     pitches := {| a0 := 0; a1 := 4096; a2 := 0; a3 := 0 |};
     offsets := {| a0 := 9; a1 := 0; a2 := 65536; a3 := 0 |} |}.




(** A handle that holds a descriptor, a buffer and a dumb buffer, and no
    libdrm object. *)
Definition buffers_fb : framebuffer :=
  {| fb_fd := 3; fb_crtc := None; fb_connector := None;
     fb_resolution := None; fb_buffer_id := 77;
     fb_dumb_framebuffer :=
       {| height := 768; width := 1024; bpp := 32; flags := 0; handle := 1;
          pitch := 4096; size := 3145728 |};
     fb_data := 0 |}.

(** A handle that still carries what an earlier acquisition put in it. *)
Definition stale_fb : framebuffer :=
  {| fb_fd := 9; fb_crtc := None; fb_connector := Some dp;
     fb_resolution := Some (mode_of 800 600 64); fb_buffer_id := 0;
     fb_dumb_framebuffer := zero_dumb; fb_data := 0 |}.

(** ** More ways to read a trace *)

Definition is_FreeConnector (e : event) : bool :=
  match e with EvFreeConnector _ => true | _ => false end.

Definition is_DropMaster (e : event) : bool :=
  match e with EvDropMaster _ => true | _ => false end.

Definition is_FreeEncoder (e : event) : bool :=
  match e with EvFreeEncoder _ => true | _ => false end.

(** A [drmModeGetEncoder] that has answered an encoder. *)
Definition is_got_encoder (e : event) : bool :=
  match e with EvGetEncoder _ _ (Some _) => true | _ => false end.

(** The connectors held at the end of a trace that started with [held] of
    them: one more for each [drmModeGetConnectorCurrent] that answers a
    connector, one less for each [drmModeFreeConnector]. *)
Fixpoint held_after (held : nat) (t : list event) : nat :=
  match t with
  | [] => held
  | EvGetConnectorCurrent _ _ (Some _) :: rest => held_after (S held) rest
  | EvFreeConnector _ :: rest => held_after (pred held) rest
  | _ :: rest => held_after held rest
  end.

(** The most connectors held at any point of the trace. *)
Fixpoint held_peak (held : nat) (t : list event) : nat :=
  match t with
  | [] => held
  | EvGetConnectorCurrent _ _ (Some _) :: rest =>
      Nat.max held (held_peak (S held) rest)
  | EvFreeConnector _ :: rest => Nat.max held (held_peak (pred held) rest)
  | _ :: rest => held_peak held rest
  end.

(** The identifiers a trace has asked [drmModeGetConnectorCurrent] about, in
    order. *)
Fixpoint queried (t : list event) : list Z :=
  match t with
  | [] => []
  | EvGetConnectorCurrent _ id _ :: rest => id :: queried rest
  | _ :: rest => queried rest
  end.

(** The answer of the last [drmModeGetConnectorCurrent] of a trace, [acc]
    when the trace has none: the connector a search has ended on. *)
Fixpoint last_connector (t : list event) (acc : option drmModeConnector)
  : option drmModeConnector :=
  match t with
  | [] => acc
  | EvGetConnectorCurrent _ _ ret :: rest => last_connector rest ret
  | _ :: rest => last_connector rest acc
  end.

(** The name [get_framebuffer] prints for a connector, before [snprintf]
    cuts it to the size of the buffer. *)
Definition full_name (connector : drmModeConnector) : string :=
  (connector_type_name (connector_type connector) ++ "-" ++
   NilZero.string_of_uint (N.to_uint (Z.to_N (connector_type_id connector))))%string.

(** HDMI-A-1 as a card reports it that has attached it to no encoder and
    lists none for it. *)
Definition hdmi_bare : drmModeConnector :=
  {| connector_id := 31; encoder_id := 0;
     connector_type := DRM_MODE_CONNECTOR_HDMIA; connector_type_id := 1;
     modes := plain_modes; encoders := [] |}.

(** The same card when its HDMI connector has no encoder. *)
Definition card_bare : board :=
  {| b_open := b_open card0; b_resources := b_resources card0;
     b_connector := fun id =>
       if id =? 31 then Some hdmi_bare else b_connector card0 id;
     b_create_dumb := b_create_dumb card0;
     b_addfb2 := b_addfb2 card0; b_encoder := b_encoder card0;
     b_crtc := b_crtc card0; b_map_dumb := b_map_dumb card0;
     b_mmap := b_mmap card0; b_getfb := b_getfb card0 |}.

(** [get_framebuffer] on a board, with the mode left to the program and a
    clean stack. *)
Definition run_on (b : board) (connector_name : string) (h : framebuffer)
  : result Z * state unit :=
  get_framebuffer (machine b) "/dev/dri/card0" connector_name (-1) clean_stack
    (start h).

(** The calls of such a run. *)
Definition calls_on (b : board) (connector_name : string) (h : framebuffer)
  : list event :=
  added (start h) (snd (run_on b connector_name h)).

(** * Properties *)

(** ** The name table *)

Lemma connector_type_names_size : ARRAY_SIZE connector_type_names = 18.
Proof. reflexivity. Qed.

(** The table is indexed by the identifier: entry [k] is the entry of
    connector type [k]. *)
Lemma connector_type_names_indexed (k : nat) (entry : type_name) :
  nth_error connector_type_names k = Some entry -> tn_type entry = Z.of_nat k.
Proof.
  intros H.
  do 18 (destruct k as [|k]; [injection H as <-; reflexivity|]).
  destruct k; discriminate H.
Qed.

Lemma connector_type_name_in_range (type : Z) :
  0 <= type < ARRAY_SIZE connector_type_names ->
  connector_type_name type =
  tn_name (nth (Z.to_nat type) connector_type_names no_type_name).
Proof.
  intros [Hlo Hhi]. unfold connector_type_name.
  destruct (Z.ltb_spec type (ARRAY_SIZE connector_type_names)); [|lia].
  destruct (Z.geb_spec type 0); [reflexivity|lia].
Qed.

(** No entry of the table is named "DisplayPort". *)
Lemma connector_type_name_not_DisplayPort (type : Z) :
  connector_type_name type <> "DisplayPort"%string.
Proof.
  destruct (Z_le_dec 0 type) as [Hlo|Hlo];
    [destruct (Z_lt_dec type (ARRAY_SIZE connector_type_names)) as [Hhi|Hhi]|];
    try (unfold connector_type_name;
         destruct (Z.ltb_spec type (ARRAY_SIZE connector_type_names));
         destruct (Z.geb_spec type 0); simpl; try lia; discriminate).
  rewrite (connector_type_name_in_range type (conj Hlo Hhi)).
  rewrite connector_type_names_size in Hhi.
  assert (Hn : (Z.to_nat type < 18)%nat) by lia.
  revert Hn. generalize (Z.to_nat type). intros n Hn.
  do 18 (destruct n as [|n]; [simpl; discriminate|]).
  lia.
Qed.

(** C6, as the specification has it, fails: "DisplayPort" is a name of the
    vocabulary it cites, and the name [connector_type_name] answers for the
    DisplayPort type is "DP", which is not among the names cited;
    "DisplayPort" is the name of no type. *)
Lemma connector_type_name_counterexample :
  In "DisplayPort"%string spec_vocabulary /\
  connector_type_name DRM_MODE_CONNECTOR_DisplayPort = "DP"%string /\
  ~ In (connector_type_name DRM_MODE_CONNECTOR_DisplayPort) spec_vocabulary /\
  forall type : Z, connector_type_name type <> "DisplayPort"%string.
Proof.
  split; [do 3 right; left; reflexivity|].
  split; [reflexivity|].
  split; [|exact connector_type_name_not_DisplayPort].
  vm_compute. intros [H|[H|[H|[H|[]]]]]; discriminate H.
Qed.

(** C6, amended.  Below the size of the table, [connector_type_name]
    answers the name the table pairs with that very identifier; the names
    of the eighteen types are the ones listed, "DP" for the DisplayPort
    type, and "DisplayPort" is the name of no identifier; from the size of
    the table on, it answers "INVALID". *)
Theorem connector_type_name_lookup (type : Z) :
  (0 <= type < ARRAY_SIZE connector_type_names ->
   exists entry,
     nth_error connector_type_names (Z.to_nat type) = Some entry /\
     tn_type entry = type /\
     connector_type_name type = tn_name entry /\
     In (connector_type_name type) (map tn_name connector_type_names)) /\
  (ARRAY_SIZE connector_type_names <= type ->
   connector_type_name type = "INVALID"%string) /\
  map connector_type_name
    [DRM_MODE_CONNECTOR_Unknown; DRM_MODE_CONNECTOR_VGA;
     DRM_MODE_CONNECTOR_DVII; DRM_MODE_CONNECTOR_DVID;
     DRM_MODE_CONNECTOR_DVIA; DRM_MODE_CONNECTOR_Composite;
     DRM_MODE_CONNECTOR_SVIDEO; DRM_MODE_CONNECTOR_LVDS;
     DRM_MODE_CONNECTOR_Component; DRM_MODE_CONNECTOR_9PinDIN;
     DRM_MODE_CONNECTOR_DisplayPort; DRM_MODE_CONNECTOR_HDMIA;
     DRM_MODE_CONNECTOR_HDMIB; DRM_MODE_CONNECTOR_TV;
     DRM_MODE_CONNECTOR_eDP; DRM_MODE_CONNECTOR_VIRTUAL;
     DRM_MODE_CONNECTOR_DSI; DRM_MODE_CONNECTOR_DPI]
  = ["unknown"; "VGA"; "DVI-I"; "DVI-D"; "DVI-A"; "composite"; "s-video";
     "LVDS"; "component"; "9-pin DIN"; "DP"; "HDMI-A"; "HDMI-B"; "TV"; "eDP";
     "Virtual"; "DSI"; "DPI"]%string /\
  connector_type_name type <> "DisplayPort"%string.
Proof.
  split; [|split; [|split]].
  - intros Hr.
    assert (Hn : (Z.to_nat type < List.length connector_type_names)%nat).
    { unfold ARRAY_SIZE in Hr. lia. }
    destruct (nth_error connector_type_names (Z.to_nat type)) as [entry|] eqn:E.
    + exists entry.
      assert (Hname : connector_type_name type = tn_name entry).
      { rewrite (connector_type_name_in_range type Hr).
        f_equal. apply nth_error_nth. exact E. }
      repeat split.
      * rewrite (connector_type_names_indexed _ _ E). lia.
      * exact Hname.
      * rewrite Hname. apply in_map. eapply nth_error_In. exact E.
    + apply nth_error_None in E. lia.
  - intros Hr. unfold connector_type_name.
    destruct (Z.ltb_spec type (ARRAY_SIZE connector_type_names));
      [lia|reflexivity].
  - reflexivity.
  - apply connector_type_name_not_DisplayPort.
Qed.

Lemma connector_type_name_lookup_witness :
  connector_type_name DRM_MODE_CONNECTOR_HDMIA = "HDMI-A"%string /\
  connector_type_name 18 = "INVALID"%string.
Proof.
  split.
  - destruct (connector_type_name_lookup DRM_MODE_CONNECTOR_HDMIA) as [Hin _].
    destruct Hin as [entry [Hnth [_ [Hname _]]]].
    + rewrite connector_type_names_size. unfold DRM_MODE_CONNECTOR_HDMIA. lia.
    + rewrite Hname. injection Hnth as <-. reflexivity.
  - destruct (connector_type_name_lookup 18) as [_ [Hout _]].
    apply Hout. rewrite connector_type_names_size. lia.
Defined.

(** The DisplayPort connector goes by the short name. *)
Example connector_type_name_DisplayPort :
  connector_type_name DRM_MODE_CONNECTOR_DisplayPort = "DP"%string.
Proof. reflexivity. Qed.

(** ** Mode selection *)

Section Scan.

Variable ms : list drmModeModeInfo.

(** A scan over modes none of which is preferred leaves the pointer alone. *)
Lemma scan_preferred_none :
  forall (l : list drmModeModeInfo) (i : nat) (acc : option nat),
    (forall m, In m l -> preferred m = false) ->
    scan_preferred l i acc = acc.
Proof.
  induction l as [|m l IH]; intros i acc Hnone; simpl.
  - reflexivity.
  - assert (Hm : preferred m = false) by (apply Hnone; left; reflexivity).
    unfold preferred in Hm. apply negb_false_iff in Hm. rewrite Hm.
    apply IH. intros x Hx. apply Hnone. right. exact Hx.
Qed.

(** The scan ends on the last preferred mode, whatever came before it. *)
Lemma scan_preferred_last :
  forall (pre post : list drmModeModeInfo) (m : drmModeModeInfo)
         (i : nat) (acc : option nat),
    preferred m = true ->
    (forall x, In x post -> preferred x = false) ->
    scan_preferred (pre ++ m :: post) i acc = Some (i + List.length pre)%nat.
Proof.
  induction pre as [|p pre IH]; intros post m i acc Hm Hpost; simpl.
  - unfold preferred in Hm. apply negb_true_iff in Hm. rewrite Hm.
    rewrite scan_preferred_none by exact Hpost.
    f_equal. lia.
  - rewrite (IH post m (S i) _ Hm Hpost). f_equal. lia.
Qed.

(** The same, by index. *)
Lemma scan_preferred_last_index (k : nat) :
  (k < List.length ms)%nat ->
  preferred (nth k ms no_mode) = true ->
  (forall j, (k < j < List.length ms)%nat ->
             preferred (nth j ms no_mode) = false) ->
  scan_preferred ms 0 None = Some k.
Proof.
  intros Hk Hpref Hlater.
  assert (Hsplit : ms = firstn k ms ++ nth k ms no_mode :: skipn (S k) ms).
  { rewrite <- (firstn_skipn k ms) at 1. f_equal.
    clear Hpref Hlater. revert k Hk.
    induction ms as [|a l IH]; intros k Hk; simpl in Hk; [lia|].
    destruct k as [|k]; [reflexivity|].
    simpl. apply IH. lia. }
  rewrite Hsplit.
  rewrite scan_preferred_last.
  - rewrite length_firstn. f_equal. lia.
  - exact Hpref.
  - intros x Hx.
    apply (In_nth _ _ no_mode) in Hx. destruct Hx as [n [Hn Hx]].
    rewrite length_skipn in Hn.
    rewrite nth_skipn in Hx. rewrite <- Hx.
    apply Hlater. lia.
Qed.

Lemma scan_preferred_none_index :
  (forall j, (j < List.length ms)%nat ->
             preferred (nth j ms no_mode) = false) ->
  scan_preferred ms 0 None = None.
Proof.
  intros Hnone. apply scan_preferred_none.
  intros m Hm. apply (In_nth _ _ no_mode) in Hm.
  destruct Hm as [n [Hn <-]]. apply Hnone. exact Hn.
Qed.

(** What the scan answers is the index of a mode. *)
Lemma scan_preferred_bound :
  forall (l : list drmModeModeInfo) (i : nat) (acc : option nat) (k : nat),
    scan_preferred l i acc = Some k ->
    acc = Some k \/ (i <= k < i + List.length l)%nat.
Proof.
  induction l as [|m l IH]; intros i acc k H; simpl in H.
  - left. exact H.
  - apply IH in H. simpl.
    destruct (Z.land (mode_type m) DRM_MODE_TYPE_PREFERRED =? 0).
    + destruct H as [H|H]; [left; exact H|right; lia].
    + destruct H as [H|H]; [injection H as <-; right; lia|right; lia].
Qed.

End Scan.

(** C4. On a connector with at least one mode the selection answers the
    index of a mode of the connector, and
    - a requested index that is in range is answered as it is, preferred or
      not;
    - otherwise the whole sequence is scanned and the last mode carrying the
      preferred marker is answered;
    - otherwise, when no mode carries the marker, the first mode is. *)
Theorem select_resolution_policy (connector : drmModeConnector)
  (selected_resolution : Z) :
  modes connector <> [] ->
  (select_resolution connector selected_resolution
   < List.length (modes connector))%nat /\
  (0 <= selected_resolution < count_modes connector ->
   select_resolution connector selected_resolution
   = Z.to_nat selected_resolution) /\
  (~ 0 <= selected_resolution < count_modes connector ->
   forall k,
     (k < List.length (modes connector))%nat ->
     preferred (mode_at connector k) = true ->
     (forall j, (k < j < List.length (modes connector))%nat ->
                preferred (mode_at connector j) = false) ->
     select_resolution connector selected_resolution = k) /\
  (~ 0 <= selected_resolution < count_modes connector ->
   (forall j, (j < List.length (modes connector))%nat ->
              preferred (mode_at connector j) = false) ->
   select_resolution connector selected_resolution = 0%nat).
Proof.
  intros Hne.
  assert (Hlen : (0 < List.length (modes connector))%nat).
  { destruct (modes connector); [contradiction|simpl; lia]. }
  unfold select_resolution, mode_at, count_modes.
  destruct (Z.geb_spec selected_resolution 0) as [Hge|Hlt];
    [destruct (Z.ltb_spec selected_resolution
                 (Z.of_nat (List.length (modes connector)))) as [Hin|Hout]|];
    simpl.
  - repeat split; try lia.
  - repeat split; try lia.
    + destruct (scan_preferred (modes connector) 0 None) as [k|] eqn:E; [|lia].
      apply scan_preferred_bound in E. destruct E as [E|E]; [discriminate|lia].
    + intros _ k Hk Hp Hlater.
      rewrite (scan_preferred_last_index (modes connector) k Hk Hp Hlater).
      reflexivity.
    + intros _ Hnone.
      rewrite (scan_preferred_none_index (modes connector) Hnone). reflexivity.
  - repeat split; try lia.
    + destruct (scan_preferred (modes connector) 0 None) as [k|] eqn:E; [|lia].
      apply scan_preferred_bound in E. destruct E as [E|E]; [discriminate|lia].
    + intros _ k Hk Hp Hlater.
      rewrite (scan_preferred_last_index (modes connector) k Hk Hp Hlater).
      reflexivity.
    + intros _ Hnone.
      rewrite (scan_preferred_none_index (modes connector) Hnone). reflexivity.
Qed.

Lemma select_resolution_policy_witness :
  select_resolution hdmi 1 = 1%nat /\
  select_resolution hdmi 2 = 2%nat /\
  select_resolution hdmi (-1) = 3%nat /\
  select_resolution hdmi 5 = 3%nat /\
  select_resolution dp (-1) = 0%nat /\
  select_resolution dp 7 = 0%nat.
Proof.
  assert (Hh : modes hdmi <> []) by discriminate.
  assert (Hd : modes dp <> []) by discriminate.
  assert (Hlast : forall j, (3 < j < List.length (modes hdmi))%nat ->
                            preferred (mode_at hdmi j) = false).
  { intros j Hj. simpl in Hj. assert (j = 4%nat) as -> by lia. reflexivity. }
  assert (Hnone : forall j, (j < List.length (modes dp))%nat ->
                            preferred (mode_at dp j) = false).
  { intros j Hj. simpl in Hj.
    destruct j as [|[|[|j]]]; [reflexivity|reflexivity|reflexivity|lia]. }
  split; [|split; [|split; [|split; [|split]]]].
  - destruct (select_resolution_policy hdmi 1 Hh) as [_ [H _]].
    apply H. unfold count_modes. simpl. lia.
  - destruct (select_resolution_policy hdmi 2 Hh) as [_ [H _]].
    apply H. unfold count_modes. simpl. lia.
  - destruct (select_resolution_policy hdmi (-1) Hh) as [_ [_ [H _]]].
    apply H.
    + lia.
    + simpl. lia.
    + reflexivity.
    + exact Hlast.
  - destruct (select_resolution_policy hdmi 5 Hh) as [_ [_ [H _]]].
    apply H.
    + unfold count_modes. simpl. lia.
    + simpl. lia.
    + reflexivity.
    + exact Hlast.
  - destruct (select_resolution_policy dp (-1) Hd) as [_ [_ [_ H]]].
    apply H; [lia|exact Hnone].
  - destruct (select_resolution_policy dp 7 Hd) as [_ [_ [_ H]]].
    apply H; [unfold count_modes; simpl; lia|exact Hnone].
Defined.

(** ** Rules for running the program *)

Section Rules.

Context {W : Type}.

Lemma wp_run {A : Type} (m : M W A) (Q : result A -> state W -> Prop)
  (s : state W) :
  wp m Q s <-> (forall r s', m s = (r, s') -> Q r s').
Proof.
  unfold wp. split.
  - intros H r s' E. rewrite E in H. exact H.
  - intros H. apply H. destruct (m s); reflexivity.
Qed.

Lemma wp_ret {A : Type} (a : A) (Q : result A -> state W -> Prop)
  (s : state W) :
  Q (Ok a) s -> wp (ret a) Q s.
Proof. intros H. exact H. Qed.

Lemma wp_fault {A : Type} (Q : result A -> state W -> Prop) (s : state W) :
  Q Fault s -> wp fault Q s.
Proof. intros H. exact H. Qed.

Lemma wp_bind {A B : Type} (m : M W A) (f : A -> M W B)
  (Q : result B -> state W -> Prop) (s : state W) :
  wp m (fun r s' => match r with
                    | Ok a => wp (f a) Q s'
                    | Fault => Q Fault s'
                    end) s ->
  wp (bind m f) Q s.
Proof.
  unfold wp, bind. destruct (m s) as [[a|] s']; simpl; intros H; exact H.
Qed.

Lemma wp_invoke {A : Type} (k : W -> A * W) (ev : A -> event)
  (Q : result A -> state W -> Prop) (s : state W) :
  (forall a w, k (world s) = (a, w) ->
     Q (Ok a) {| world := w; trace := trace s ++ [ev a]; fb := fb s |}) ->
  wp (invoke k ev) Q s.
Proof.
  unfold wp, invoke. intros H.
  destruct (k (world s)) as [a w] eqn:E. simpl. apply H. reflexivity.
Qed.

Lemma wp_invoke_ (k : W -> W) (ev : event)
  (Q : result unit -> state W -> Prop) (s : state W) :
  Q (Ok tt) {| world := k (world s); trace := trace s ++ [ev]; fb := fb s |} ->
  wp (invoke_ k ev) Q s.
Proof. intros H. exact H. Qed.

Lemma wp_get_fb (Q : result framebuffer -> state W -> Prop) (s : state W) :
  Q (Ok (fb s)) s -> wp get_fb Q s.
Proof. intros H. exact H. Qed.

Lemma wp_modify_fb (f : framebuffer -> framebuffer)
  (Q : result unit -> state W -> Prop) (s : state W) :
  Q (Ok tt) {| world := world s; trace := trace s; fb := f (fb s) |} ->
  wp (modify_fb f) Q s.
Proof. intros H. exact H. Qed.

End Rules.

(** ** Release *)

Lemma added_app {W : Type} (s s' : state W) (evs : list event) :
  trace s' = trace s ++ evs -> added s s' = evs.
Proof.
  intros H. unfold added. rewrite H.
  rewrite skipn_app, skipn_all, Nat.sub_diag. reflexivity.
Qed.

Section Release.

Context {W : Type} (K : kernel W).

(** On a handle whose descriptor is zero a release does nothing at all. *)
Lemma release_framebuffer_zero (s : state W) :
  fb_fd (fb s) = 0 -> release_framebuffer K s = (Ok tt, s).
Proof.
  intros Hfd. unfold release_framebuffer, bind, get_fb. simpl.
  rewrite Hfd. reflexivity.
Qed.

(** On any other handle it runs the six steps, in order, and returns. *)
Lemma release_framebuffer_run (s : state W) :
  fb_fd (fb s) <> 0 ->
  exists (s' : state W) (ptr : option drmModeFB),
    release_framebuffer K s = (Ok tt, s') /\
    trace s' = trace s ++ release_steps (fb s) ptr /\
    fb s' = released (fb s).
Proof.
  intros Hfd. destruct s as [w t h].
  destruct h as [fd crtc connector resolution buffer_id dumb data].
  unfold release_framebuffer, released, release_steps, step_master, step_crtc,
    step_buffer, step_connector, step_dumb, step_close.
  unfold bind, get_fb, ret, drmSetMaster, drmModeSetCrtc, drmModeFreeCrtc,
    drmModeGetFB, drmModeFreeFB, drmModeFreeConnector, ioctl_DESTROY_DUMB,
    close, modify_fb, invoke, invoke_.
  simpl in *.
  apply Z.eqb_neq in Hfd. rewrite Hfd.
  destruct crtc as [crtc|]; simpl;
    destruct (buffer_id =? 0); simpl;
    try destruct (k_GetFB K fd buffer_id _) as [ptr w'] eqn:E; simpl;
    destruct connector as [connector|]; simpl;
    destruct (handle dumb =? 0); simpl;
    eexists; try (exists ptr); try (exists None);
    (split; [reflexivity|]); simpl;
    rewrite <- ?app_assoc; simpl; split; reflexivity.
Qed.

(** The release with lifetimes, on a handle whose descriptor is zero. *)
Lemma release_framebuffer_from_zero (l : lifetime) (s : state W) :
  fb_fd (fb s) = 0 -> release_framebuffer_from K l s = (Ok l, s).
Proof.
  intros Hfd. unfold release_framebuffer_from, bind, get_fb. simpl.
  rewrite Hfd. reflexivity.
Qed.





End Release.

(** What a release leaves of the handle: every field that says a resource is
    owned is as it was. *)
Lemma released_keeps_ownership (h : framebuffer) :
  fb_fd (released h) = fb_fd h /\
  fb_crtc (released h) = fb_crtc h /\
  fb_buffer_id (released h) = fb_buffer_id h /\
  fb_connector (released h) = fb_connector h /\
  fb_dumb_framebuffer (released h) = fb_dumb_framebuffer h.
Proof.
  unfold released.
  destruct (fb_fd h =? 0); [repeat split|].
  destruct (fb_connector h) eqn:E; repeat split; simpl; auto.
Qed.









(** What the steps (c) and (e) are in the code, on a handle that holds a
    descriptor and buffers only: the buffer is fetched and the description
    freed, and the creation structure goes to the request by value. *)
Example release_steps_of_buffers :
  added (start buffers_fb)
    (snd (release_framebuffer (machine card0) (start buffers_fb)))
  = [EvSetMaster 3; EvGetFB 3 77 (Some card_fb); EvFreeFB (Some card_fb);
     EvDestroyDumb 3 (fb_dumb_framebuffer buffers_fb); EvClose 3] /\
  spec_release_steps buffers_fb
  = [EvSetMaster 3; EvRmFB 3 77; EvDestroyDumbOf 3 1; EvClose 3].
Proof. split; reflexivity. Qed.

(** ** Acquisition *)

Section Acquisition.

Context {W : Type} (K : kernel W).

(** The connector search returns, makes connector calls only, leaves [*fb]
    alone, and what it answers matches the name. *)
Lemma find_connector_run (fd : Z) (connector_name : string) :
  forall (ids : list Z) (s : state W),
  exists (s' : state W) (evs : list event) (c : option drmModeConnector),
    find_connector K fd connector_name ids s = (Ok c, s') /\
    trace s' = trace s ++ evs /\
    fb s' = fb s /\
    Forall (fun e => is_connector_call e = true) evs /\
    (forall x, c = Some x -> connector_matches x connector_name = true).
Proof.
  induction ids as [|id rest IH]; intros s.
  - exists s, [], None. simpl. unfold ret.
    rewrite app_nil_r. repeat split; [constructor|discriminate].
  - simpl. unfold bind at 1, drmModeGetConnectorCurrent, invoke.
    destruct (k_GetConnectorCurrent K fd id (world s)) as [[c|] w1] eqn:E.
    + destruct (connector_matches c connector_name) eqn:Em.
      * eexists. exists [EvGetConnectorCurrent fd id (Some c)], (Some c).
        unfold ret. split; [reflexivity|]. simpl.
        repeat split; [repeat constructor|].
        intros x Hx. injection Hx as <-. exact Em.
      * unfold bind, drmModeFreeConnector, invoke_. simpl.
        match goal with
        | |- context [find_connector K fd connector_name rest ?s1] =>
            destruct (IH s1) as [s' [evs [r [Hrun [Ht [Hfb [Hall Hm]]]]]]]
        end.
        exists s',
          (EvGetConnectorCurrent fd id (Some c) :: EvFreeConnector c :: evs), r.
        split; [exact Hrun|]. simpl in Ht, Hfb.
        split; [rewrite Ht, <- !app_assoc; reflexivity|].
        split; [exact Hfb|].
        split; [repeat constructor; exact Hall|exact Hm].
    + match goal with
      | |- context [find_connector K fd connector_name rest ?s1] =>
          destruct (IH s1) as [s' [evs [r [Hrun [Ht [Hfb [Hall Hm]]]]]]]
      end.
      exists s', (EvGetConnectorCurrent fd id None :: evs), r.
      split; [exact Hrun|]. simpl in Ht, Hfb.
      split; [rewrite Ht, <- !app_assoc; reflexivity|].
      split; [exact Hfb|].
      split; [repeat constructor; exact Hall|exact Hm].
Qed.

Lemma wp_find_connector (fd : Z) (connector_name : string) (ids : list Z)
  (Q : result (option drmModeConnector) -> state W -> Prop) (s : state W) :
  (forall (w : W) (evs : list event) (c : option drmModeConnector),
     Forall (fun e => is_connector_call e = true) evs ->
     (forall x, c = Some x -> connector_matches x connector_name = true) ->
     Q (Ok c) {| world := w; trace := trace s ++ evs; fb := fb s |}) ->
  wp (find_connector K fd connector_name ids) Q s.
Proof.
  intros H. unfold wp.
  destruct (find_connector_run fd connector_name ids s)
    as [s' [evs [c [Hrun [Ht [Hfb [Hall Hm]]]]]]].
  rewrite Hrun. simpl.
  destruct s' as [w' t' h']. simpl in Ht, Hfb. subst t' h'.
  apply H; assumption.
Qed.

Lemma wp_release_framebuffer (Q : result unit -> state W -> Prop)
  (s : state W) :
  (fb_fd (fb s) = 0 -> Q (Ok tt) s) ->
  (fb_fd (fb s) <> 0 ->
   forall (w : W) (ptr : option drmModeFB),
     Q (Ok tt) {| world := w; trace := trace s ++ release_steps (fb s) ptr;
                  fb := released (fb s) |}) ->
  wp (release_framebuffer K) Q s.
Proof.
  intros Hz Hnz. unfold wp.
  destruct (Z.eq_dec (fb_fd (fb s)) 0) as [E|E].
  - rewrite (release_framebuffer_zero K s E). simpl. apply Hz. exact E.
  - destruct (release_framebuffer_run K s E) as [s' [ptr [Hrun [Ht Hfb]]]].
    rewrite Hrun. simpl.
    destruct s' as [w' t' h']. simpl in Ht, Hfb. subst t' h'.
    apply Hnz. exact E.
Qed.

End Acquisition.

(** One step of a run: a rule of the monad, a call of the system, or a case
    split on the value a test or a match looks at. *)
Ltac wp_step :=
  lazymatch goal with
  | |- wp (bind _ _) _ _ => apply wp_bind
  | |- wp (ret _) _ _ => apply wp_ret
  | |- wp fault _ _ => apply wp_fault
  | |- wp (invoke _ _) _ _ =>
      let a := fresh "a" in let w := fresh "w" in let E := fresh "Ecall" in
      apply wp_invoke; intros a w E
  | |- wp (invoke_ _ _) _ _ => apply wp_invoke_
  | |- wp get_fb _ _ => apply wp_get_fb
  | |- wp (modify_fb _) _ _ => apply wp_modify_fb
  | |- wp (find_connector _ _ _ _) _ _ =>
      let w := fresh "w" in let evs := fresh "evs" in let c := fresh "c" in
      let Hcalls := fresh "Hcalls" in let Hmatch := fresh "Hmatch" in
      apply wp_find_connector; intros w evs c Hcalls Hmatch
  | |- wp (release_framebuffer _) _ _ =>
      let w := fresh "w" in let ptr := fresh "ptr" in
      let Hfd := fresh "Hfd" in
      apply wp_release_framebuffer; [intros Hfd|intros Hfd w ptr]
  | |- wp (if ?b then _ else _) _ _ =>
      first
        [ match goal with
          | E : b = _ |- _ => rewrite E
          end
        | let E := fresh "Etest" in destruct b eqn:E ]
  | |- wp (match ?o with _ => _ end) _ _ =>
      let E := fresh "Ecase" in destruct o eqn:E
  | |- wp _ _ _ =>
      progress unfold open, close, mmap, ioctl_CREATE_DUMB, ioctl_DESTROY_DUMB,
        drmIoctl_MAP_DUMB, drmModeGetResources, drmModeGetConnectorCurrent,
        drmModeFreeConnector, drmModeAddFB2, drmModeGetFB, drmModeFreeFB,
        drmModeGetEncoder, drmModeFreeEncoder, drmModeGetCrtc, drmModeFreeCrtc,
        drmModeSetCrtc, drmSetMaster, drmDropMaster, first_of, free_encoder,
        acquire_buffer, acquire, leave, get_framebuffer
  end; cbn beta iota delta [world trace fb].

Ltac wp_run_all := repeat wp_step.


(** Every call of a release is one of the release calls. *)
Lemma release_steps_calls (h : framebuffer) (ptr : option drmModeFB) :
  Forall (fun e => is_release_call e = true) (release_steps h ptr).
Proof.
  unfold release_steps, step_master, step_crtc, step_buffer, step_connector,
    step_dumb, step_close.
  destruct (fb_crtc h); destruct (fb_buffer_id h =? 0);
    destruct (fb_connector h); destruct (handle (fb_dumb_framebuffer h) =? 0);
    simpl; repeat constructor.
Qed.

Lemma released_dumb_framebuffer (h : framebuffer) :
  fb_dumb_framebuffer (released h) = fb_dumb_framebuffer h.
Proof. apply released_keeps_ownership. Qed.

(** Splitting a trace at its end. *)
Lemma ends_here {A : Type} (tl : list A) : tl = [] ++ tl.
Proof. reflexivity. Qed.

Lemma ends_after_cons {A : Type} (x : A) (l pre tl : list A) :
  l = pre ++ tl -> x :: l = (x :: pre) ++ tl.
Proof. intros ->. reflexivity. Qed.

Lemma ends_after_app {A : Type} (l0 l pre tl : list A) :
  l = pre ++ tl -> l0 ++ l = (l0 ++ pre) ++ tl.
Proof. intros ->. rewrite app_assoc. reflexivity. Qed.

(** *** Tactics for the states a run ends in *)

(** The trace of a final state, as the initial trace followed by the calls
    of the run. *)
Ltac trace_shape := rewrite <- ?app_assoc; cbn [app].

Ltac trace_ends :=
  repeat first
    [ apply ends_here | apply ends_after_cons | apply ends_after_app ].

(** A property of every call of a trace made of single calls, a connector
    search and a release.  [tac] proves the property of a call once the
    calls it does not speak about are gone. *)
Ltac forall_calls tac :=
  repeat lazymatch goal with
    | |- Forall _ [] => apply Forall_nil
    | |- Forall _ (release_steps _ _) =>
        eapply Forall_impl; [|apply release_steps_calls];
        intros [] ?; intros; try discriminate; tac
    | |- Forall _ (_ :: _) =>
        apply Forall_cons; [intros; try discriminate; tac|]
    | |- Forall _ (_ ++ _) =>
        apply Forall_app; split;
        [ eapply Forall_impl; [|eassumption];
          intros [] ?; intros; try discriminate; tac |]
    | |- Forall _ _ =>
        eapply Forall_impl; [|eassumption];
        intros [] ?; intros; try discriminate; tac
    end.

(** The one call a property speaks about. *)
Ltac this_call :=
  match goal with
  | H : _ = _ |- _ => injection H; intros; subst; clear H
  end;
  rewrite ?released_dumb_framebuffer; reflexivity.

(** A status a failing test has let through is not zero. *)
Ltac status_nonzero :=
  let H := fresh "H" in
  intros H; try (injection H as H);
  first
    [ discriminate H
    | match goal with
      | E : negb (?x =? 0) = true |- _ =>
          rewrite H in E; discriminate E
      end ].

Ltac status_zero :=
  match goal with
  | E : negb (?x =? 0) = false |- _ =>
      apply negb_false_iff in E; apply Z.eqb_eq in E
  end.

(** On a failure the three fields are as in [h], but for the pointer a
    release has cleared. *)
Ltac fields_kept :=
  unfold released; cbn [fb] in *; simpl;
  try match goal with
      | Hfd : fb_fd ?h <> 0 |- _ =>
          let E := fresh "E" in
          pose proof Hfd as E; apply Z.eqb_neq in E; simpl in E; rewrite E
      end;
  try match goal with
      | |- context [match fb_connector ?h with _ => _ end] =>
          let E := fresh "Econn" in destruct (fb_connector h) eqn:E; simpl
      end;
  first
    [ repeat split; auto; left; reflexivity
    | repeat split; auto; right; repeat split; auto; discriminate ].

(** ** The capture of the controller state *)

Section Capture.

Context {W : Type} (K : kernel W).

(** Up to the label [cleanup] the program makes no [drmModeSetCrtc] call. *)
Lemma acquire_no_SetCrtc (dri_device connector_name : string)
  (selected_resolution : Z) (stack : locals) (s : state W) :
  wp (acquire K dri_device connector_name selected_resolution stack)
     (fun _ s1 => exists pre : list event,
        trace s1 = trace s ++ pre /\
        Forall (fun e => is_SetCrtc e = false) pre) s.
Proof.
  destruct s as [w t h].
  wp_run_all; trace_shape.
  all: eexists; split; [reflexivity|].
  all: forall_calls ltac:(reflexivity).
Qed.

(** [get_framebuffer] is its body followed by what comes after the label. *)
Lemma get_framebuffer_unfold (dri_device connector_name : string)
  (selected_resolution : Z) (stack : locals) (s : state W) :
  get_framebuffer K dri_device connector_name selected_resolution stack s =
  match acquire K dri_device connector_name selected_resolution stack s with
  | (Ok e, s1) => leave K e s1
  | (Fault, s1) => (Fault, s1)
  end.
Proof. reflexivity. Qed.

(** Freeing the encoder cannot fail and adds at most its own call. *)
Lemma free_encoder_run (encoder : option drmModeEncoder) (s1 : state W) :
  free_encoder K encoder s1 = (Ok tt, snd (free_encoder K encoder s1)) /\
  fb (snd (free_encoder K encoder s1)) = fb s1 /\
  trace (snd (free_encoder K encoder s1)) =
  trace s1 ++ match encoder with
              | Some enc => [EvFreeEncoder enc]
              | None => []
              end.
Proof.
  destruct encoder as [enc|]; simpl.
  - repeat split.
  - rewrite app_nil_r. repeat split.
Qed.

(** After the label: the encoder is freed, then [err] decides between the
    plain return and the release. *)
Lemma leave_Cleanup (err : Z) (encoder : option drmModeEncoder) (s1 : state W) :
  leave K (Cleanup err encoder) s1 =
  if err =? 0 then (Ok err, snd (free_encoder K encoder s1))
  else (release_framebuffer K ;; ret err) (snd (free_encoder K encoder s1)).
Proof.
  unfold leave. unfold bind at 1.
  destruct (free_encoder_run encoder s1) as [Hrun _]. rewrite Hrun.
  destruct (err =? 0); reflexivity.
Qed.

(** Whatever goes wrong, a run that started on a handle with a zero
    descriptor closes no descriptor, destroys no dumb buffer, frees no
    controller state and sets no controller: the release at [cleanup] finds
    the descriptor still zero. *)
Lemma zero_handle_releases_nothing (dri_device connector_name : string)
  (selected_resolution : Z) (stack : locals) (s : state W) :
  fb_fd (fb s) = 0 ->
  wp (get_framebuffer K dri_device connector_name selected_resolution stack)
     (fun _ s' => exists evs : list event,
        trace s' = trace s ++ evs /\
        Forall (fun e => is_Close e = false /\ is_DestroyDumb e = false /\
                         is_FreeCrtc e = false /\ is_SetMaster e = false /\
                         is_SetCrtc e = false) evs) s.
Proof.
  destruct s as [w t h]. cbn [fb]. intros Hzero.
  wp_run_all; trace_shape; cbn [fb] in *.
  all: try (simpl in *; contradiction).
  all: eexists; split; [reflexivity|].
  all: forall_calls ltac:(repeat split; reflexivity).
Qed.

(** C9. A run of [get_framebuffer] is a run that makes no [drmModeSetCrtc]
    call, the capture of the controller state by [drmModeGetCrtc] included,
    followed by nothing or, on the failures that go through [cleanup], by
    the call of [release_framebuffer]: nothing before the release sets the
    controller.  A run that returns zero, and any run on a handle that came
    in with a zero descriptor, makes no such call at all. *)
Theorem acquisition_sets_no_crtc
  (dri_device connector_name : string) (selected_resolution : Z)
  (stack : locals) (s : state W) :
  (exists (s1 : state W) (pre : list event),
     trace s1 = trace s ++ pre /\
     Forall (fun e => is_SetCrtc e = false) pre /\
     ((exists r,
         get_framebuffer K dri_device connector_name selected_resolution stack s
         = (r, s1)) \/
      (exists err,
         err <> 0 /\
         get_framebuffer K dri_device connector_name selected_resolution stack s
         = (release_framebuffer K ;; ret err) s1))) /\
  (fst (get_framebuffer K dri_device connector_name selected_resolution stack s)
   = Ok 0 \/ fb_fd (fb s) = 0 ->
   Forall (fun e => is_SetCrtc e = false)
     (added s
        (snd (get_framebuffer K dri_device connector_name selected_resolution
                stack s)))).
Proof.
  assert (Hpre :
    exists (s1 : state W) (pre : list event),
      trace s1 = trace s ++ pre /\
      Forall (fun e => is_SetCrtc e = false) pre /\
      ((exists r,
          get_framebuffer K dri_device connector_name selected_resolution stack s
          = (r, s1)) \/
       (exists err,
          err <> 0 /\
          get_framebuffer K dri_device connector_name selected_resolution stack s
          = (release_framebuffer K ;; ret err) s1))).
  { pose proof (acquire_no_SetCrtc dri_device connector_name
                  selected_resolution stack s) as Hacq.
    unfold wp in Hacq. rewrite get_framebuffer_unfold.
    destruct (acquire K dri_device connector_name selected_resolution stack s)
      as [[e|] s1]; simpl in Hacq; destruct Hacq as [pre [Ht Hall]].
    - destruct e as [err|err encoder].
      + exists s1, pre. repeat split; try assumption.
        left. eexists. reflexivity.
      + rewrite leave_Cleanup.
        destruct (free_encoder_run encoder s1) as [_ [_ Hfree]].
        exists (snd (free_encoder K encoder s1)).
        eexists. split; [rewrite Hfree, Ht, <- app_assoc; reflexivity|].
        split.
        * apply Forall_app. split; [exact Hall|].
          destruct encoder; repeat constructor.
        * destruct (Z.eqb_spec err 0) as [Ez|Enz].
          -- left. eexists. reflexivity.
          -- right. exists err. split; [exact Enz|reflexivity].
    - exists s1, pre. repeat split; try assumption.
      left. eexists. reflexivity. }
  split; [exact Hpre|].
  intros [Hok|Hzero].
  - destruct Hpre as [s1 [pre [Ht [Hall [[r Hrun]|[err [Herr Hrun]]]]]]].
    + rewrite Hrun. simpl. rewrite (added_app s s1 pre Ht). exact Hall.
    + exfalso. rewrite Hrun in Hok. unfold bind, ret in Hok.
      destruct (Z.eq_dec (fb_fd (fb s1)) 0) as [E|E].
      * rewrite (release_framebuffer_zero K s1 E) in Hok.
        simpl in Hok. injection Hok as Hok. contradiction.
      * destruct (release_framebuffer_run K s1 E) as [s2 [ptr [Hrel _]]].
        rewrite Hrel in Hok. simpl in Hok. injection Hok as Hok. contradiction.
  - pose proof (zero_handle_releases_nothing dri_device connector_name
                  selected_resolution stack s Hzero) as Hwp.
    unfold wp in Hwp. destruct Hwp as [evs [Ht Hall]].
    rewrite (added_app _ _ evs Ht).
    eapply Forall_impl; [|exact Hall].
    intros e He. apply He.
Qed.

End Capture.

Lemma acquisition_sets_no_crtc_witness :
  Forall (fun e => is_SetCrtc e = false)
    (added (start zero_fb)
       (snd (get_framebuffer (machine card0) "/dev/dri/card0" "HDMI-A-1" (-1)
               clean_stack (start zero_fb)))) /\
  Forall (fun e => is_SetCrtc e = false)
    (added (start zero_fb)
       (snd (get_framebuffer (machine card_no_mmap) "/dev/dri/card0" "HDMI-A-1"
               (-1) clean_stack (start zero_fb)))).
Proof.
  split.
  - apply (acquisition_sets_no_crtc (machine card0) "/dev/dri/card0" "HDMI-A-1"
             (-1) clean_stack (start zero_fb)).
    left. vm_compute. reflexivity.
  - apply (acquisition_sets_no_crtc (machine card_no_mmap) "/dev/dri/card0"
             "HDMI-A-1" (-1) clean_stack (start zero_fb)).
    right. reflexivity.
Defined.

(** ** The fields assigned last *)

Section Fields.

Context {W : Type} (K : kernel W).

(** What a run of [get_framebuffer] does to the three fields: the amended
    claim C10 as a condition on the final state. *)
Lemma get_framebuffer_fields (dri_device connector_name : string)
  (selected_resolution : Z) (stack : locals) (s : state W) :
  wp (get_framebuffer K dri_device connector_name selected_resolution stack)
     (fun r s' =>
        (r <> Ok 0 ->
         fb_fd (fb s') = fb_fd (fb s) /\
         fb_connector (fb s') = fb_connector (fb s) /\
         (fb_resolution (fb s') = fb_resolution (fb s) \/
          fb_fd (fb s) <> 0 /\ fb_connector (fb s) <> None /\
          fb_resolution (fb s') = None)) /\
        (r = Ok 0 ->
         exists (fd : Z) (connector : drmModeConnector) (pre : list event)
                (len off ptr : Z) (enc : drmModeEncoder),
           trace s' =
           trace s ++ pre ++
           [EvMmap 0 len (Z.lor PROT_READ PROT_WRITE) MAP_SHARED fd off ptr;
            EvDropMaster fd; EvFreeEncoder enc] /\
           ptr <> MAP_FAILED /\
           fb_fd (fb s') = fd /\
           fb_connector (fb s') = Some connector /\
           fb_resolution (fb s') =
           Some (mode_at connector
                   (select_resolution connector selected_resolution)))) s.
Proof.
  destruct s as [w t h].
  wp_run_all; trace_shape; cbn [fb].
  all: split; [|try status_nonzero].
  all: try (intros _; fields_kept; fail).
  all: status_zero.
  all: try (intros Hnz; exfalso; apply Hnz; f_equal; assumption).
  all: intros _; do 7 eexists.
  all: split; [f_equal; trace_ends|].
  all: split; [apply Z.eqb_neq; assumption|].
  all: repeat split.
Qed.


(** C10, amended.  On every run of [get_framebuffer] that does not return
    zero, the descriptor and the connector of the handle are what the caller
    passed in, and so is the resolution pointer unless the handle came in
    with a descriptor and a connector, in which case the release at
    [cleanup] has nulled it.  On the run that returns zero the three fields
    hold the opened descriptor, the matched connector and the selected mode,
    and the trace ends with the successful mapping, the drop of mastership
    and the freeing of the encoder. *)
Theorem get_framebuffer_caller_fields
  (dri_device connector_name : string) (selected_resolution : Z)
  (stack : locals) (s s' : state W) (r : result Z) :
  get_framebuffer K dri_device connector_name selected_resolution stack s
  = (r, s') ->
  (r <> Ok 0 ->
   fb_fd (fb s') = fb_fd (fb s) /\
   fb_connector (fb s') = fb_connector (fb s) /\
   (fb_resolution (fb s') = fb_resolution (fb s) \/
    fb_fd (fb s) <> 0 /\ fb_connector (fb s) <> None /\
    fb_resolution (fb s') = None)) /\
  (r <> Ok 0 -> fb_fd (fb s) = 0 \/ fb_connector (fb s) = None ->
   keeps_caller_fields s s') /\
  (r = Ok 0 ->
   exists (fd : Z) (connector : drmModeConnector) (pre : list event)
          (len off ptr : Z) (enc : drmModeEncoder),
     added s s' =
     pre ++
     [EvMmap 0 len (Z.lor PROT_READ PROT_WRITE) MAP_SHARED fd off ptr;
      EvDropMaster fd; EvFreeEncoder enc] /\
     ptr <> MAP_FAILED /\
     fb_fd (fb s') = fd /\
     fb_connector (fb s') = Some connector /\
     fb_resolution (fb s') =
     Some (mode_at connector
             (select_resolution connector selected_resolution))).
Proof.
  intros Hrun.
  pose proof (get_framebuffer_fields dri_device connector_name
                selected_resolution stack s) as Hwp.
  apply wp_run with (r := r) (s' := s') in Hwp; [|exact Hrun].
  destruct Hwp as [Hfail Hok].
  split; [exact Hfail|]. split.
  - intros Hr Hzero.
    destruct (Hfail Hr) as [Hfd [Hconn [Hres|[Hnz [Hsome _]]]]].
    + repeat split; assumption.
    + destruct Hzero; contradiction.
  - intros Hr.
    destruct (Hok Hr) as
      [fd [connector [pre [len [off [ptr [enc [Ht Hrest]]]]]]]].
    exists fd, connector, pre, len, off, ptr, enc.
    split; [apply added_app; exact Ht|exact Hrest].
Qed.

End Fields.

(** C10, as claimed, fails: given a handle that still carries a descriptor,
    a connector and a resolution, an acquisition that fails at the creation
    of the dumb buffer returns with the resolution pointer nulled. *)
Lemma caller_fields_counterexample :
  fst (get_framebuffer (machine card_no_dumb) "/dev/dri/card0" "HDMI-A-1" (-1)
         clean_stack (start stale_fb)) = Ok (-1) /\
  ~ keeps_caller_fields (start stale_fb)
      (snd (get_framebuffer (machine card_no_dumb) "/dev/dri/card0" "HDMI-A-1"
              (-1) clean_stack (start stale_fb))).
Proof.
  split.
  - vm_compute. reflexivity.
  - intros [_ [_ Hres]]. vm_compute in Hres. discriminate Hres.
Qed.

Lemma get_framebuffer_caller_fields_witness :
  (exists s' : state unit,
     get_framebuffer (machine card_no_mmap) "/dev/dri/card0" "HDMI-A-1" (-1)
       clean_stack (start zero_fb) = (Ok 12, s') /\
     keeps_caller_fields (start zero_fb) s') /\
  (exists s' : state unit,
     get_framebuffer (machine card0) "/dev/dri/card0" "HDMI-A-1" (-1)
       clean_stack (start zero_fb) = (Ok 0, s') /\
     fb_fd (fb s') = 3 /\
     fb_connector (fb s') = Some hdmi /\
     fb_resolution (fb s') = Some (mode_of 1024 768 72)).
Proof.
  split.
  - eexists. split; [vm_compute; reflexivity|].
    eapply (get_framebuffer_caller_fields (machine card_no_mmap)
              "/dev/dri/card0" "HDMI-A-1" (-1) clean_stack (start zero_fb)).
    + vm_compute. reflexivity.
    + discriminate.
    + left. reflexivity.
  - eexists. split; [vm_compute; reflexivity|].
    match goal with
    | |- context [fb ?s'] =>
        destruct (get_framebuffer_caller_fields (machine card0)
                    "/dev/dri/card0" "HDMI-A-1" (-1) clean_stack
                    (start zero_fb) s' (Ok 0)) as [_ [_ Hok]];
        [vm_compute; reflexivity|]
    end.
    destruct (Hok eq_refl)
      as [fd [connector [pre [len [off [ptr [enc [_ [_ [Hfd [Hc Hr]]]]]]]]]]].
    vm_compute. repeat split.
Defined.

(** ** The mapping *)

Section Mapping.

Context {W : Type} (K : kernel W).

Lemma get_framebuffer_mapping (dri_device connector_name : string)
  (selected_resolution : Z) (stack : locals) (s : state W) :
  wp (get_framebuffer K dri_device connector_name selected_resolution stack)
     (fun r s' => exists evs : list event,
        trace s' = trace s ++ evs /\
        Forall (fun e => forall addr len prot mflags fd off ptr,
                  e = EvMmap addr len prot mflags fd off ptr ->
                  len = size (fb_dumb_framebuffer (fb s'))) evs /\
        Forall (fun e => forall fd arg ret out,
                  e = EvCreateDumb fd arg ret out ->
                  fb_dumb_framebuffer (fb s') = out) evs /\
        (r = Ok 0 ->
         exists (pre : list event) (fd off ptr : Z) (enc : drmModeEncoder),
           evs =
           pre ++
           [EvMmap 0 (size (fb_dumb_framebuffer (fb s')))
              (Z.lor PROT_READ PROT_WRITE) MAP_SHARED fd off ptr;
            EvDropMaster fd; EvFreeEncoder enc] /\
           ptr <> MAP_FAILED /\
           fb_data (fb s') = ptr)) s.
Proof.
  destruct s as [w t h].
  wp_run_all; trace_shape; cbn [fb].
  all: eexists; split; [reflexivity|].
  all: split; [forall_calls idtac; this_call|].
  all: split; [forall_calls idtac; this_call|].
  all: try status_nonzero.
  all: intros _; do 5 eexists.
  all: split; [simpl; trace_ends|].
  all: split; [apply Z.eqb_neq; assumption|reflexivity].
Qed.

(** C8. In every run of [get_framebuffer], a mapping asks for exactly the
    number of bytes the handle records as the size of the dumb buffer, which
    is the size the kernel reported when it created the buffer; and a run
    that returns zero has made such a mapping, successfully, and has put its
    address in the handle. *)
Theorem mapping_has_buffer_size
  (dri_device connector_name : string) (selected_resolution : Z)
  (stack : locals) (s s' : state W) (r : result Z) :
  get_framebuffer K dri_device connector_name selected_resolution stack s
  = (r, s') ->
  (forall addr len prot mflags fd off ptr,
     In (EvMmap addr len prot mflags fd off ptr) (added s s') ->
     len = size (fb_dumb_framebuffer (fb s'))) /\
  (forall fd arg ret out,
     In (EvCreateDumb fd arg ret out) (added s s') ->
     size (fb_dumb_framebuffer (fb s')) = size out) /\
  (r = Ok 0 ->
   exists (pre : list event) (fd off ptr : Z) (enc : drmModeEncoder),
     added s s' =
     pre ++
     [EvMmap 0 (size (fb_dumb_framebuffer (fb s')))
        (Z.lor PROT_READ PROT_WRITE) MAP_SHARED fd off ptr;
      EvDropMaster fd; EvFreeEncoder enc] /\
     ptr <> MAP_FAILED /\
     fb_data (fb s') = ptr).
Proof.
  intros Hrun.
  pose proof (get_framebuffer_mapping dri_device connector_name
                selected_resolution stack s) as Hwp.
  apply wp_run with (r := r) (s' := s') in Hwp; [|exact Hrun].
  destruct Hwp as [evs [Ht [Hmap [Hdumb Hok]]]].
  rewrite (added_app s s' evs Ht).
  rewrite Forall_forall in Hmap, Hdumb.
  split; [|split].
  - intros addr len prot mflags fd off ptr Hin.
    eapply Hmap; [exact Hin|reflexivity].
  - intros fd arg ret out Hin.
    erewrite Hdumb; [reflexivity|exact Hin|reflexivity].
  - exact Hok.
Qed.

End Mapping.

Lemma mapping_has_buffer_size_witness :
  exists s' : state unit,
    get_framebuffer (machine card0) "/dev/dri/card0" "HDMI-A-1" (-1)
      clean_stack (start zero_fb) = (Ok 0, s') /\
    In (EvMmap 0 3145728 3 1 3 4096 1048576) (added (start zero_fb) s') /\
    size (fb_dumb_framebuffer (fb s')) = 3145728 /\
    fb_data (fb s') = 1048576.
Proof.
  eexists. split; [vm_compute; reflexivity|].
  match goal with
  | |- context [fb ?s'] =>
      destruct (mapping_has_buffer_size (machine card0)
                  "/dev/dri/card0" "HDMI-A-1" (-1) clean_stack
                  (start zero_fb) s' (Ok 0)) as [Hmap [Hdumb Hok]];
      [vm_compute; reflexivity|];
      assert (Hin : In (EvMmap 0 3145728 3 1 3 4096 1048576)
                      (added (start zero_fb) s'))
        by (vm_compute; do 10 right; left; reflexivity)
  end.
  split; [exact Hin|].
  split; [symmetry; exact (Hmap _ _ _ _ _ _ _ Hin)|].
  reflexivity.
Defined.

(** ** A connector without modes *)

Section NoModes.

Context {W : Type} (K : kernel W).

(** C5. When the device opens, its resources are read and the search
    matches a connector that reports no mode, [get_framebuffer] returns
    [-EINVAL] right after the search: no dumb buffer has been created, no
    buffer has been registered, and the handle is untouched. *)
Theorem no_modes_is_invalid_argument
  (dri_device connector_name : string) (selected_resolution : Z)
  (stack : locals) (s s1 s2 s3 : state W) (fd : Z) (res : drmModeRes)
  (connector : drmModeConnector) :
  open K dri_device O_RDWR s = (Ok fd, s1) ->
  0 <= fd ->
  drmModeGetResources K fd s1 = (Ok (Some res), s2) ->
  find_connector K fd connector_name (connectors res) s2
  = (Ok (Some connector), s3) ->
  count_modes connector <= 0 ->
  get_framebuffer K dri_device connector_name selected_resolution stack s
  = (Ok (- EINVAL), s3) /\
  Forall (fun e => is_CreateDumb e = false /\ is_AddFB2 e = false)
    (added s s3) /\
  fb s3 = fb s.
Proof.
  intros Hopen Hfd Hres Hfind Hmodes.
  split; [|split].
  - unfold get_framebuffer, acquire.
    unfold bind at 1. unfold bind at 1. rewrite Hopen.
    destruct (Z.ltb_spec fd 0) as [Hneg|_]; [lia|].
    unfold bind at 1. rewrite Hres.
    unfold bind at 1. rewrite Hfind.
    destruct (Z.leb_spec (count_modes connector) 0) as [_|Hpos]; [|lia].
    reflexivity.
  - destruct (find_connector_run K fd connector_name (connectors res) s2)
      as [s3' [evs [c [Hrun [Ht [_ [Hcalls _]]]]]]].
    rewrite Hfind in Hrun. injection Hrun as <- <-.
    unfold open, invoke in Hopen.
    destruct (sys_open K dri_device O_RDWR (world s)) as [a w1].
    injection Hopen as -> <-.
    unfold drmModeGetResources, invoke in Hres. simpl in Hres.
    destruct (k_GetResources K fd w1) as [a4 w2].
    injection Hres as -> <-.
    simpl in Ht.
    rewrite (added_app s s3 ([EvOpen dri_device O_RDWR fd] ++
                             [EvGetResources fd (Some res)] ++ evs)).
    + repeat (apply Forall_cons; [split; reflexivity|]).
      eapply Forall_impl; [|exact Hcalls].
      intros e He. destruct e; try discriminate He; split; reflexivity.
    + rewrite Ht, <- !app_assoc. reflexivity.
  - destruct (find_connector_run K fd connector_name (connectors res) s2)
      as [s3' [evs [c [Hrun [_ [Hfb _]]]]]].
    rewrite Hfind in Hrun. injection Hrun as <- <-.
    rewrite Hfb.
    unfold open, invoke in Hopen.
    destruct (sys_open K dri_device O_RDWR (world s)) as [a w1].
    injection Hopen as -> <-.
    unfold drmModeGetResources, invoke in Hres. simpl in Hres.
    destruct (k_GetResources K fd w1) as [a4 w2].
    injection Hres as -> <-.
    reflexivity.
Qed.

End NoModes.

Lemma no_modes_is_invalid_argument_witness :
  exists s3 : state unit,
    get_framebuffer (machine card0) "/dev/dri/card0" "VGA-1" (-1) clean_stack
      (start zero_fb) = (Ok (-22), s3) /\
    Forall (fun e => is_CreateDumb e = false /\ is_AddFB2 e = false)
      (added (start zero_fb) s3) /\
    fb s3 = zero_fb.
Proof.
  eexists.
  eapply (no_modes_is_invalid_argument (machine card0) "/dev/dri/card0" "VGA-1"
            (-1) clean_stack (start zero_fb) _ _ _ 3 card_resources vga).
  - reflexivity.
  - lia.
  - reflexivity.
  - vm_compute. reflexivity.
  - unfold count_modes. simpl. lia.
Defined.

(** ** Registration *)

Section Registration.

Context {W : Type} (K : kernel W).

(** What [get_framebuffer] hands to [drmModeAddFB2]: the size of the
    selected mode of a matched connector, the ABGR8888 format, no flags, and
    three arrays of which element 0 is assigned (the handle and the pitch of
    the dumb buffer, offset zero) and elements 1 to 3 are what the stack
    held on entry. *)
Lemma registration_arguments (dri_device connector_name : string)
  (selected_resolution : Z) (stack : locals) (s : state W) :
  wp (get_framebuffer K dri_device connector_name selected_resolution stack)
     (fun _ s' => exists evs : list event,
        trace s' = trace s ++ evs /\
        Forall (fun e => forall fd w h fmt hs ps os fl ret id,
                  e = EvAddFB2 fd w h fmt hs ps os fl ret id ->
                  (exists connector,
                     connector_matches connector connector_name = true /\
                     w = hdisplay (mode_at connector
                           (select_resolution connector selected_resolution)) /\
                     h = vdisplay (mode_at connector
                           (select_resolution connector selected_resolution))) /\
                  fmt = DRM_FORMAT_ABGR8888 /\ fl = 0 /\
                  hs = set_a0 (handle (fb_dumb_framebuffer (fb s')))
                         (handles stack) /\
                  ps = set_a0 (pitch (fb_dumb_framebuffer (fb s')))
                         (pitches stack) /\
                  os = set_a0 0 (offsets stack)) evs) s.
Proof.
  destruct s as [w t h].
  wp_run_all; trace_shape; cbn [fb].
  all: eexists; split; [reflexivity|].
  all: forall_calls idtac.
  all: match goal with
       | H : _ = _ |- _ => injection H; intros; subst; clear H
       end.
  all: rewrite ?released_dumb_framebuffer.
  all: split; [eexists; split; [eauto|split; reflexivity]|].
  all: repeat split.
Qed.

End Registration.

(** C7, the code at a stack that is not clean: the plane slots 1 to 3 of
    the arrays handed to [drmModeAddFB2] hold what the stack held, not
    zero. *)
Theorem addfb2_passes_stale_plane_slots :
  In (EvAddFB2 3 1024 768 DRM_FORMAT_ABGR8888
        {| a0 := 1; a1 := 3735928559; a2 := 0; a3 := 1 |}
        {| a0 := 4096; a1 := 4096; a2 := 0; a3 := 0 |}
        {| a0 := 0; a1 := 0; a2 := 65536; a3 := 0 |}
        0 0 (Some 77))
     (trace (snd (get_framebuffer (machine card0) "/dev/dri/card0" "HDMI-A-1"
                    (-1) dirty_stack (start zero_fb)))).
Proof.
  vm_compute. do 6 right. left. reflexivity.
Qed.

(** With a stack that happens to be clean the slots are zero. *)
Example addfb2_on_clean_stack :
  In (EvAddFB2 3 1024 768 DRM_FORMAT_ABGR8888
        {| a0 := 1; a1 := 0; a2 := 0; a3 := 0 |}
        {| a0 := 4096; a1 := 0; a2 := 0; a3 := 0 |}
        {| a0 := 0; a1 := 0; a2 := 0; a3 := 0 |}
        0 0 (Some 77))
     (trace (snd (get_framebuffer (machine card0) "/dev/dri/card0" "HDMI-A-1"
                    (-1) clean_stack (start zero_fb)))).
Proof.
  vm_compute. do 6 right. left. reflexivity.
Qed.

(** ** Failing acquisitions *)

(** C1, the code on two failures, both on a zeroed handle.  When the
    resources cannot be read the function returns [-EINVAL] at once: the
    descriptor it has opened is not closed.  When the mapping fails the
    function goes through [cleanup] and calls the release, which finds the
    descriptor of the handle still zero and does nothing: the descriptor,
    the connector, the dumb buffer, the registered buffer and the controller
    state stay acquired. *)
Theorem failed_acquisition_leaks :
  get_framebuffer (machine card_no_resources) "/dev/dri/card0" "HDMI-A-1" (-1)
    clean_stack (start zero_fb)
  = (Ok (- EINVAL),
     {| world := tt;
        trace := [EvOpen "/dev/dri/card0" O_RDWR 3; EvGetResources 3 None];
        fb := zero_fb |}) /\
  exists s' : state unit,
    get_framebuffer (machine card_no_mmap) "/dev/dri/card0" "HDMI-A-1" (-1)
      clean_stack (start zero_fb) = (Ok 12, s') /\
    count is_Close (trace s') = 0%nat /\
    count is_DestroyDumb (trace s') = 0%nat /\
    count is_FreeCrtc (trace s') = 0%nat /\
    ~ In (EvFreeConnector hdmi) (trace s') /\
    In (EvOpen "/dev/dri/card0" O_RDWR 3) (trace s') /\
    In (EvGetConnectorCurrent 3 31 (Some hdmi)) (trace s') /\
    count is_CreateDumb (trace s') = 1%nat /\
    count is_AddFB2 (trace s') = 1%nat /\
    fb_fd (fb s') = 0 /\
    fb_crtc (fb s') = Some card_crtc /\
    fb_buffer_id (fb s') = 77.
Proof.
  split; [vm_compute; reflexivity|].
  eexists. split; [vm_compute; reflexivity|].
  cbn [trace fb].
  repeat split; try reflexivity.
  - intros Hin. simpl in Hin.
    repeat (destruct Hin as [Hin|Hin]; [discriminate Hin|]).
    exact Hin.
  - left. reflexivity.
  - do 4 right. left. reflexivity.
Qed.

(** * Further properties *)

(** ** The connector search *)

Section Search.

Context {W : Type} (K : kernel W).

(** X1. The search loop holds at most one connector at any point, and at
    its end none but the one it answers: each connector that does not match
    is freed before the next one is fetched. *)
Theorem search_holds_one_connector (fd : Z) (connector_name : string) :
  forall (ids : list Z) (s : state W),
  exists (s' : state W) (c : option drmModeConnector),
    find_connector K fd connector_name ids s = (Ok c, s') /\
    (held_peak 0 (added s s') <= 1)%nat /\
    held_after 0 (added s s') = match c with Some _ => 1%nat | None => 0%nat end.
Proof.
  induction ids as [|id rest IH]; intros s.
  - exists s, None. simpl. unfold ret, added.
    rewrite skipn_all. simpl. repeat split; lia.
  - simpl. unfold bind at 1, drmModeGetConnectorCurrent, invoke.
    destruct (k_GetConnectorCurrent K fd id (world s)) as [[c|] w1] eqn:E.
    + destruct (connector_matches c connector_name) eqn:Em.
      * eexists. exists (Some c). unfold ret. split; [reflexivity|].
        rewrite (added_app s _ [EvGetConnectorCurrent fd id (Some c)])
          by reflexivity.
        cbn [held_peak held_after]. split; [lia|reflexivity].
      * unfold bind, drmModeFreeConnector, invoke_. simpl.
        match goal with
        | |- context [find_connector K fd connector_name rest ?s1] =>
            destruct (IH s1) as [s' [r [Hrun [Hpeak Hheld]]]];
            destruct (find_connector_run K fd connector_name rest s1)
              as [s'' [evs [r' [Hrun' [Ht _]]]]];
            rewrite Hrun in Hrun'; injection Hrun' as <- <-;
            rewrite (added_app s1 s' evs Ht) in Hpeak, Hheld
        end.
        exists s', r. split; [exact Hrun|]. simpl in Ht.
        rewrite (added_app s s'
                   (EvGetConnectorCurrent fd id (Some c) :: EvFreeConnector c
                    :: evs))
          by (rewrite Ht, <- !app_assoc; reflexivity).
        cbn [held_peak held_after Nat.pred]. split; [lia|exact Hheld].
    + match goal with
      | |- context [find_connector K fd connector_name rest ?s1] =>
          destruct (IH s1) as [s' [r [Hrun [Hpeak Hheld]]]];
          destruct (find_connector_run K fd connector_name rest s1)
            as [s'' [evs [r' [Hrun' [Ht _]]]]];
          rewrite Hrun in Hrun'; injection Hrun' as <- <-;
          rewrite (added_app s1 s' evs Ht) in Hpeak, Hheld
      end.
      exists s', r. split; [exact Hrun|]. simpl in Ht.
      rewrite (added_app s s' (EvGetConnectorCurrent fd id None :: evs))
        by (rewrite Ht, <- !app_assoc; reflexivity).
      cbn [held_peak held_after]. split; [exact Hpeak|exact Hheld].
Qed.

(** The whole of what the search does: the identifiers it asks about are a
    prefix of the list; a connector that is answered either matches, and
    then it is the last call and the answer of the search, or does not
    match, and then it is freed by the very next call. *)
Lemma find_connector_search (fd : Z) (connector_name : string) :
  forall (ids : list Z) (s : state W),
  exists (s' : state W) (evs : list event) (c : option drmModeConnector),
    find_connector K fd connector_name ids s = (Ok c, s') /\
    trace s' = trace s ++ evs /\
    fb s' = fb s /\
    Forall (fun e => is_connector_call e = true) evs /\
    (exists rest, ids = queried evs ++ rest /\ (c = None -> rest = [])) /\
    (forall x, In (EvFreeConnector x) evs ->
               connector_matches x connector_name = false) /\
    (forall x, c = Some x ->
               connector_matches x connector_name = true /\
               exists pre id,
                 evs = pre ++ [EvGetConnectorCurrent fd id (Some x)]) /\
    (forall pre fd' id x post,
       evs = pre ++ EvGetConnectorCurrent fd' id (Some x) :: post ->
       post = [] /\ c = Some x \/
       connector_matches x connector_name = false /\
       exists post', post = EvFreeConnector x :: post').
Proof.
  induction ids as [|id rest IH]; intros s.
  - exists s, [], None. simpl. unfold ret.
    rewrite List.app_nil_r.
    split; [reflexivity|]. split; [reflexivity|]. split; [reflexivity|].
    split; [constructor|].
    split; [exists []; split; auto|].
    split; [intros x []|].
    split; [discriminate|].
    intros [|e pre] fd' id x post H; discriminate H.
  - simpl. unfold bind at 1, drmModeGetConnectorCurrent, invoke.
    destruct (k_GetConnectorCurrent K fd id (world s)) as [[c|] w1] eqn:E.
    + destruct (connector_matches c connector_name) eqn:Em.
      * eexists. exists [EvGetConnectorCurrent fd id (Some c)], (Some c).
        unfold ret. split; [reflexivity|]. simpl.
        split; [reflexivity|]. split; [reflexivity|].
        split; [repeat constructor|].
        split; [exists rest; split; [reflexivity|discriminate]|].
        split; [intros x [Hx|[]]; discriminate Hx|].
        split.
        -- intros x Hx. injection Hx as <-. split; [exact Em|].
           exists [], id. reflexivity.
        -- intros [|e [|e' pre]] fd' id' x post H; try discriminate H.
           injection H as _ _ <- <-. left. split; reflexivity.
      * unfold bind, drmModeFreeConnector, invoke_. simpl.
        match goal with
        | |- context [find_connector K fd connector_name rest ?s1] =>
            destruct (IH s1)
              as [s' [evs [r [Hrun [Ht [Hfb [Hall [[tl [Hq Hnone]]
                  [Hfreed [Hfound Hevery]]]]]]]]]]
        end.
        exists s',
          (EvGetConnectorCurrent fd id (Some c) :: EvFreeConnector c :: evs), r.
        split; [exact Hrun|]. simpl in Ht, Hfb.
        split; [rewrite Ht, <- !app_assoc; reflexivity|].
        split; [exact Hfb|].
        split; [repeat constructor; exact Hall|].
        simpl. split; [exists tl; split; [f_equal; exact Hq|exact Hnone]|].
        split.
        { intros x [Hx|[Hx|Hx]]; [discriminate Hx| |apply Hfreed; exact Hx].
          injection Hx as <-. exact Em. }
        split.
        { intros x Hx. destruct (Hfound x Hx) as [Hm [pre [id' Hpre]]].
          split; [exact Hm|].
          exists (EvGetConnectorCurrent fd id (Some c) :: EvFreeConnector c
                  :: pre), id'.
          rewrite Hpre. reflexivity. }
        intros [|e [|e' pre]] fd' id' x post H.
        -- injection H as _ _ <- <-. right. split; [exact Em|].
           exists evs. reflexivity.
        -- discriminate H.
        -- injection H as _ _ H. exact (Hevery pre fd' id' x post H).
    + match goal with
      | |- context [find_connector K fd connector_name rest ?s1] =>
          destruct (IH s1)
            as [s' [evs [r [Hrun [Ht [Hfb [Hall [[tl [Hq Hnone]]
                [Hfreed [Hfound Hevery]]]]]]]]]]
      end.
      exists s', (EvGetConnectorCurrent fd id None :: evs), r.
      split; [exact Hrun|]. simpl in Ht, Hfb.
      split; [rewrite Ht, <- !app_assoc; reflexivity|].
      split; [exact Hfb|].
      split; [repeat constructor; exact Hall|].
      simpl. split; [exists tl; split; [f_equal; exact Hq|exact Hnone]|].
      split.
      { intros x [Hx|Hx]; [discriminate Hx|apply Hfreed; exact Hx]. }
      split.
      { intros x Hx. destruct (Hfound x Hx) as [Hm [pre [id' Hpre]]].
        split; [exact Hm|].
        exists (EvGetConnectorCurrent fd id None :: pre), id'.
        rewrite Hpre. reflexivity. }
      intros [|e pre] fd' id' x post H.
      * discriminate H.
      * injection H as _ H. exact (Hevery pre fd' id' x post H).
Qed.


(** The rule of the search that says what it has answered and freed. *)
Lemma wp_find_connector_answer (fd : Z) (connector_name : string)
  (ids : list Z) (Q : result (option drmModeConnector) -> state W -> Prop)
  (s : state W) :
  (forall (w : W) (evs : list event) (c : option drmModeConnector),
     Forall (fun e => is_connector_call e = true) evs ->
     (forall x, c = Some x -> connector_matches x connector_name = true) ->
     (forall x, In (EvFreeConnector x) evs ->
                connector_matches x connector_name = false) ->
     (forall x, c = Some x ->
                exists pre id,
                  evs = pre ++ [EvGetConnectorCurrent fd id (Some x)]) ->
     Q (Ok c) {| world := w; trace := trace s ++ evs; fb := fb s |}) ->
  wp (find_connector K fd connector_name ids) Q s.
Proof.
  intros H. unfold wp.
  destruct (find_connector_search fd connector_name ids s)
    as [s' [evs [c [Hrun [Ht [Hfb [Hall [_ [Hfreed [Hfound _]]]]]]]]]].
  rewrite Hrun. simpl.
  destruct s' as [w' t' h']. simpl in Ht, Hfb. subst t' h'.
  apply H; try assumption.
  - intros x Hx. apply (Hfound x Hx).
  - intros x Hx. apply (Hfound x Hx).
Qed.

End Search.

(** A run, with the rule of the search that says what it has answered. *)
Ltac wp_step_answer :=
  lazymatch goal with
  | |- wp (find_connector _ _ _ _) _ _ =>
      let w := fresh "w" in let evs := fresh "evs" in let c := fresh "c" in
      let Hcalls := fresh "Hcalls" in let Hmatch := fresh "Hmatch" in
      let Hfreed := fresh "Hfreed" in let Hlast := fresh "Hlast" in
      apply wp_find_connector_answer;
      intros w evs c Hcalls Hmatch Hfreed Hlast;
      cbn beta iota delta [world trace fb]
  | |- _ => wp_step
  end.

Ltac wp_run_answer := repeat wp_step_answer.

(** ** The connector a run has matched *)

Lemma last_connector_app (t1 t2 : list event) :
  forall acc : option drmModeConnector,
    last_connector (t1 ++ t2) acc = last_connector t2 (last_connector t1 acc).
Proof.
  induction t1 as [|e t1 IH]; intros acc; [reflexivity|].
  destruct e; simpl; apply IH.
Qed.

(** Calls that are not [drmModeGetConnectorCurrent] do not change it. *)
Lemma last_connector_skip (p : event -> bool) (t : list event) :
  (forall fd id ret, p (EvGetConnectorCurrent fd id ret) = false) ->
  Forall (fun e => p e = true) t ->
  forall acc : option drmModeConnector, last_connector t acc = acc.
Proof.
  intros Hp Hall. induction Hall as [|e t He _ IH]; intros acc;
    [reflexivity|].
  destruct e; simpl; try apply IH.
  rewrite Hp in He. discriminate He.
Qed.

Lemma last_connector_release (h : framebuffer) (ptr : option drmModeFB)
  (acc : option drmModeConnector) :
  last_connector (release_steps h ptr) acc = acc.
Proof.
  apply (last_connector_skip is_release_call);
    [reflexivity|apply release_steps_calls].
Qed.

(** The connector a search has answered is the last answer of the run,
    whatever calls of the acquisition and of the release follow. *)
Ltac last_answer :=
  lazymatch goal with
  | Hlast : forall x, Some ?c = Some x -> exists pre id, ?evs = _
    |- last_connector _ _ = Some ?c =>
      let pre := fresh "pre" in let id := fresh "id" in
      let Hpre := fresh "Hpre" in
      destruct (Hlast c eq_refl) as [pre [id Hpre]];
      cbn [last_connector];
      rewrite ?last_connector_app, Hpre, ?last_connector_app;
      cbn [last_connector];
      rewrite ?last_connector_app, ?last_connector_release;
      reflexivity
  end.

(** ** Counting calls *)

Lemma count_cons (p : event -> bool) (e : event) (t : list event) :
  count p (e :: t) = ((if p e then 1 else 0) + count p t)%nat.
Proof. unfold count. simpl. destruct (p e); reflexivity. Qed.

Lemma count_nil (p : event -> bool) : count p [] = 0%nat.
Proof. reflexivity. Qed.

Lemma count_app (p : event -> bool) (t1 t2 : list event) :
  count p (t1 ++ t2) = (count p t1 + count p t2)%nat.
Proof. unfold count. rewrite filter_app, length_app. reflexivity. Qed.

Lemma count_none (p q : event -> bool) (t : list event) :
  (forall e, q e = true -> p e = false) ->
  Forall (fun e => q e = true) t ->
  count p t = 0%nat.
Proof.
  intros Hpq Hall. unfold count.
  induction Hall as [|e t He _ IH]; [reflexivity|].
  simpl. rewrite (Hpq e He). exact IH.
Qed.

(** The calls of a connector search and of a release are not calls of the
    steps in between. *)
Ltac count_calls :=
  repeat first
    [ rewrite count_nil
    | rewrite count_cons
    | rewrite count_app
    | erewrite (count_none _ is_connector_call) by
        (first [ eassumption
               | let H := fresh in
                 intros []; simpl; intros H;
                 first [reflexivity | discriminate H] ])
    | erewrite (count_none _ is_release_call) by
        (first [ apply release_steps_calls
               | let H := fresh in
                 intros []; simpl; intros H;
                 first [reflexivity | discriminate H] ]) ];
  try reflexivity.

(** In the trace of a run. *)
Ltac in_trace :=
  solve [ repeat first [ left; reflexivity | right | apply in_or_app; right ] ].

Section Mastership.

Context {W : Type} (K : kernel W).

Lemma get_framebuffer_drops_master (dri_device connector_name : string)
  (selected_resolution : Z) (stack : locals) (s : state W) :
  wp (get_framebuffer K dri_device connector_name selected_resolution stack)
     (fun r s' => exists evs : list event,
        trace s' = trace s ++ evs /\
        (r = Ok 0 -> count is_DropMaster evs = 1%nat) /\
        (r <> Ok 0 -> count is_DropMaster evs = 0%nat)) s.
Proof.
  destruct s as [w t h].
  wp_run_all; trace_shape; cbn [fb].
  all: eexists; split; [reflexivity|].
  all: split;
    [ first [ status_nonzero | intros _; solve [count_calls] ]
    | first [ intros _; solve [count_calls]
            | status_zero; intros Hr; exfalso; apply Hr; f_equal; assumption ] ].
Qed.


(** X3. Mastership is dropped exactly once by a run that returns zero, and
    never by any other run. *)
Theorem master_dropped_on_success_only
  (dri_device connector_name : string) (selected_resolution : Z)
  (stack : locals) (s s' : state W) (r : result Z) :
  get_framebuffer K dri_device connector_name selected_resolution stack s
  = (r, s') ->
  (r = Ok 0 -> count is_DropMaster (added s s') = 1%nat) /\
  (r <> Ok 0 -> count is_DropMaster (added s s') = 0%nat).
Proof.
  intros Hrun.
  pose proof (get_framebuffer_drops_master dri_device connector_name
                selected_resolution stack s) as Hwp.
  apply wp_run with (r := r) (s' := s') in Hwp; [|exact Hrun].
  destruct Hwp as [evs [Ht Hcount]].
  rewrite (added_app s s' evs Ht). exact Hcount.
Qed.

Lemma get_framebuffer_frees_encoder (dri_device connector_name : string)
  (selected_resolution : Z) (stack : locals) (s : state W) :
  wp (get_framebuffer K dri_device connector_name selected_resolution stack)
     (fun r s' => exists evs : list event,
        trace s' = trace s ++ evs /\
        (count is_FreeEncoder evs <= 1)%nat /\
        Forall (fun e => forall enc,
                  e = EvFreeEncoder enc ->
                  exists fd id, In (EvGetEncoder fd id (Some enc)) evs) evs /\
        (r <> Fault ->
         Forall (fun e => forall fd id enc,
                   e = EvGetEncoder fd id (Some enc) ->
                   In (EvFreeEncoder enc) evs) evs)) s.
Proof.
  destruct s as [w t h].
  wp_run_all; trace_shape; cbn [fb].
  all: eexists; split; [reflexivity|].
  all: split; [count_calls; simpl; lia|].
  all: split;
    [ forall_calls idtac;
      match goal with
      | H : _ = _ |- _ => injection H; intros; subst; clear H
      end;
      do 2 eexists; in_trace |].
  all: intros Hr; try congruence.
  all: forall_calls idtac.
  all: match goal with
       | H : _ = _ |- _ => injection H; intros; subst; clear H
       end.
  all: in_trace.
Qed.

(** X4. The encoder [get_framebuffer] fetches is freed before it returns,
    whatever it returns, once; and nothing is freed as an encoder that was
    not fetched by the same run. *)
Theorem encoder_is_freed
  (dri_device connector_name : string) (selected_resolution : Z)
  (stack : locals) (s s' : state W) (r : result Z) :
  get_framebuffer K dri_device connector_name selected_resolution stack s
  = (r, s') ->
  (r <> Fault ->
   forall fd id enc,
     In (EvGetEncoder fd id (Some enc)) (added s s') ->
     In (EvFreeEncoder enc) (added s s')) /\
  (count is_FreeEncoder (added s s') <= 1)%nat /\
  (forall enc,
     In (EvFreeEncoder enc) (added s s') ->
     exists fd id, In (EvGetEncoder fd id (Some enc)) (added s s')).
Proof.
  intros Hrun.
  pose proof (get_framebuffer_frees_encoder dri_device connector_name
                selected_resolution stack s) as Hwp.
  apply wp_run with (r := r) (s' := s') in Hwp; [|exact Hrun].
  destruct Hwp as [evs [Ht [Hcount [Hfreed Hgot]]]].
  rewrite (added_app s s' evs Ht).
  rewrite Forall_forall in Hfreed.
  split; [|split].
  - intros Hr fd id enc Hin.
    specialize (Hgot Hr). rewrite Forall_forall in Hgot.
    eapply Hgot; [exact Hin|reflexivity].
  - exact Hcount.
  - intros enc Hin. eapply Hfreed; [exact Hin|reflexivity].
Qed.

End Mastership.

Lemma master_dropped_on_success_only_witness :
  count is_DropMaster (calls_on card0 "HDMI-A-1" zero_fb) = 1%nat /\
  count is_DropMaster (calls_on card_no_mmap "HDMI-A-1" zero_fb) = 0%nat.
Proof.
  split.
  - destruct (master_dropped_on_success_only (machine card0) "/dev/dri/card0"
                "HDMI-A-1" (-1) clean_stack (start zero_fb)
                (snd (run_on card0 "HDMI-A-1" zero_fb)) (Ok 0))
      as [Hok _]; [vm_compute; reflexivity|].
    apply Hok. reflexivity.
  - destruct (master_dropped_on_success_only (machine card_no_mmap)
                "/dev/dri/card0" "HDMI-A-1" (-1) clean_stack (start zero_fb)
                (snd (run_on card_no_mmap "HDMI-A-1" zero_fb)) (Ok 12))
      as [_ Hfail]; [vm_compute; reflexivity|].
    apply Hfail. discriminate.
Defined.

Lemma encoder_is_freed_witness :
  In (EvFreeEncoder card_encoder) (calls_on card_no_mmap "HDMI-A-1" zero_fb).
Proof.
  destruct (encoder_is_freed (machine card_no_mmap) "/dev/dri/card0"
              "HDMI-A-1" (-1) clean_stack (start zero_fb)
              (snd (run_on card_no_mmap "HDMI-A-1" zero_fb)) (Ok 12))
    as [Hfreed _]; [vm_compute; reflexivity|].
  apply (Hfreed ltac:(discriminate) 3 51 card_encoder).
  vm_compute. do 7 right. left. reflexivity.
Defined.

(** ** What the return value says *)

(** The answer of a step that has been tested against the one it would
    have had to be for the other branch. *)
Ltac against_test :=
  exfalso;
  repeat match goal with
    | E : negb (_ =? 0) = false |- _ =>
        apply negb_false_iff in E; apply Z.eqb_eq in E
    | E : (_ <? 0) = false |- _ => apply Z.ltb_ge in E
    | E : (_ =? _) = false |- _ => apply Z.eqb_neq in E
    end;
  first [congruence | lia].

(** The answer of the [mmap] that has failed: the pointer and the value of
    [errno]. *)
Ltac answer_of_mmap :=
  match goal with
  | E : sys_mmap _ _ _ _ _ _ _ ?w0 = (?a, ?w1), H : fst ?a = MAP_FAILED
    |- exists _ _, _ =>
      exists w0, (snd a); split; [|reflexivity];
      transitivity (fst (a, w1)); [exact (f_equal fst E)|];
      destruct a; simpl in *; f_equal; exact H
  end.

Section Status.

Context {W : Type} (K : kernel W).

Lemma get_framebuffer_status (dri_device connector_name : string)
  (selected_resolution : Z) (stack : locals) (s : state W) :
  wp (get_framebuffer K dri_device connector_name selected_resolution stack)
     (fun r s' => exists evs : list event,
        trace s' = trace s ++ evs /\
        Forall (fun e =>
          (forall path oflag ret,
             e = EvOpen path oflag ret -> ret < 0 -> r = Ok (- EINVAL)) /\
          (forall fd, e = EvGetResources fd None -> r = Ok (- EINVAL)) /\
          (forall fd arg ret out,
             e = EvCreateDumb fd arg ret out -> ret <> 0 -> r = Ok ret) /\
          (forall fd w h fmt hs ps os fl ret id,
             e = EvAddFB2 fd w h fmt hs ps os fl ret id -> ret <> 0 ->
             r = Ok ret) /\
          (forall fd id, e = EvGetEncoder fd id None -> r = Ok (- EINVAL)) /\
          (forall fd id, e = EvGetCrtc fd id None -> r = Ok (- EINVAL)) /\
          (forall fd hdl ret off,
             e = EvMapDumb fd hdl ret off -> ret <> 0 -> r = Ok ret) /\
          (forall addr len prot mflags fd off,
             e = EvMmap addr len prot mflags fd off MAP_FAILED ->
             exists (w : W) (errno : positive),
               fst (sys_mmap K addr len prot mflags fd off w)
               = (MAP_FAILED, errno) /\
               r = Ok (Z.pos errno))) evs) s.
Proof.
  destruct s as [w t h].
  wp_run_all; trace_shape; cbn [fb] in *.
  all: eexists; split; [reflexivity|].
  all: forall_calls ltac:(repeat split; intros; try discriminate).
  all: match goal with
       | H : _ = _ |- _ => injection H; intros; subst; clear H
       end.
  all: first [reflexivity | answer_of_mmap | simpl in *; against_test].
Qed.

(** X5. A step that fails decides what [get_framebuffer] returns:
    [-EINVAL] when the device cannot be opened or its resources, the encoder
    or the controller cannot be read; the status of the call itself when the
    creation of the dumb buffer, the registration or the request of the
    mapping offset fails; and when the mapping fails, the value of [errno]
    the kernel has answered that very [mmap] with. *)
Theorem failed_step_is_returned
  (dri_device connector_name : string) (selected_resolution : Z)
  (stack : locals) (s s' : state W) (r : result Z) :
  get_framebuffer K dri_device connector_name selected_resolution stack s
  = (r, s') ->
  (forall path oflag ret,
     In (EvOpen path oflag ret) (added s s') -> ret < 0 -> r = Ok (- EINVAL)) /\
  (forall fd, In (EvGetResources fd None) (added s s') -> r = Ok (- EINVAL)) /\
  (forall fd arg ret out,
     In (EvCreateDumb fd arg ret out) (added s s') -> ret <> 0 -> r = Ok ret) /\
  (forall fd w h fmt hs ps os fl ret id,
     In (EvAddFB2 fd w h fmt hs ps os fl ret id) (added s s') -> ret <> 0 ->
     r = Ok ret) /\
  (forall fd id, In (EvGetEncoder fd id None) (added s s') ->
                 r = Ok (- EINVAL)) /\
  (forall fd id, In (EvGetCrtc fd id None) (added s s') -> r = Ok (- EINVAL)) /\
  (forall fd hdl ret off,
     In (EvMapDumb fd hdl ret off) (added s s') -> ret <> 0 -> r = Ok ret) /\
  (forall addr len prot mflags fd off,
     In (EvMmap addr len prot mflags fd off MAP_FAILED) (added s s') ->
     exists (w : W) (errno : positive),
       fst (sys_mmap K addr len prot mflags fd off w) = (MAP_FAILED, errno) /\
       r = Ok (Z.pos errno)).
Proof.
  intros Hrun.
  pose proof (get_framebuffer_status dri_device connector_name
                selected_resolution stack s) as Hwp.
  apply wp_run with (r := r) (s' := s') in Hwp; [|exact Hrun].
  destruct Hwp as [evs [Ht Hall]].
  rewrite (added_app s s' evs Ht).
  rewrite Forall_forall in Hall.
  repeat split; intros;
    match goal with
    | Hin : In _ evs |- _ =>
        destruct (Hall _ Hin) as [H1 [H2 [H3 [H4 [H5 [H6 [H7 H8]]]]]]]
    end; eauto.
Qed.

Lemma get_framebuffer_errors (dri_device connector_name : string)
  (selected_resolution : Z) (stack : locals) (s : state W) :
  wp (get_framebuffer K dri_device connector_name selected_resolution stack)
     (fun r s' => exists evs : list event,
        trace s' = trace s ++ evs /\
        forall err, r = Ok err -> err <> 0 ->
          err = - EINVAL \/
          (exists fd arg out, In (EvCreateDumb fd arg err out) evs) \/
          (exists fd w h fmt hs ps os fl id,
             In (EvAddFB2 fd w h fmt hs ps os fl err id) evs) \/
          (exists fd hdl off, In (EvMapDumb fd hdl err off) evs) \/
          (exists addr len prot mflags fd off (w : W) (errno : positive),
             In (EvMmap addr len prot mflags fd off MAP_FAILED) evs /\
             fst (sys_mmap K addr len prot mflags fd off w)
             = (MAP_FAILED, errno) /\
             err = Z.pos errno)) s.
Proof.
  destruct s as [w t h].
  wp_run_all; trace_shape; cbn [fb] in *.
  all: eexists; split; [reflexivity|].
  all: intros err Herr Hnz; try discriminate Herr; injection Herr as <-.
  all: try (left; reflexivity).
  all: try against_test.
  all: cbn [fb_data set_data] in *.
  all: try match goal with
           | E : (_ =? MAP_FAILED) = true |- _ =>
               apply Z.eqb_eq in E; rewrite E
           end.
  all: first
         [ right; left; do 3 eexists; in_trace
         | right; right; left; do 9 eexists; in_trace
         | right; right; right; left; do 3 eexists; in_trace
         | right; right; right; right;
           match goal with
           | E : sys_mmap _ _ _ _ _ _ _ ?w0 = (?a, ?w1),
             H : fst ?a = MAP_FAILED |- _ =>
               do 6 eexists; exists w0, (snd a);
               split; [in_trace|]; split; [|reflexivity];
               transitivity (fst (a, w1)); [exact (f_equal fst E)|];
               destruct a; simpl in *; f_equal; exact H
           end ].
Qed.

(** X6. What [get_framebuffer] returns is zero, [-EINVAL], the nonzero
    status of the creation of the dumb buffer, of the registration or of the
    request of the mapping offset, or, when the mapping itself has failed,
    the value of [errno] the kernel has answered that [mmap] with, which is
    positive: the error of a failed [mmap] is not negated as the others
    are. *)
Theorem returned_errors
  (dri_device connector_name : string) (selected_resolution : Z)
  (stack : locals) (s s' : state W) (err : Z) :
  get_framebuffer K dri_device connector_name selected_resolution stack s
  = (Ok err, s') ->
  err <> 0 ->
  err = - EINVAL \/
  (exists fd arg out, In (EvCreateDumb fd arg err out) (added s s')) \/
  (exists fd w h fmt hs ps os fl id,
     In (EvAddFB2 fd w h fmt hs ps os fl err id) (added s s')) \/
  (exists fd hdl off, In (EvMapDumb fd hdl err off) (added s s')) \/
  (exists addr len prot mflags fd off (w : W) (errno : positive),
     In (EvMmap addr len prot mflags fd off MAP_FAILED) (added s s') /\
     fst (sys_mmap K addr len prot mflags fd off w) = (MAP_FAILED, errno) /\
     err = Z.pos errno).
Proof.
  intros Hrun Hnz.
  pose proof (get_framebuffer_errors dri_device connector_name
                selected_resolution stack s) as Hwp.
  apply wp_run with (r := Ok err) (s' := s') in Hwp; [|exact Hrun].
  destruct Hwp as [evs [Ht Hall]].
  rewrite (added_app s s' evs Ht).
  apply Hall; [reflexivity|exact Hnz].
Qed.

End Status.

Lemma failed_step_is_returned_witness :
  fst (run_on card_no_dumb "HDMI-A-1" zero_fb) = Ok (-1) /\
  fst (run_on card_no_mmap "HDMI-A-1" zero_fb) = Ok 12.
Proof.
  split.
  - destruct (failed_step_is_returned (machine card_no_dumb) "/dev/dri/card0"
                "HDMI-A-1" (-1) clean_stack (start zero_fb)
                (snd (run_on card_no_dumb "HDMI-A-1" zero_fb))
                (fst (run_on card_no_dumb "HDMI-A-1" zero_fb)))
      as [_ [_ [Hdumb _]]]; [vm_compute; reflexivity|].
    apply (Hdumb 3
             {| height := 768; width := 1024; bpp := 32; flags := 0;
                handle := 0; pitch := 0; size := 0 |}
             (-1)
             {| height := 768; width := 1024; bpp := 32; flags := 0;
                handle := 0; pitch := 0; size := 0 |});
      [|discriminate].
    vm_compute. do 5 right. left. reflexivity.
  - destruct (failed_step_is_returned (machine card_no_mmap) "/dev/dri/card0"
                "HDMI-A-1" (-1) clean_stack (start zero_fb)
                (snd (run_on card_no_mmap "HDMI-A-1" zero_fb))
                (fst (run_on card_no_mmap "HDMI-A-1" zero_fb)))
      as [_ [_ [_ [_ [_ [_ [_ Hmap]]]]]]]; [vm_compute; reflexivity|].
    destruct (Hmap 0 3145728 (Z.lor PROT_READ PROT_WRITE) MAP_SHARED 3 4096)
      as [w [errno [Hanswer Hret]]].
    + vm_compute. do 10 right. left. reflexivity.
    + injection Hanswer as <-. exact Hret.
Defined.

Lemma returned_errors_witness :
  12 = - EINVAL \/
  (exists fd arg out,
     In (EvCreateDumb fd arg 12 out)
        (calls_on card_no_mmap "HDMI-A-1" zero_fb)) \/
  (exists fd w h fmt hs ps os fl id,
     In (EvAddFB2 fd w h fmt hs ps os fl 12 id)
        (calls_on card_no_mmap "HDMI-A-1" zero_fb)) \/
  (exists fd hdl off,
     In (EvMapDumb fd hdl 12 off)
        (calls_on card_no_mmap "HDMI-A-1" zero_fb)) \/
  (exists addr len prot mflags fd off (w : unit) (errno : positive),
     In (EvMmap addr len prot mflags fd off MAP_FAILED)
        (calls_on card_no_mmap "HDMI-A-1" zero_fb) /\
     fst (sys_mmap (machine card_no_mmap) addr len prot mflags fd off w)
     = (MAP_FAILED, errno) /\
     12 = Z.pos errno).
Proof.
  apply (returned_errors (machine card_no_mmap) "/dev/dri/card0" "HDMI-A-1"
           (-1) clean_stack (start zero_fb)
           (snd (run_on card_no_mmap "HDMI-A-1" zero_fb)) 12).
  - vm_compute. reflexivity.
  - discriminate.
Defined.

(** ** Acquisition, then release *)

(** The statuses that have passed their tests are zero. *)
Ltac passed_tests :=
  repeat match goal with
    | E : negb (?x =? 0) = false |- _ =>
        apply negb_false_iff in E; apply Z.eqb_eq in E;
        try rewrite E in *
    end.

Section Handle.

Context {W : Type} (K : kernel W).

Lemma get_framebuffer_records (dri_device connector_name : string)
  (selected_resolution : Z) (stack : locals) (s : state W) :
  wp (get_framebuffer K dri_device connector_name selected_resolution stack)
     (fun r s' => exists evs : list event,
        trace s' = trace s ++ evs /\
        (r = Ok 0 ->
         exists (fd : Z) (connector : drmModeConnector) (crtc : drmModeCrtc)
                (arg : drm_mode_create_dumb) (id : Z) (buf : option Z)
                (hs ps os : array4),
           0 <= fd /\
           In (EvOpen dri_device O_RDWR fd) evs /\
           fb_fd (fb s') = fd /\
           connector_matches connector connector_name = true /\
           last_connector evs None = Some connector /\
           fb_connector (fb s') = Some connector /\
           fb_resolution (fb s') =
           Some (mode_at connector
                   (select_resolution connector selected_resolution)) /\
           In (EvCreateDumb fd arg 0 (fb_dumb_framebuffer (fb s'))) evs /\
           In (EvAddFB2 fd
                 (hdisplay (mode_at connector
                    (select_resolution connector selected_resolution)))
                 (vdisplay (mode_at connector
                    (select_resolution connector selected_resolution)))
                 DRM_FORMAT_ABGR8888 hs ps os 0 0 buf) evs /\
           fb_buffer_id (fb s') =
           match buf with Some b => b | None => fb_buffer_id (fb s) end /\
           In (EvGetCrtc fd id (Some crtc)) evs /\
           fb_crtc (fb s') = Some crtc)) s.
Proof.
  destruct s as [w t h].
  wp_run_answer; trace_shape; cbn [fb] in *.
  all: eexists; split; [reflexivity|].
  all: try status_nonzero.
  all: intros _; passed_tests.
  all: do 9 eexists.
  all: split; [apply Z.ltb_ge; eassumption|].
  all: split; [in_trace|].
  all: split; [reflexivity|].
  all: split; [eauto|].
  all: split; [last_answer|].
  all: split; [reflexivity|].
  all: split; [reflexivity|].
  all: split; [in_trace|].
  all: split; [in_trace|].
  all: split; [reflexivity|].
  all: split; [in_trace|reflexivity].
Qed.

(** X7. After a run that returns zero the handle records what the system
    answered: the descriptor [open] returned, which is not negative; the
    connector the search matched, which is the answer of the last
    [drmModeGetConnectorCurrent] of the run, and the mode selected on it;
    the dumb
    buffer as [DRM_IOCTL_MODE_CREATE_DUMB] left it; the buffer identifier
    [drmModeAddFB2] stored, or the one the caller passed in when it stored
    none; and the controller state [drmModeGetCrtc] answered. *)
Theorem success_records_answers
  (dri_device connector_name : string) (selected_resolution : Z)
  (stack : locals) (s s' : state W) :
  get_framebuffer K dri_device connector_name selected_resolution stack s
  = (Ok 0, s') ->
  exists (fd : Z) (connector : drmModeConnector) (crtc : drmModeCrtc)
         (arg : drm_mode_create_dumb) (id : Z) (buf : option Z)
         (hs ps os : array4),
    0 <= fd /\
    In (EvOpen dri_device O_RDWR fd) (added s s') /\
    fb_fd (fb s') = fd /\
    connector_matches connector connector_name = true /\
    last_connector (added s s') None = Some connector /\
    fb_connector (fb s') = Some connector /\
    fb_resolution (fb s') =
    Some (mode_at connector (select_resolution connector selected_resolution)) /\
    In (EvCreateDumb fd arg 0 (fb_dumb_framebuffer (fb s'))) (added s s') /\
    In (EvAddFB2 fd
          (hdisplay (mode_at connector
             (select_resolution connector selected_resolution)))
          (vdisplay (mode_at connector
             (select_resolution connector selected_resolution)))
          DRM_FORMAT_ABGR8888 hs ps os 0 0 buf) (added s s') /\
    fb_buffer_id (fb s') =
    match buf with Some b => b | None => fb_buffer_id (fb s) end /\
    In (EvGetCrtc fd id (Some crtc)) (added s s') /\
    fb_crtc (fb s') = Some crtc.
Proof.
  intros Hrun.
  pose proof (get_framebuffer_records dri_device connector_name
                selected_resolution stack s) as Hwp.
  apply wp_run with (r := Ok 0) (s' := s') in Hwp; [|exact Hrun].
  destruct Hwp as [evs [Ht Hok]].
  rewrite (added_app s s' evs Ht).
  apply Hok. reflexivity.
Qed.

(** X8. Releasing the handle of a run that returned zero.  When the
    descriptor [open] returned is zero the release does nothing: what was
    acquired stays acquired.  Otherwise it takes mastership, sets the
    controller that was captured to the buffer captured with it, on the
    matched connector and in the selected mode, frees the captured state,
    takes the step of the registered buffer, frees the matched connector,
    takes the step of the dumb buffer, closes the descriptor that was
    opened, and nulls the resolution pointer.  The matched connector is the
    answer of the last [drmModeGetConnectorCurrent] of the acquisition. *)
Theorem release_after_success
  (dri_device connector_name : string) (selected_resolution : Z)
  (stack : locals) (s s1 : state W) :
  get_framebuffer K dri_device connector_name selected_resolution stack s
  = (Ok 0, s1) ->
  exists (fd id : Z) (connector : drmModeConnector) (crtc : drmModeCrtc),
    In (EvOpen dri_device O_RDWR fd) (added s s1) /\
    In (EvGetCrtc fd id (Some crtc)) (added s s1) /\
    connector_matches connector connector_name = true /\
    last_connector (added s s1) None = Some connector /\
    (fd = 0 -> release_framebuffer K s1 = (Ok tt, s1)) /\
    (fd <> 0 ->
     exists (s2 : state W) (ptr : option drmModeFB),
       release_framebuffer K s1 = (Ok tt, s2) /\
       added s1 s2 =
       EvSetMaster fd
       :: EvSetCrtc fd (crtc_id crtc) (crtc_buffer_id crtc) 0 0
            (Some (connector_id connector)) 1
            (Some (mode_at connector
                     (select_resolution connector selected_resolution)))
       :: EvFreeCrtc crtc
       :: step_buffer (fb s1) ptr ++
          EvFreeConnector connector :: step_dumb (fb s1) ++ [EvClose fd] /\
       fb_resolution (fb s2) = None).
Proof.
  intros Hrun.
  pose proof (get_framebuffer_records dri_device connector_name
                selected_resolution stack s) as Hwp.
  apply wp_run with (r := Ok 0) (s' := s1) in Hwp; [|exact Hrun].
  destruct Hwp as [evs [Ht Hok]].
  rewrite (added_app s s1 evs Ht).
  destruct (Hok eq_refl)
    as [fd [connector [crtc [arg [id [buf [hs [ps [os
        [_ [Hopen [Hfd [Hm [Hlast [Hconn [Hres [_ [_ [_ [Hget Hcrtc]
        ]]]]]]]]]]]]]]]]]]].
  exists fd, id, connector, crtc.
  split; [exact Hopen|]. split; [exact Hget|]. split; [exact Hm|].
  split; [exact Hlast|].
  split.
  - intros Hz. apply release_framebuffer_zero. rewrite Hfd. exact Hz.
  - intros Hnz.
    assert (Hfd1 : fb_fd (fb s1) <> 0) by (rewrite Hfd; exact Hnz).
    destruct (release_framebuffer_run K s1 Hfd1)
      as [s2 [ptr [Hrel [Hsteps Hfb]]]].
    exists s2, ptr. split; [exact Hrel|]. split.
    + rewrite (added_app s1 s2 _ Hsteps).
      unfold release_steps, step_master, step_crtc, step_connector,
        step_close, connector_id_ptr.
      rewrite Hfd, Hcrtc, Hconn, Hres. reflexivity.
    + rewrite Hfb. unfold released.
      apply Z.eqb_neq in Hfd1. rewrite Hfd1, Hconn. reflexivity.
Qed.

End Handle.

Lemma success_records_answers_witness :
  exists (connector : drmModeConnector) (crtc : drmModeCrtc),
    connector_matches connector "HDMI-A-1" = true /\
    fb_connector (fb (snd (run_on card0 "HDMI-A-1" zero_fb))) = Some connector /\
    fb_crtc (fb (snd (run_on card0 "HDMI-A-1" zero_fb))) = Some crtc /\
    0 <= fb_fd (fb (snd (run_on card0 "HDMI-A-1" zero_fb))).
Proof.
  destruct (success_records_answers (machine card0) "/dev/dri/card0"
              "HDMI-A-1" (-1) clean_stack (start zero_fb)
              (snd (run_on card0 "HDMI-A-1" zero_fb)))
    as [fd [connector [crtc [arg [id [buf [hs [ps [os
        [Hfd0 [_ [Hfd [Hm [_ [Hconn [_ [_ [_ [_ [_ Hcrtc]]]]]]]]]]]]]]]]]]]];
    [vm_compute; reflexivity|].
  exists connector, crtc.
  split; [exact Hm|]. split; [exact Hconn|]. split; [exact Hcrtc|].
  rewrite Hfd. exact Hfd0.
Defined.

Lemma release_after_success_witness :
  exists (fd id : Z) (crtc : drmModeCrtc),
    In (EvOpen "/dev/dri/card0" O_RDWR fd) (calls_on card0 "HDMI-A-1" zero_fb) /\
    In (EvGetCrtc fd id (Some crtc)) (calls_on card0 "HDMI-A-1" zero_fb).
Proof.
  destruct (release_after_success (machine card0) "/dev/dri/card0"
              "HDMI-A-1" (-1) clean_stack (start zero_fb)
              (snd (run_on card0 "HDMI-A-1" zero_fb)))
    as [fd [id [connector [crtc [Hopen [Hget _]]]]]];
    [vm_compute; reflexivity|].
  exists fd, id, crtc. split; [exact Hopen|exact Hget].
Defined.

(** ** The requests *)

(** The identifier a conditional expression has chosen, from the test that
    chose it. *)
Ltac chosen_id :=
  first
    [ left; split;
      [ match goal with
        | E : negb (?x =? 0) = true |- ?x <> 0 =>
            apply negb_true_iff in E; apply Z.eqb_neq; exact E
        end
      | reflexivity ]
    | right; split;
      [ match goal with
        | E : negb (?x =? 0) = false |- ?x = 0 =>
            apply negb_false_iff in E; apply Z.eqb_eq; exact E
        end
      | eexists; eassumption ] ].

Section Requests.

Context {W : Type} (K : kernel W).

Lemma get_framebuffer_create_dumb (dri_device connector_name : string)
  (selected_resolution : Z) (stack : locals) (s : state W) :
  wp (get_framebuffer K dri_device connector_name selected_resolution stack)
     (fun _ s' => exists evs : list event,
        trace s' = trace s ++ evs /\
        (count is_CreateDumb evs <= 1)%nat /\
        Forall (fun e => forall fd arg ret out,
                  e = EvCreateDumb fd arg ret out ->
                  In (EvOpen dri_device O_RDWR fd) evs /\
                  (exists connector,
                     last_connector evs None = Some connector /\
                     connector_matches connector connector_name = true /\
                     0 < count_modes connector /\
                     height arg =
                     vdisplay (mode_at connector
                       (select_resolution connector selected_resolution)) /\
                     width arg =
                     hdisplay (mode_at connector
                       (select_resolution connector selected_resolution))) /\
                  bpp arg = 32 /\
                  flags arg = flags (fb_dumb_framebuffer (fb s)) /\
                  handle arg = handle (fb_dumb_framebuffer (fb s)) /\
                  pitch arg = pitch (fb_dumb_framebuffer (fb s)) /\
                  size arg = size (fb_dumb_framebuffer (fb s))) evs) s.
Proof.
  destruct s as [w t h].
  wp_run_answer; trace_shape; cbn [fb] in *.
  all: eexists; split; [reflexivity|].
  all: split; [count_calls; simpl; lia|].
  all: forall_calls idtac.
  all: match goal with
       | H : _ = _ |- _ => injection H; intros; subst; clear H
       end.
  all: split; [in_trace|].
  all: split;
    [ match goal with
      | Hlast : forall x, Some ?c = Some x -> _ |- _ => exists c
      end;
      split; [last_answer|]; split; [eauto|];
      split; [apply Z.leb_gt; eassumption|split; reflexivity] |].
  all: repeat split.
Qed.

(** X9. [get_framebuffer] asks for a dumb buffer at most once, on the
    descriptor it has opened, of the width and the height of the mode
    selected on the connector the search has matched, which is the answer
    of the last [drmModeGetConnectorCurrent] of the run and has at least
    one mode, and of 32 bits a pixel; the other fields of the request,
    [flags] among them, are what the handle of the caller held on
    entry. *)
Theorem dumb_buffer_request
  (dri_device connector_name : string) (selected_resolution : Z)
  (stack : locals) (s s' : state W) (r : result Z)
  (fd ret : Z) (arg out : drm_mode_create_dumb) :
  get_framebuffer K dri_device connector_name selected_resolution stack s
  = (r, s') ->
  In (EvCreateDumb fd arg ret out) (added s s') ->
  (count is_CreateDumb (added s s') <= 1)%nat /\
  In (EvOpen dri_device O_RDWR fd) (added s s') /\
  (exists connector,
     last_connector (added s s') None = Some connector /\
     connector_matches connector connector_name = true /\
     0 < count_modes connector /\
     height arg =
     vdisplay (mode_at connector
                 (select_resolution connector selected_resolution)) /\
     width arg =
     hdisplay (mode_at connector
                 (select_resolution connector selected_resolution))) /\
  bpp arg = 32 /\
  flags arg = flags (fb_dumb_framebuffer (fb s)) /\
  handle arg = handle (fb_dumb_framebuffer (fb s)) /\
  pitch arg = pitch (fb_dumb_framebuffer (fb s)) /\
  size arg = size (fb_dumb_framebuffer (fb s)).
Proof.
  intros Hrun.
  pose proof (get_framebuffer_create_dumb dri_device connector_name
                selected_resolution stack s) as Hwp.
  apply wp_run with (r := r) (s' := s') in Hwp; [|exact Hrun].
  destruct Hwp as [evs [Ht [Hcount Hall]]].
  rewrite (added_app s s' evs Ht).
  intros Hin. split; [exact Hcount|].
  rewrite Forall_forall in Hall.
  eapply Hall; [exact Hin|reflexivity].
Qed.

Lemma get_framebuffer_topology (dri_device connector_name : string)
  (selected_resolution : Z) (stack : locals) (s : state W) :
  wp (get_framebuffer K dri_device connector_name selected_resolution stack)
     (fun _ s' => exists evs : list event,
        trace s' = trace s ++ evs /\
        Forall (fun e =>
          (forall fd id ret,
             e = EvGetEncoder fd id ret ->
             exists connector,
               last_connector evs None = Some connector /\
               connector_matches connector connector_name = true /\
               (encoder_id connector <> 0 /\ id = encoder_id connector \/
                encoder_id connector = 0 /\
                exists rest, encoders connector = id :: rest)) /\
          (forall fd id ret,
             e = EvGetCrtc fd id ret ->
             exists fd' id' enc fd'' res,
               In (EvGetEncoder fd' id' (Some enc)) evs /\
               In (EvGetResources fd'' (Some res)) evs /\
               (enc_crtc_id enc <> 0 /\ id = enc_crtc_id enc \/
                enc_crtc_id enc = 0 /\
                exists rest, crtcs res = id :: rest))) evs) s.
Proof.
  destruct s as [w t h].
  wp_run_answer; trace_shape; cbn [fb] in *.
  all: eexists; split; [reflexivity|].
  all: forall_calls ltac:(split; intros; try discriminate).
  all: match goal with
       | H : _ = _ |- _ => injection H; intros; subst; clear H
       end.
  all: first
         [ match goal with
           | Hlast : forall x, Some ?c = Some x -> _ |- _ => exists c
           end;
           split; [last_answer|]; split; [eauto|]; chosen_id
         | do 5 eexists; split; [in_trace|]; split; [in_trace|]; chosen_id ].
Qed.

(** X10. The encoder [get_framebuffer] asks for is the one the matched
    connector, the answer of the last [drmModeGetConnectorCurrent] of the
    run, is attached to, or, when it is attached to none, the first one
    the connector lists; the controller it asks for is the one that
    encoder is attached to, or, when it is attached to none, the first one
    the device lists. *)
Theorem encoder_and_crtc_choice
  (dri_device connector_name : string) (selected_resolution : Z)
  (stack : locals) (s s' : state W) (r : result Z) :
  get_framebuffer K dri_device connector_name selected_resolution stack s
  = (r, s') ->
  (forall fd id ret,
     In (EvGetEncoder fd id ret) (added s s') ->
     exists connector,
       last_connector (added s s') None = Some connector /\
       connector_matches connector connector_name = true /\
       (encoder_id connector <> 0 /\ id = encoder_id connector \/
        encoder_id connector = 0 /\
        exists rest, encoders connector = id :: rest)) /\
  (forall fd id ret,
     In (EvGetCrtc fd id ret) (added s s') ->
     exists fd' id' enc fd'' res,
       In (EvGetEncoder fd' id' (Some enc)) (added s s') /\
       In (EvGetResources fd'' (Some res)) (added s s') /\
       (enc_crtc_id enc <> 0 /\ id = enc_crtc_id enc \/
        enc_crtc_id enc = 0 /\
        exists rest, crtcs res = id :: rest)).
Proof.
  intros Hrun.
  pose proof (get_framebuffer_topology dri_device connector_name
                selected_resolution stack s) as Hwp.
  apply wp_run with (r := r) (s' := s') in Hwp; [|exact Hrun].
  destruct Hwp as [evs [Ht Hall]].
  rewrite (added_app s s' evs Ht).
  rewrite Forall_forall in Hall.
  split; intros fd id ret Hin; destruct (Hall _ Hin) as [Henc Hcrtc].
  - eapply Henc. reflexivity.
  - eapply Hcrtc. reflexivity.
Qed.

End Requests.

Lemma dumb_buffer_request_witness :
  (count is_CreateDumb (calls_on card0 "HDMI-A-1" zero_fb) <= 1)%nat /\
  In (EvOpen "/dev/dri/card0" O_RDWR 3) (calls_on card0 "HDMI-A-1" zero_fb).
Proof.
  destruct (dumb_buffer_request (machine card0) "/dev/dri/card0" "HDMI-A-1"
              (-1) clean_stack (start zero_fb)
              (snd (run_on card0 "HDMI-A-1" zero_fb)) (Ok 0) 3 0
              {| height := 768; width := 1024; bpp := 32; flags := 0;
                 handle := 0; pitch := 0; size := 0 |}
              {| height := 768; width := 1024; bpp := 32; flags := 0;
                 handle := 1; pitch := 4096; size := 3145728 |})
    as [Hcount [Hopen _]].
  - vm_compute. reflexivity.
  - vm_compute. do 5 right. left. reflexivity.
  - split; [exact Hcount|exact Hopen].
Defined.

Lemma encoder_and_crtc_choice_witness :
  exists connector,
    last_connector (calls_on card0 "HDMI-A-1" zero_fb) None = Some connector /\
    connector_matches connector "HDMI-A-1" = true /\
    (encoder_id connector <> 0 /\ 51 = encoder_id connector \/
     encoder_id connector = 0 /\
     exists rest, encoders connector = 51 :: rest).
Proof.
  destruct (encoder_and_crtc_choice (machine card0) "/dev/dri/card0"
              "HDMI-A-1" (-1) clean_stack (start zero_fb)
              (snd (run_on card0 "HDMI-A-1" zero_fb)) (Ok 0))
    as [Henc _]; [vm_compute; reflexivity|].
  apply (Henc 3 51 (Some card_encoder)).
  vm_compute. do 7 right. left. reflexivity.
Defined.

(** ** Early returns and faults *)

(** Of the calls of a search, the release calls are the frees of the
    connectors that did not match. *)
Lemma search_frees_mismatches (connector_name : string) (evs : list event) :
  Forall (fun e => is_connector_call e = true) evs ->
  (forall x, In (EvFreeConnector x) evs ->
             connector_matches x connector_name = false) ->
  Forall (fun e => is_release_call e = true ->
                   exists x, e = EvFreeConnector x /\
                             connector_matches x connector_name = false) evs.
Proof.
  intros Hcalls Hfreed. apply Forall_forall. intros e Hin Hrel.
  rewrite Forall_forall in Hcalls. pose proof (Hcalls e Hin) as Hc.
  destruct e; try discriminate Hc; try discriminate Hrel.
  eexists. split; [reflexivity|]. apply Hfreed. exact Hin.
Qed.

(** Every release call of a trace is the free of a connector that did not
    match: the calls one by one, the search by what it has freed. *)
Ltac only_mismatches_freed :=
  repeat lazymatch goal with
    | |- Forall _ [] => apply Forall_nil
    | |- Forall _ (_ :: _) =>
        apply Forall_cons;
        [let H := fresh in intros H; discriminate H|]
    | |- Forall _ (_ ++ _) =>
        apply Forall_app; split;
        [apply search_frees_mismatches; assumption|]
    | |- Forall _ _ => apply search_frees_mismatches; assumption
    end.

Section Edges.

Context {W : Type} (K : kernel W).

Lemma get_framebuffer_early (dri_device connector_name : string)
  (selected_resolution : Z) (stack : locals) (s : state W) :
  wp (get_framebuffer K dri_device connector_name selected_resolution stack)
     (fun r s' => exists evs : list event,
        trace s' = trace s ++ evs /\
        ((exists fd arg ret out, In (EvCreateDumb fd arg ret out) evs) \/
         r = Ok (- EINVAL) /\ fb s' = fb s /\
         Forall (fun e => is_release_call e = true ->
                          exists x, e = EvFreeConnector x /\
                                    connector_matches x connector_name
                                    = false) evs)) s.
Proof.
  destruct s as [w t h].
  wp_run_answer; trace_shape; cbn [fb] in *.
  all: eexists; split; [reflexivity|].
  all: first
         [ left; do 4 eexists; in_trace
         | right; split; [reflexivity|]; split; [reflexivity|] ].
  all: only_mismatches_freed.
Qed.

(** X11. A run of [get_framebuffer] that makes no request for a dumb buffer
    returns [-EINVAL] and leaves the handle exactly as the caller passed it;
    the only things it has released are connectors the search has fetched
    and that did not match the name: a connector that matches is not
    freed. *)
Theorem early_return_keeps_handle
  (dri_device connector_name : string) (selected_resolution : Z)
  (stack : locals) (s s' : state W) (r : result Z) :
  get_framebuffer K dri_device connector_name selected_resolution stack s
  = (r, s') ->
  count is_CreateDumb (added s s') = 0%nat ->
  r = Ok (- EINVAL) /\ fb s' = fb s /\
  Forall (fun e => is_release_call e = true ->
                   exists x, e = EvFreeConnector x /\
                             connector_matches x connector_name = false)
    (added s s').
Proof.
  intros Hrun.
  pose proof (get_framebuffer_early dri_device connector_name
                selected_resolution stack s) as Hwp.
  apply wp_run with (r := r) (s' := s') in Hwp; [|exact Hrun].
  destruct Hwp as [evs [Ht [[fd [arg [ret [out Hin]]]]|Hearly]]].
  - rewrite (added_app s s' evs Ht). intros Hcount. exfalso.
    unfold count in Hcount.
    assert (Hf : In (EvCreateDumb fd arg ret out) (filter is_CreateDumb evs)).
    { apply filter_In. split; [exact Hin|reflexivity]. }
    destruct (filter is_CreateDumb evs); [contradiction|discriminate].
  - rewrite (added_app s s' evs Ht). intros _. exact Hearly.
Qed.

Lemma get_framebuffer_faults (dri_device connector_name : string)
  (selected_resolution : Z) (stack : locals) (s : state W) :
  wp (get_framebuffer K dri_device connector_name selected_resolution stack)
     (fun r s' => exists evs : list event,
        trace s' = trace s ++ evs /\
        (r = Fault ->
         (exists pre fd w h fmt hs ps os fl buf connector,
            evs = pre ++ [EvAddFB2 fd w h fmt hs ps os fl 0 buf] /\
            last_connector evs None = Some connector /\
            connector_matches connector connector_name = true /\
            encoder_id connector = 0 /\ encoders connector = []) \/
         (exists pre fd id enc fd' res,
            evs = pre ++ [EvGetEncoder fd id (Some enc)] /\
            In (EvGetResources fd' (Some res)) evs /\
            enc_crtc_id enc = 0 /\ crtcs res = []))) s.
Proof.
  destruct s as [w t h].
  wp_run_answer; trace_shape; cbn [fb] in *.
  all: eexists; split; [reflexivity|].
  all: intros Hr; try discriminate Hr.
  all: passed_tests.
  all: first
         [ left; do 10 eexists;
           match goal with
           | Hlast : forall x, Some ?c = Some x -> _ |- _ => exists c
           end;
           split; [trace_ends|]; split; [last_answer|];
           split; [eauto|]; split; [assumption|eassumption]
         | right; do 6 eexists; split; [trace_ends|]; split; [in_trace|];
           split; [assumption|eassumption] ].
Qed.

(** X12. [get_framebuffer] reads past the end of an array at two places
    only.  Either the run has stopped right after a [drmModeAddFB2] that
    succeeded, and the connector the search has matched, the answer of the
    last [drmModeGetConnectorCurrent] of the run, is attached to no encoder
    and lists none; or it has stopped right after a [drmModeGetEncoder]
    that answered an encoder attached to no controller, and the device
    lists no controller. *)
Theorem faults_only_without_encoder_or_crtc
  (dri_device connector_name : string) (selected_resolution : Z)
  (stack : locals) (s s' : state W) :
  get_framebuffer K dri_device connector_name selected_resolution stack s
  = (Fault, s') ->
  (exists pre fd w h fmt hs ps os fl buf connector,
     added s s' = pre ++ [EvAddFB2 fd w h fmt hs ps os fl 0 buf] /\
     last_connector (added s s') None = Some connector /\
     connector_matches connector connector_name = true /\
     encoder_id connector = 0 /\ encoders connector = []) \/
  (exists pre fd id enc fd' res,
     added s s' = pre ++ [EvGetEncoder fd id (Some enc)] /\
     In (EvGetResources fd' (Some res)) (added s s') /\
     enc_crtc_id enc = 0 /\ crtcs res = []).
Proof.
  intros Hrun.
  pose proof (get_framebuffer_faults dri_device connector_name
                selected_resolution stack s) as Hwp.
  apply wp_run with (r := Fault) (s' := s') in Hwp; [|exact Hrun].
  destruct Hwp as [evs [Ht Hfault]].
  rewrite (added_app s s' evs Ht).
  apply Hfault. reflexivity.
Qed.

End Edges.

Lemma early_return_keeps_handle_witness :
  fst (run_on card_no_resources "HDMI-A-1" stale_fb) = Ok (- EINVAL) /\
  fb (snd (run_on card_no_resources "HDMI-A-1" stale_fb)) = stale_fb /\
  fst (run_on card0 "VGA-1" zero_fb) = Ok (- EINVAL) /\
  ~ In (EvFreeConnector vga) (calls_on card0 "VGA-1" zero_fb).
Proof.
  destruct (early_return_keeps_handle (machine card_no_resources)
              "/dev/dri/card0" "HDMI-A-1" (-1) clean_stack (start stale_fb)
              (snd (run_on card_no_resources "HDMI-A-1" stale_fb))
              (fst (run_on card_no_resources "HDMI-A-1" stale_fb)))
    as [Hret [Hfb _]].
  { vm_compute. reflexivity. }
  { vm_compute. reflexivity. }
  destruct (early_return_keeps_handle (machine card0)
              "/dev/dri/card0" "VGA-1" (-1) clean_stack (start zero_fb)
              (snd (run_on card0 "VGA-1" zero_fb))
              (fst (run_on card0 "VGA-1" zero_fb)))
    as [Hvga [_ Hfreed]].
  { vm_compute. reflexivity. }
  { vm_compute. reflexivity. }
  split; [exact Hret|]. split; [exact Hfb|]. split; [exact Hvga|].
  intros Hin. rewrite Forall_forall in Hfreed.
  destruct (Hfreed _ Hin eq_refl) as [x [Hx Hmiss]].
  injection Hx as <-. discriminate Hmiss.
Defined.

Lemma faults_only_without_encoder_or_crtc_witness :
  (exists pre fd w h fmt hs ps os fl buf connector,
     calls_on card_bare "HDMI-A-1" zero_fb
     = pre ++ [EvAddFB2 fd w h fmt hs ps os fl 0 buf] /\
     last_connector (calls_on card_bare "HDMI-A-1" zero_fb) None
     = Some connector /\
     connector_matches connector "HDMI-A-1" = true /\
     encoder_id connector = 0 /\ encoders connector = []) \/
  (exists pre fd id enc fd' res,
     calls_on card_bare "HDMI-A-1" zero_fb
     = pre ++ [EvGetEncoder fd id (Some enc)] /\
     In (EvGetResources fd' (Some res))
        (calls_on card_bare "HDMI-A-1" zero_fb) /\
     enc_crtc_id enc = 0 /\ crtcs res = []).
Proof.
  apply (faults_only_without_encoder_or_crtc (machine card_bare)
           "/dev/dri/card0" "HDMI-A-1" (-1) clean_stack (start zero_fb)
           (snd (run_on card_bare "HDMI-A-1" zero_fb))).
  vm_compute. reflexivity.
Defined.

(** ** Connector names *)

(** *** The decimal digits of a 32-bit number *)

Lemma of_uint_acc_lower (d : Decimal.uint) :
  forall acc : positive,
    (N.pos acc * 10 ^ N.of_nat (Decimal.nb_digits d)
     <= N.pos (Pos.of_uint_acc d acc))%N.
Proof.
  induction d; intros acc; cbn [Decimal.nb_digits Pos.of_uint_acc];
    try (rewrite Nnat.Nat2N.inj_succ, N.pow_succ_r';
         eapply N.le_trans; [|apply IHd];
         generalize (10 ^ N.of_nat (Decimal.nb_digits d))%N; intros X;
         nia).
  simpl. lia.
Qed.

Lemma normal_uint_lower (d : Decimal.uint) :
  Decimal.unorm d = d -> d <> Decimal.zero ->
  (10 ^ N.of_nat (Decimal.nb_digits d) <= 10 * Pos.of_uint d)%N.
Proof.
  intros Hnorm Hnz.
  destruct d; cbn [Decimal.nb_digits Pos.of_uint];
    try (rewrite Nnat.Nat2N.inj_succ, N.pow_succ_r';
         apply N.mul_le_mono_l;
         eapply N.le_trans; [|apply of_uint_acc_lower];
         generalize (10 ^ N.of_nat (Decimal.nb_digits d))%N; intros X; nia).
  - discriminate Hnorm.
  - exfalso. rewrite DecimalFacts.unorm_D0 in Hnorm.
    destruct (Decimal.uint_eq_dec (Decimal.nzhead d) Decimal.Nil) as [E|E].
    + apply DecimalFacts.unorm_0 in E. rewrite E in Hnorm.
      injection Hnorm as <-. apply Hnz. reflexivity.
    + rewrite (DecimalFacts.unorm_nzhead d E) in Hnorm.
      exact (DecimalFacts.nzhead_nonzero d d Hnorm).
Qed.

Lemma digits_of_uint32 (n : N) :
  (n < 2 ^ 32)%N -> (Decimal.nb_digits (N.to_uint n) <= 10)%nat.
Proof.
  intros Hn. destruct n as [|p]; [simpl; lia|].
  assert (Hnorm : Decimal.unorm (N.to_uint (N.pos p)) = N.to_uint (N.pos p)).
  { rewrite <- (DecimalN.Unsigned.of_to (N.pos p)) at 2.
    rewrite DecimalN.Unsigned.to_of. reflexivity. }
  assert (Hnz : N.to_uint (N.pos p) <> Decimal.zero).
  { apply DecimalPos.Unsigned.to_uint_nonzero. }
  pose proof (normal_uint_lower _ Hnorm Hnz) as Hlow.
  change (Pos.of_uint (N.to_uint (N.pos p))) with (N.of_uint (N.to_uint (N.pos p)))
    in Hlow.
  rewrite DecimalN.Unsigned.of_to in Hlow.
  destruct (Nat.le_gt_cases (Decimal.nb_digits (N.to_uint (N.pos p))) 10)
    as [Hle|Hgt]; [exact Hle|exfalso].
  assert (Hpow : (10 ^ 11 <= 10 ^ N.of_nat (Decimal.nb_digits (N.to_uint (N.pos p))))%N).
  { apply N.pow_le_mono_r; lia. }
  assert (H32 : (2 ^ 32 = 4294967296)%N) by reflexivity.
  assert (H11 : (10 ^ 11 = 100000000000)%N) by reflexivity.
  lia.
Qed.

Lemma string_of_uint_length (d : Decimal.uint) :
  String.length (NilEmpty.string_of_uint d) = Decimal.nb_digits d.
Proof. induction d; simpl; congruence. Qed.

Lemma decimal_length (u : Z) :
  0 <= u < 2 ^ 32 ->
  (String.length (NilZero.string_of_uint (N.to_uint (Z.to_N u))) <= 10)%nat.
Proof.
  intros Hu.
  assert (Hn : (Z.to_N u < 2 ^ 32)%N).
  { assert (H32 : (2 ^ 32 = 4294967296)%N) by reflexivity.
    assert (H32' : 2 ^ 32 = 4294967296) by reflexivity. lia. }
  pose proof (digits_of_uint32 _ Hn) as Hd.
  unfold NilZero.string_of_uint.
  destruct (N.to_uint (Z.to_N u)) eqn:E;
    try (rewrite string_of_uint_length; exact Hd).
  simpl. lia.
Qed.

(** *** Names that fit the buffer *)

Lemma append_length (s1 s2 : string) :
  String.length (s1 ++ s2) = (String.length s1 + String.length s2)%nat.
Proof. induction s1; simpl; congruence. Qed.

Lemma take_string_short (n : nat) :
  forall s : string, (String.length s <= n)%nat -> take_string n s = s.
Proof.
  induction n as [|n IH]; intros [|c s] Hlen; simpl in *;
    try reflexivity; try lia.
  rewrite IH by lia. reflexivity.
Qed.

(** A comparison over more characters than the first string has is a
    comparison of the whole strings. *)
Lemma strncmp_eq_whole (n : nat) :
  forall s1 s2 : string,
    (String.length s1 < n)%nat ->
    (strncmp_eq s1 s2 n = true <-> s1 = s2).
Proof.
  induction n as [|n IH]; intros s1 s2 Hlen; [lia|].
  destruct s1 as [|c1 r1], s2 as [|c2 r2]; simpl in *;
    try (split; [discriminate|discriminate]).
  - split; reflexivity.
  - destruct (Ascii.eqb_spec c1 c2) as [->|Hne].
    + rewrite IH by lia. split; [intros ->; reflexivity|].
      intros H. injection H as ->. reflexivity.
    + split; [discriminate|]. intros H. injection H as H _. contradiction.
Qed.

Lemma connector_type_name_length (type : Z) :
  (String.length (connector_type_name type) <= 9)%nat.
Proof.
  unfold connector_type_name.
  destruct (Z.ltb_spec type (ARRAY_SIZE connector_type_names)) as [Hlt|];
    [destruct (Z.geb_spec type 0) as [Hge|]|]; simpl; try lia.
  rewrite connector_type_names_size in Hlt.
  assert (Hn : (Z.to_nat type < 18)%nat) by lia.
  revert Hn. generalize (Z.to_nat type). intros n Hn.
  do 18 (destruct n as [|n]; [simpl; lia|]).
  lia.
Qed.

Lemma full_name_length (connector : drmModeConnector) :
  0 <= connector_type_id connector < 2 ^ 32 ->
  (String.length (full_name connector) <= 20)%nat.
Proof.
  intros Hid. unfold full_name. rewrite !append_length.
  pose proof (connector_type_name_length (connector_type connector)).
  pose proof (decimal_length _ Hid).
  simpl. lia.
Qed.

Lemma full_name_fits (connector : drmModeConnector) :
  0 <= connector_type_id connector < 2 ^ 32 ->
  (String.length (full_name connector) < 32)%nat.
Proof. intros Hid. pose proof (full_name_length connector Hid). lia. Qed.

(** The buffer of 32 characters holds the whole name. *)
Lemma connector_matches_whole (connector : drmModeConnector)
  (connector_name : string) :
  0 <= connector_type_id connector < 2 ^ 32 ->
  connector_matches connector connector_name
  = strncmp_eq (full_name connector) connector_name 32.
Proof.
  intros Hid.
  pose proof (full_name_length connector Hid) as Hlen.
  unfold connector_matches, snprintf_name.
  change (connector_type_name (connector_type connector) ++ "-" ++
          NilZero.string_of_uint
            (N.to_uint (Z.to_N (connector_type_id connector))))%string
    with (full_name connector).
  rewrite take_string_short by (simpl; lia).
  reflexivity.
Qed.

(** X13. For a connector whose instance index is a 32-bit number the name
    is never cut by [snprintf], and the length-bounded comparison is an
    equality of strings: the connector matches exactly the name made of its
    type name, a hyphen and its index in decimal. *)
Theorem connector_matches_exactly (connector : drmModeConnector)
  (connector_name : string) :
  0 <= connector_type_id connector < 2 ^ 32 ->
  (connector_matches connector connector_name = true <->
   connector_name = full_name connector).
Proof.
  intros Hid.
  rewrite (connector_matches_whole connector connector_name Hid).
  rewrite strncmp_eq_whole by (apply full_name_fits; exact Hid).
  split; intros H; symmetry; exact H.
Qed.

Lemma connector_matches_exactly_witness :
  connector_matches hdmi "HDMI-A-1" = true /\
  connector_matches hdmi "HDMI-A-10" = false.
Proof.
  assert (Hid : 0 <= connector_type_id hdmi < 2 ^ 32) by (simpl; lia).
  split.
  - apply (connector_matches_exactly hdmi "HDMI-A-1" Hid). reflexivity.
  - destruct (connector_matches hdmi "HDMI-A-10") eqn:E; [|reflexivity].
    apply (connector_matches_exactly hdmi "HDMI-A-10" Hid) in E.
    discriminate E.
Defined.

(** *** Names that tell connectors apart *)

Lemma digits_have_no_hyphen (d : Decimal.uint) :
  forall a b : string,
    NilEmpty.string_of_uint d <> (a ++ String "-" b)%string.
Proof.
  induction d; intros [|c a] b H; simpl in H;
    try discriminate H;
    injection H as _ H; exact (IHd _ _ H).
Qed.

Lemma number_has_no_hyphen (d : Decimal.uint) (a b : string) :
  NilZero.string_of_uint d <> (a ++ String "-" b)%string.
Proof.
  destruct d; try apply digits_have_no_hyphen.
  destruct a as [|c [|c' a]]; simpl; discriminate.
Qed.

(** Two strings that end in a hyphen and a part without hyphen are cut at
    the same place. *)
Lemma cut_at_last_hyphen :
  forall s1 s2 d1 d2 : string,
    (forall a b, d1 <> (a ++ String "-" b)%string) ->
    (forall a b, d2 <> (a ++ String "-" b)%string) ->
    (s1 ++ String "-" d1 = s2 ++ String "-" d2)%string ->
    s1 = s2 /\ d1 = d2.
Proof.
  induction s1 as [|c1 s1 IH]; intros [|c2 s2] d1 d2 H1 H2 H; simpl in H.
  - injection H as ->. split; reflexivity.
  - injection H as _ H. exfalso. exact (H1 _ _ H).
  - injection H as _ H. exfalso. symmetry in H. exact (H2 _ _ H).
  - injection H as -> H.
    destruct (IH s2 d1 d2 H1 H2 H) as [-> ->]. split; reflexivity.
Qed.

Lemma decimal_injective (u1 u2 : Z) :
  0 <= u1 -> 0 <= u2 ->
  NilZero.string_of_uint (N.to_uint (Z.to_N u1))
  = NilZero.string_of_uint (N.to_uint (Z.to_N u2)) ->
  u1 = u2.
Proof.
  intros H1 H2 H.
  assert (Hd : N.to_uint (Z.to_N u1) = N.to_uint (Z.to_N u2)).
  { apply (f_equal NilZero.uint_of_string) in H.
    rewrite !NilZero.usu in H.
    - injection H as H. exact H.
    - destruct (Z.to_N u2); [discriminate|].
      apply DecimalPos.Unsigned.to_uint_nonnil.
    - destruct (Z.to_N u1); [discriminate|].
      apply DecimalPos.Unsigned.to_uint_nonnil. }
  apply DecimalN.Unsigned.to_uint_inj in Hd. lia.
Qed.

Lemma connector_type_name_injective (t1 t2 : Z) :
  0 <= t1 < ARRAY_SIZE connector_type_names ->
  0 <= t2 < ARRAY_SIZE connector_type_names ->
  connector_type_name t1 = connector_type_name t2 -> t1 = t2.
Proof.
  rewrite connector_type_names_size. intros H1 H2.
  rewrite (connector_type_name_in_range t1)
    by (rewrite connector_type_names_size; exact H1).
  rewrite (connector_type_name_in_range t2)
    by (rewrite connector_type_names_size; exact H2).
  intros H.
  assert (Hn : Z.to_nat t1 = Z.to_nat t2); [|lia].
  assert (Hn1 : (Z.to_nat t1 < 18)%nat) by lia.
  assert (Hn2 : (Z.to_nat t2 < 18)%nat) by lia.
  revert H. generalize (Z.to_nat t1) (Z.to_nat t2) Hn1 Hn2.
  intros n1 n2 Hlt1 Hlt2.
  do 18 (destruct n1 as [|n1]; [
    do 18 (destruct n2 as [|n2];
           [simpl; intros H; first [reflexivity | discriminate H]|]); lia|]).
  lia.
Qed.

(** X14. A name tells connectors apart: two connectors with 32-bit instance
    indices that match the same name have the same index and the same type
    name, and the same type when both types are in the table.  (All the
    types outside the table share the name "INVALID".) *)
Theorem matching_connectors_agree (c1 c2 : drmModeConnector)
  (connector_name : string) :
  0 <= connector_type_id c1 < 2 ^ 32 ->
  0 <= connector_type_id c2 < 2 ^ 32 ->
  connector_matches c1 connector_name = true ->
  connector_matches c2 connector_name = true ->
  connector_type_id c1 = connector_type_id c2 /\
  connector_type_name (connector_type c1)
  = connector_type_name (connector_type c2) /\
  (0 <= connector_type c1 < ARRAY_SIZE connector_type_names ->
   0 <= connector_type c2 < ARRAY_SIZE connector_type_names ->
   connector_type c1 = connector_type c2).
Proof.
  intros Hid1 Hid2 Hm1 Hm2.
  rewrite (connector_matches_whole c1 _ Hid1) in Hm1.
  rewrite (connector_matches_whole c2 _ Hid2) in Hm2.
  apply strncmp_eq_whole in Hm1; [|apply full_name_fits; exact Hid1].
  apply strncmp_eq_whole in Hm2; [|apply full_name_fits; exact Hid2].
  rewrite <- Hm2 in Hm1. unfold full_name in Hm1.
  rename Hm1 into Hsame. clear Hm2.
  apply cut_at_last_hyphen in Hsame;
    try (intros a b; apply number_has_no_hyphen).
  destruct Hsame as [Hname Hnum].
  apply decimal_injective in Hnum; try lia.
  split; [exact Hnum|]. split; [exact Hname|].
  intros Ht1 Ht2. apply connector_type_name_injective; assumption.
Qed.

Lemma matching_connectors_agree_witness :
  connector_type_id hdmi = connector_type_id hdmi_bare /\
  connector_type_name (connector_type hdmi)
  = connector_type_name (connector_type hdmi_bare).
Proof.
  assert (Hid : 0 <= connector_type_id hdmi < 2 ^ 32) by (simpl; lia).
  assert (Hid' : 0 <= connector_type_id hdmi_bare < 2 ^ 32) by (simpl; lia).
  destruct (matching_connectors_agree hdmi hdmi_bare "HDMI-A-1" Hid Hid')
    as [Hindex [Hname _]]; [reflexivity|reflexivity|].
  split; [exact Hindex|exact Hname].
Defined.

(** *** The names of the table *)

Lemma connector_type_name_out_of_range (type : Z) :
  ~ 0 <= type < ARRAY_SIZE connector_type_names ->
  connector_type_name type = "INVALID"%string.
Proof.
  intros Hout. unfold connector_type_name.
  destruct (Z.ltb_spec type (ARRAY_SIZE connector_type_names));
    [|reflexivity].
  destruct (Z.geb_spec type 0); [lia|reflexivity].
Qed.

Lemma connector_type_name_valid (type : Z) :
  0 <= type < ARRAY_SIZE connector_type_names ->
  connector_type_name type <> "INVALID"%string.
Proof.
  intros Hin. rewrite (connector_type_name_in_range type Hin).
  rewrite connector_type_names_size in Hin.
  assert (Hn : (Z.to_nat type < 18)%nat) by lia.
  revert Hn. generalize (Z.to_nat type). intros n Hn.
  do 18 (destruct n as [|n]; [simpl; discriminate|]).
  lia.
Qed.

(** X15. The name tells the type.  No two entries of the table have the
    same name and none is named "INVALID": a type of the table has a name
    no other type has, of the table or not, and "INVALID" is the name of
    the types that are not in the table, and of no other. *)
Theorem connector_type_name_tells_the_type (t1 t2 : Z) :
  0 <= t1 < ARRAY_SIZE connector_type_names ->
  (connector_type_name t1 = connector_type_name t2 -> t1 = t2) /\
  (connector_type_name t2 = "INVALID"%string <->
   ~ 0 <= t2 < ARRAY_SIZE connector_type_names).
Proof.
  intros H1.
  destruct (Z_le_dec 0 t2) as [Hlo|Hlo];
    [destruct (Z_lt_dec t2 (ARRAY_SIZE connector_type_names)) as [Hhi|Hhi]|].
  - split.
    + apply connector_type_name_injective; [exact H1|split; assumption].
    + split; [intros Hname Hin|intros Hout; exfalso; apply Hout;
                                split; assumption].
      exact (connector_type_name_valid t2 Hin Hname).
  - assert (Hout : ~ 0 <= t2 < ARRAY_SIZE connector_type_names) by lia.
    split.
    + rewrite (connector_type_name_out_of_range t2 Hout). intros Hname.
      exfalso. exact (connector_type_name_valid t1 H1 Hname).
    + split; [intros _; exact Hout|intros _].
      exact (connector_type_name_out_of_range t2 Hout).
  - assert (Hout : ~ 0 <= t2 < ARRAY_SIZE connector_type_names) by lia.
    split.
    + rewrite (connector_type_name_out_of_range t2 Hout). intros Hname.
      exfalso. exact (connector_type_name_valid t1 H1 Hname).
    + split; [intros _; exact Hout|intros _].
      exact (connector_type_name_out_of_range t2 Hout).
Qed.

Lemma connector_type_name_tells_the_type_witness :
  (connector_type_name DRM_MODE_CONNECTOR_HDMIA = connector_type_name 11 ->
   DRM_MODE_CONNECTOR_HDMIA = 11) /\
  connector_type_name 18 = "INVALID"%string.
Proof.
  assert (H1 : 0 <= DRM_MODE_CONNECTOR_HDMIA
               < ARRAY_SIZE connector_type_names)
    by (vm_compute; split; [discriminate|reflexivity]).
  split.
  - apply (connector_type_name_tells_the_type DRM_MODE_CONNECTOR_HDMIA 11 H1).
  - apply (connector_type_name_tells_the_type DRM_MODE_CONNECTOR_HDMIA 18 H1).
    vm_compute. intros [_ H]. discriminate H.
Defined.

(** ** The order of a successful acquisition *)

Section Order.

Context {W : Type} (K : kernel W).

Lemma get_framebuffer_sequence (dri_device connector_name : string)
  (selected_resolution : Z) (stack : locals) (s : state W) :
  wp (get_framebuffer K dri_device connector_name selected_resolution stack)
     (fun r s' => exists evs : list event,
        trace s' = trace s ++ evs /\
        (r = Ok 0 ->
         exists (fd : Z) (res : drmModeRes) (search : list event)
                (arg out : drm_mode_create_dumb) (w h : Z) (hs ps os : array4)
                (buf : option Z) (ide idc : Z) (enc : drmModeEncoder)
                (crtc : drmModeCrtc) (hdl off len ptr : Z),
           evs =
           EvOpen dri_device O_RDWR fd :: EvGetResources fd (Some res)
           :: search ++
              [EvCreateDumb fd arg 0 out;
               EvAddFB2 fd w h DRM_FORMAT_ABGR8888 hs ps os 0 0 buf;
               EvGetEncoder fd ide (Some enc);
               EvGetCrtc fd idc (Some crtc);
               EvMapDumb fd hdl 0 off;
               EvMmap 0 len (Z.lor PROT_READ PROT_WRITE) MAP_SHARED fd off ptr;
               EvDropMaster fd;
               EvFreeEncoder enc] /\
           Forall (fun e => is_connector_call e = true) search /\
           0 <= fd /\ hdl = handle out /\ len = size out /\
           ptr <> MAP_FAILED)) s.
Proof.
  destruct s as [w t h].
  wp_run_all; trace_shape; cbn [fb] in *.
  all: eexists; split; [reflexivity|].
  all: try status_nonzero.
  all: intros _; passed_tests.
  all: do 19 eexists.
  all: split; [reflexivity|].
  all: split; [assumption|].
  all: split; [apply Z.ltb_ge; assumption|].
  all: split; [reflexivity|]. all: split; [reflexivity|].
  all: cbn [fb_data set_data] in *; apply Z.eqb_neq; assumption.
Qed.

(** X16. A run that returns zero has made its calls in one order, all on
    the descriptor it opened: open, read the resources, search the
    connectors, create the dumb buffer, register it, read the encoder, read
    the controller, ask for the mapping offset of the handle the kernel gave
    the dumb buffer, map as many bytes as the kernel said the buffer has at
    that offset, drop mastership, free the encoder; and every step has
    succeeded: the descriptor is not negative, the resources, the encoder
    and the controller state have been answered, the three statuses are
    zero and the mapping is not [MAP_FAILED]. *)
Theorem successful_run_order
  (dri_device connector_name : string) (selected_resolution : Z)
  (stack : locals) (s s' : state W) :
  get_framebuffer K dri_device connector_name selected_resolution stack s
  = (Ok 0, s') ->
  exists (fd : Z) (res : drmModeRes) (search : list event)
         (arg out : drm_mode_create_dumb) (w h : Z) (hs ps os : array4)
         (buf : option Z) (ide idc : Z) (enc : drmModeEncoder)
         (crtc : drmModeCrtc) (hdl off len ptr : Z),
    added s s' =
    EvOpen dri_device O_RDWR fd :: EvGetResources fd (Some res)
    :: search ++
       [EvCreateDumb fd arg 0 out;
        EvAddFB2 fd w h DRM_FORMAT_ABGR8888 hs ps os 0 0 buf;
        EvGetEncoder fd ide (Some enc);
        EvGetCrtc fd idc (Some crtc);
        EvMapDumb fd hdl 0 off;
        EvMmap 0 len (Z.lor PROT_READ PROT_WRITE) MAP_SHARED fd off ptr;
        EvDropMaster fd;
        EvFreeEncoder enc] /\
    Forall (fun e => is_connector_call e = true) search /\
    0 <= fd /\ hdl = handle out /\ len = size out /\ ptr <> MAP_FAILED.
Proof.
  intros Hrun.
  pose proof (get_framebuffer_sequence dri_device connector_name
                selected_resolution stack s) as Hwp.
  apply wp_run with (r := Ok 0) (s' := s') in Hwp; [|exact Hrun].
  destruct Hwp as [evs [Ht Hok]].
  rewrite (added_app s s' evs Ht).
  apply Hok. reflexivity.
Qed.

End Order.
Lemma successful_run_order_witness :
  exists (fd ptr : Z) (res : drmModeRes) (search rest : list event),
    calls_on card0 "HDMI-A-1" zero_fb =
    EvOpen "/dev/dri/card0" O_RDWR fd :: EvGetResources fd (Some res)
    :: search ++ rest /\
    Forall (fun e => is_connector_call e = true) search /\
    List.length rest = 8%nat /\
    0 <= fd /\ ptr <> MAP_FAILED.
Proof.
  destruct (successful_run_order (machine card0) "/dev/dri/card0" "HDMI-A-1"
              (-1) clean_stack (start zero_fb)
              (snd (run_on card0 "HDMI-A-1" zero_fb)))
    as [fd [res [search [arg [out [w [h [hs [ps [os [buf [ide [idc [enc
        [crtc [hdl [off [len [ptr [Hcalls [Hsearch [Hfd [_ [_ Hptr]]]]]]]]]
        ]]]]]]]]]]]]]]];
    [vm_compute; reflexivity|].
  exists fd, ptr, res, search.
  eexists. split; [exact Hcalls|]. split; [exact Hsearch|].
  split; [reflexivity|]. split; [exact Hfd|exact Hptr].
Defined.

(** ** A failure on a handle that is in use *)

Lemma release_steps_close (h : framebuffer) (ptr : option drmModeFB) :
  In (EvClose (fb_fd h)) (release_steps h ptr).
Proof.
  unfold release_steps, step_close.
  repeat (apply in_or_app; right). left. reflexivity.
Qed.

Lemma release_steps_connector (h : framebuffer) (ptr : option drmModeFB)
  (connector : drmModeConnector) :
  fb_connector h = Some connector ->
  In (EvFreeConnector connector) (release_steps h ptr).
Proof.
  intros Hc. unfold release_steps, step_connector. rewrite Hc.
  do 3 (apply in_or_app; right). left. reflexivity.
Qed.

Lemma release_steps_descriptor (h : framebuffer) (ptr : option drmModeFB) :
  Forall (fun e => forall fd, e = EvClose fd -> fd = fb_fd h)
    (release_steps h ptr).
Proof.
  unfold release_steps, step_master, step_crtc, step_buffer, step_connector,
    step_dumb, step_close.
  destruct (fb_crtc h); destruct (fb_buffer_id h =? 0);
    destruct (fb_connector h); destruct (handle (fb_dumb_framebuffer h) =? 0);
    simpl; repeat (apply Forall_cons; [intros fd H; try discriminate H|]);
    try apply Forall_nil; injection H as <-; reflexivity.
Qed.

(** To the calls of the release at the end of a trace. *)
Ltac to_release :=
  repeat lazymatch goal with
    | |- In _ (release_steps _ _) => fail
    | |- In _ (_ :: _) => right
    | |- In _ (_ ++ _) => apply in_or_app; right
    end.

Section Stale.

Context {W : Type} (K : kernel W).

Lemma get_framebuffer_on_used_handle (dri_device connector_name : string)
  (selected_resolution : Z) (stack : locals) (s : state W) :
  fb_fd (fb s) <> 0 ->
  wp (get_framebuffer K dri_device connector_name selected_resolution stack)
     (fun r s' => exists evs : list event,
        trace s' = trace s ++ evs /\
        Forall (fun e => forall fd, e = EvClose fd -> fd = fb_fd (fb s)) evs /\
        (forall err, r = Ok err -> err <> 0 ->
           (exists fd arg ret out, In (EvCreateDumb fd arg ret out) evs) ->
           In (EvClose (fb_fd (fb s))) evs /\
           forall connector,
             fb_connector (fb s) = Some connector ->
             In (EvFreeConnector connector) evs)) s.
Proof.
  destruct s as [w t h]. cbn [fb]. intros Hused.
  wp_run_all; trace_shape; cbn [fb] in *.
  all: try (simpl in *; contradiction).
  all: eexists; split; [reflexivity|].
  all: split;
    [ repeat lazymatch goal with
        | |- Forall _ [] => apply Forall_nil
        | |- Forall _ (release_steps ?h' ?p) =>
            exact (release_steps_descriptor h' p)
        | |- Forall _ (_ :: _) =>
            apply Forall_cons; [intros; discriminate|]
        | |- Forall _ (_ ++ _) =>
            apply Forall_app; split;
            [ eapply Forall_impl; [|eassumption];
              intros [] ?; intros; discriminate |]
        | |- Forall _ _ =>
            eapply Forall_impl; [|eassumption];
            intros [] ?; intros; discriminate
        end |].
  all: intros err Herr Hnz Hdumb; try discriminate Herr.
  all: try (exfalso; injection Herr as <-; passed_tests; congruence).
  all: try (exfalso; destruct Hdumb as [fd [arg [ret [out Hin]]]];
            simpl in Hin;
            repeat (destruct Hin as [Hin|Hin]; [discriminate Hin|]);
            first
              [ exact Hin
              | match goal with
                | Hcalls : Forall _ ?evs |- _ =>
                    rewrite Forall_forall in Hcalls;
                    apply Hcalls in Hin; discriminate Hin
                end ]).
  all: try match goal with
           | H : negb (- EINVAL =? 0) = false |- _ => discriminate H
           end.
  all: split; [|intros connector Hc]; to_release.
  all: match goal with
       | |- In (EvClose _) (release_steps ?h' ?p) =>
           exact (release_steps_close h' p)
       | |- In _ (release_steps ?h' ?p) =>
           exact (release_steps_connector h' p _ Hc)
       end.
Qed.

(** X17. A failure on a handle that is in use.  When [get_framebuffer] is
    given a handle whose descriptor is not zero and fails after it has asked
    for the dumb buffer, the release at [cleanup] works on what the handle
    held on entry: it closes the descriptor of the caller and frees the
    connector of the caller.  No run closes any other descriptor: the one
    the failing run has opened is closed only if it is that same number. *)
Theorem failure_releases_the_callers_handle
  (dri_device connector_name : string) (selected_resolution : Z)
  (stack : locals) (s s' : state W) (r : result Z) :
  get_framebuffer K dri_device connector_name selected_resolution stack s
  = (r, s') ->
  fb_fd (fb s) <> 0 ->
  (forall fd, In (EvClose fd) (added s s') -> fd = fb_fd (fb s)) /\
  (forall err fd arg ret out,
     r = Ok err -> err <> 0 ->
     In (EvCreateDumb fd arg ret out) (added s s') ->
     In (EvClose (fb_fd (fb s))) (added s s') /\
     forall connector,
       fb_connector (fb s) = Some connector ->
       In (EvFreeConnector connector) (added s s')).
Proof.
  intros Hrun Hused.
  pose proof (get_framebuffer_on_used_handle dri_device connector_name
                selected_resolution stack s Hused) as Hwp.
  apply wp_run with (r := r) (s' := s') in Hwp; [|exact Hrun].
  destruct Hwp as [evs [Ht [Hclose Hfail]]].
  rewrite (added_app s s' evs Ht).
  rewrite Forall_forall in Hclose.
  split.
  - intros fd Hin. eapply Hclose; [exact Hin|reflexivity].
  - intros err fd arg ret out Hr Hnz Hin.
    apply (Hfail err Hr Hnz). exists fd, arg, ret, out. exact Hin.
Qed.

End Stale.

Lemma failure_releases_the_callers_handle_witness :
  In (EvClose 9) (calls_on card_no_mmap "HDMI-A-1" stale_fb) /\
  In (EvFreeConnector dp) (calls_on card_no_mmap "HDMI-A-1" stale_fb).
Proof.
  destruct (failure_releases_the_callers_handle (machine card_no_mmap)
              "/dev/dri/card0" "HDMI-A-1" (-1) clean_stack (start stale_fb)
              (snd (run_on card_no_mmap "HDMI-A-1" stale_fb)) (Ok 12))
    as [_ Hfail].
  - vm_compute. reflexivity.
  - discriminate.
  - destruct (Hfail 12 3
                {| height := 768; width := 1024; bpp := 32; flags := 0;
                   handle := 0; pitch := 0; size := 0 |}
                0
                {| height := 768; width := 1024; bpp := 32; flags := 0;
                   handle := 1; pitch := 4096; size := 3145728 |})
      as [Hclose Hfree].
    + reflexivity.
    + discriminate.
    + vm_compute. do 5 right. left. reflexivity.
    + split; [exact Hclose|]. apply Hfree. reflexivity.
Defined.

(** ** A failure on a handle with a zero descriptor *)

Section Leak.

Context {W : Type} (K : kernel W).

Lemma get_framebuffer_on_zero_handle (dri_device connector_name : string)
  (selected_resolution : Z) (stack : locals) (s : state W) :
  fb_fd (fb s) = 0 ->
  wp (get_framebuffer K dri_device connector_name selected_resolution stack)
     (fun r s' => exists evs : list event,
        trace s' = trace s ++ evs /\
        (r <> Ok 0 ->
         fb_fd (fb s') = 0 /\
         Forall (fun e => is_release_call e = true ->
                          exists x, e = EvFreeConnector x /\
                                    connector_matches x connector_name
                                    = false) evs)) s.
Proof.
  destruct s as [w t h]. cbn [fb]. intros Hzero.
  wp_run_answer; trace_shape; cbn [fb] in *.
  all: try (simpl in *; contradiction).
  all: eexists; split; [reflexivity|].
  all: intros Hr; try (exfalso; apply Hr; reflexivity).
  all: try (exfalso; apply Hr; passed_tests; f_equal; congruence).
  all: split; [simpl; assumption|].
  all: only_mismatches_freed.
Qed.

(** X18. A failure on a handle whose descriptor is zero releases nothing
    of what the run has acquired, whatever the kernel is.  In a run that
    returns an error, the only calls that release anything are the frees
    of connectors that the search has fetched and that did not match the
    name: the descriptor is not closed, no connector that matches the name
    is freed, and no call is made on the dumb buffer, the registered buffer
    or the controller state.  The descriptor of the handle is still zero,
    so a call of [release_framebuffer] on the handle makes no call
    either. *)
Theorem failure_on_zero_handle_releases_nothing
  (dri_device connector_name : string) (selected_resolution : Z)
  (stack : locals) (s s' : state W) (err : Z) :
  get_framebuffer K dri_device connector_name selected_resolution stack s
  = (Ok err, s') ->
  err <> 0 ->
  fb_fd (fb s) = 0 ->
  Forall (fun e => is_release_call e = true ->
                   exists x, e = EvFreeConnector x /\
                             connector_matches x connector_name = false)
    (added s s') /\
  (forall connector,
     connector_matches connector connector_name = true ->
     ~ In (EvFreeConnector connector) (added s s')) /\
  release_framebuffer K s' = (Ok tt, s').
Proof.
  intros Hrun Hnz Hzero.
  pose proof (get_framebuffer_on_zero_handle dri_device connector_name
                selected_resolution stack s Hzero) as Hwp.
  apply wp_run with (r := Ok err) (s' := s') in Hwp; [|exact Hrun].
  destruct Hwp as [evs [Ht Hfail]].
  destruct Hfail as [Hfd Hfreed].
  { intros H. injection H as H. contradiction. }
  rewrite (added_app s s' evs Ht).
  split; [exact Hfreed|]. split.
  - intros connector Hm Hin. rewrite Forall_forall in Hfreed.
    destruct (Hfreed _ Hin eq_refl) as [x [Hx Hmiss]].
    injection Hx as <-. rewrite Hm in Hmiss. discriminate Hmiss.
  - apply release_framebuffer_zero. exact Hfd.
Qed.

End Leak.

Lemma failure_on_zero_handle_releases_nothing_witness :
  ~ In (EvFreeConnector hdmi) (calls_on card_no_mmap "HDMI-A-1" zero_fb) /\
  release_framebuffer (machine card_no_mmap)
    (snd (run_on card_no_mmap "HDMI-A-1" zero_fb))
  = (Ok tt, snd (run_on card_no_mmap "HDMI-A-1" zero_fb)).
Proof.
  destruct (failure_on_zero_handle_releases_nothing (machine card_no_mmap)
              "/dev/dri/card0" "HDMI-A-1" (-1) clean_stack (start zero_fb)
              (snd (run_on card_no_mmap "HDMI-A-1" zero_fb)) 12)
    as [_ [Hkept Hrelease]].
  - vm_compute. reflexivity.
  - discriminate.
  - reflexivity.
  - split; [|exact Hrelease]. apply Hkept. reflexivity.
Defined.

(** ** Calls the program never makes *)

(** A call of a trace that is neither [drmModeRmFB] nor the destroy request
    on a handle. *)
Ltac not_asked_for :=
  first
    [ split; intros; discriminate
    | exfalso;
      match goal with
      | H : _ = true |- _ => simpl in H; discriminate H
      end ].

Section Never.

Context {W : Type} (K : kernel W).

Lemma release_steps_requests (h : framebuffer) (ptr : option drmModeFB) :
  Forall (fun e => (forall fd buf, e <> EvRmFB fd buf) /\
                   (forall fd hdl, e <> EvDestroyDumbOf fd hdl))
    (release_steps h ptr).
Proof.
  eapply Forall_impl; [|apply release_steps_calls].
  intros [] H; not_asked_for.
Qed.

Lemma get_framebuffer_requests (dri_device connector_name : string)
  (selected_resolution : Z) (stack : locals) (s : state W) :
  wp (get_framebuffer K dri_device connector_name selected_resolution stack)
     (fun _ s' => exists evs : list event,
        trace s' = trace s ++ evs /\
        Forall (fun e => (forall fd buf, e <> EvRmFB fd buf) /\
                         (forall fd hdl, e <> EvDestroyDumbOf fd hdl))
          evs) s.
Proof.
  destruct s as [w t h].
  wp_run_all; trace_shape; cbn [fb] in *.
  all: eexists; split; [reflexivity|].
  all: repeat lazymatch goal with
         | |- Forall _ [] => apply Forall_nil
         | |- Forall _ (release_steps _ _) => apply release_steps_requests
         | |- Forall _ (_ :: _) =>
             apply Forall_cons; [split; intros; discriminate|]
         | |- Forall _ (_ ++ _) =>
             apply Forall_app; split;
             [ eapply Forall_impl; [|eassumption];
               intros [] ?; not_asked_for |]
         | |- Forall _ _ =>
             eapply Forall_impl; [|eassumption];
             intros [] ?; not_asked_for
         end.
Qed.

(** X19. Neither function ever calls [drmModeRmFB], and neither ever makes
    the request [DRM_IOCTL_MODE_DESTROY_DUMB] on the address of a request
    that names a handle.  What a release does about a buffer identifier
    that is not zero is to fetch the description of the buffer and to free
    that description; what it does about a dumb buffer whose handle is not
    zero is to hand the request the creation structure itself. *)
Theorem no_unregistration_no_destroy_request
  (dri_device connector_name : string) (selected_resolution : Z)
  (stack : locals) (s s1 s2 : state W) (r : result Z) :
  get_framebuffer K dri_device connector_name selected_resolution stack s
  = (r, s1) ->
  release_framebuffer K s1 = (Ok tt, s2) ->
  (forall fd buf,
     ~ In (EvRmFB fd buf) (added s s1) /\ ~ In (EvRmFB fd buf) (added s1 s2)) /\
  (forall fd hdl,
     ~ In (EvDestroyDumbOf fd hdl) (added s s1) /\
     ~ In (EvDestroyDumbOf fd hdl) (added s1 s2)) /\
  (fb_fd (fb s1) <> 0 ->
   (fb_buffer_id (fb s1) <> 0 ->
    exists ptr,
      In (EvGetFB (fb_fd (fb s1)) (fb_buffer_id (fb s1)) ptr) (added s1 s2) /\
      In (EvFreeFB ptr) (added s1 s2)) /\
   (handle (fb_dumb_framebuffer (fb s1)) <> 0 ->
    In (EvDestroyDumb (fb_fd (fb s1)) (fb_dumb_framebuffer (fb s1)))
       (added s1 s2))).
Proof.
  intros Hrun Hrel.
  pose proof (get_framebuffer_requests dri_device connector_name
                selected_resolution stack s) as Hwp.
  apply wp_run with (r := r) (s' := s1) in Hwp; [|exact Hrun].
  destruct Hwp as [evs [Ht Hevs]].
  rewrite (added_app s s1 evs Ht). rewrite Forall_forall in Hevs.
  assert (Hsteps : fb_fd (fb s1) <> 0 ->
                   exists ptr, added s1 s2 = release_steps (fb s1) ptr).
  { intros Hfd.
    destruct (release_framebuffer_run K s1 Hfd) as [s' [ptr [Hrun' [Ht' _]]]].
    rewrite Hrel in Hrun'. injection Hrun' as <-.
    exists ptr. apply added_app. exact Ht'. }
  assert (Hnone : fb_fd (fb s1) = 0 -> added s1 s2 = []).
  { intros Hfd. rewrite (release_framebuffer_zero K s1 Hfd) in Hrel.
    injection Hrel as <-. unfold added. apply skipn_all. }
  assert (Hrelease : Forall (fun e => (forall fd buf, e <> EvRmFB fd buf) /\
                              (forall fd hdl, e <> EvDestroyDumbOf fd hdl))
                       (added s1 s2)).
  { destruct (Z.eq_dec (fb_fd (fb s1)) 0) as [Hfd|Hfd].
    - rewrite (Hnone Hfd). constructor.
    - destruct (Hsteps Hfd) as [ptr ->]. apply release_steps_requests. }
  rewrite Forall_forall in Hrelease.
  split; [|split].
  - intros fd buf. split; intros Hin.
    + destruct (Hevs _ Hin) as [H _]. exact (H fd buf eq_refl).
    + destruct (Hrelease _ Hin) as [H _]. exact (H fd buf eq_refl).
  - intros fd hdl. split; intros Hin.
    + destruct (Hevs _ Hin) as [_ H]. exact (H fd hdl eq_refl).
    + destruct (Hrelease _ Hin) as [_ H]. exact (H fd hdl eq_refl).
  - intros Hfd. destruct (Hsteps Hfd) as [ptr ->].
    unfold release_steps, step_buffer, step_dumb. split.
    + intros Hbuf. apply Z.eqb_neq in Hbuf. rewrite Hbuf. exists ptr.
      split; do 2 (apply in_or_app; right); apply in_or_app; left;
        [left; reflexivity|right; left; reflexivity].
    + intros Hdumb. apply Z.eqb_neq in Hdumb. rewrite Hdumb.
      do 4 (apply in_or_app; right). apply in_or_app. left.
      left. reflexivity.
Qed.

End Never.

Lemma no_unregistration_no_destroy_request_witness :
  exists s2 : state unit,
    release_framebuffer (machine card0)
      (snd (run_on card0 "HDMI-A-1" zero_fb)) = (Ok tt, s2) /\
    ~ In (EvRmFB 3 77) (added (snd (run_on card0 "HDMI-A-1" zero_fb)) s2) /\
    ~ In (EvDestroyDumbOf 3 1)
        (added (snd (run_on card0 "HDMI-A-1" zero_fb)) s2) /\
    In (EvDestroyDumb 3
          (fb_dumb_framebuffer (fb (snd (run_on card0 "HDMI-A-1" zero_fb)))))
       (added (snd (run_on card0 "HDMI-A-1" zero_fb)) s2).
Proof.
  eexists. split; [vm_compute; reflexivity|].
  match goal with
  | |- ~ In _ (added _ ?s2) /\ _ =>
      destruct (no_unregistration_no_destroy_request (machine card0)
                  "/dev/dri/card0" "HDMI-A-1" (-1) clean_stack
                  (start zero_fb) (snd (run_on card0 "HDMI-A-1" zero_fb))
                  s2 (Ok 0))
        as [Hrm [Hdestroy Hsteps]];
      [vm_compute; reflexivity|vm_compute; reflexivity|]
  end.
  destruct (Hrm 3 77) as [_ Hrm2]. destruct (Hdestroy 3 1) as [_ Hdestroy2].
  destruct Hsteps as [_ Hdumb]; [vm_compute; discriminate|].
  split; [exact Hrm2|]. split; [exact Hdestroy2|].
  apply Hdumb. vm_compute. discriminate.
Defined.
